(** * A shallow embedding of the Windows tray backend ([src/tray_windows.c])

    The file follows the C source function by function.  File-scope statics
    become the fields of one [state] record that every operation threads
    explicitly; the Win32 objects the code creates (popup menus, icons, the
    window class, the window, the thread message queue) live in the same
    record, next to a trace of the calls that matter for ordering.

    Conventions.
    - A [const char *] is modelled by the Rocq [string] of its characters
      before the terminating NUL; a NULL pointer is [None].
    - [int] and [UINT] values are [Z]; the only arithmetic on them that can
      leave its range, the running menu identifier, wraps modulo [2^32].
    - A pointer to a [struct tray_menu] is the path of array indices leading
      to it from the root array of the description.
    - A function pointer supplied by the caller is a number; what the caller's
      code does when it is called is given by the [Environment]. *)

From stdpp Require Import base list sorting strings gmap.
From Stdlib Require Import ZArith Lia Ascii.

Open Scope Z_scope.

(** ** Machine integers and Win32 constants *)

Definition to_UINT (z : Z) : Z := z mod 2 ^ 32.
Definition LOWORD (w : Z) : Z := Z.land w 0xFFFF.
Definition HIWORD (w : Z) : Z := Z.land (Z.shiftr w 16) 0xFFFF.

(** Values of the Windows SDK headers ([winuser.h], [shellapi.h]). *)
Definition WM_NULL : Z := 0x0000.
Definition WM_DESTROY : Z := 0x0002.
Definition WM_CLOSE : Z := 0x0010.
Definition WM_QUIT : Z := 0x0012.
Definition WM_CONTEXTMENU : Z := 0x007B.
Definition WM_COMMAND : Z := 0x0111.
Definition WM_INITMENUPOPUP : Z := 0x0117.
Definition WM_LBUTTONUP : Z := 0x0202.
Definition WM_RBUTTONUP : Z := 0x0205.
Definition WM_USER : Z := 0x0400.
Definition NIN_BALLOONUSERCLICK : Z := WM_USER + 5.

Definition NIM_ADD : Z := 0.
Definition NIM_MODIFY : Z := 1.
Definition NIM_DELETE : Z := 2.
Definition NIM_SETVERSION : Z := 4.
Definition NOTIFYICON_VERSION_4 : Z := 4.

Definition NIF_MESSAGE : Z := 0x01.
Definition NIF_ICON : Z := 0x02.
Definition NIF_TIP : Z := 0x04.
Definition NIF_INFO : Z := 0x10.
Definition NIF_GUID : Z := 0x20.
Definition NIF_SHOWTIP : Z := 0x80.

Definition NIIF_NONE : Z := 0x00.
Definition NIIF_USER : Z := 0x04.
Definition NIIF_LARGE_ICON : Z := 0x20.

Definition MF_SEPARATOR : Z := 0x0800.
Definition MFS_DISABLED : Z := 0x0003.
Definition MFS_CHECKED : Z := 0x0008.

(** Severities of [enum tray_log_level] ([src/tray.h]). *)
Definition TRAY_LOG_WARNING : Z := 2.
Definition TRAY_LOG_ERROR : Z := 3.

(** Macros of [tray_windows.c]. *)
Definition WM_TRAY_CALLBACK_MESSAGE : Z := WM_USER + 1.
Definition WC_TRAY_CLASS_NAME : string := "TRAY".
Definition ID_TRAY_FIRST : Z := 1000.

(** C truth values. *)
Definition truthy (z : Z) : bool := negb (z =? 0).
Definition lnot (z : Z) : Z := if z =? 0 then 1 else 0.

(** ** Character buffers *)

Definition NUL : ascii := Ascii.zero.

(** The C string held by a character array: the characters before the first
    NUL. *)
Fixpoint c_str (buf : list ascii) : list ascii :=
  match buf with
  | [] => []
  | c :: rest => if Ascii.eqb c NUL then [] else c :: c_str rest
  end.

(** [strncpy(dst, src, n)] writes exactly [n] characters: those of [src],
    cut after [n] or padded with NULs up to [n].  A count above the size of
    [dst] would show as a longer result. *)
Definition strncpy (dst : list ascii) (src : string) (n : nat) : list ascii :=
  take n (String.list_ascii_of_string src ++ replicate n NUL) ++ drop n dst.

Definition STRSAFE_MAX_CCH : Z := 2147483647.

(** [StringCchCopyA(dst, cch, src)] from [strsafe.h]: a count of 0 or above
    [STRSAFE_MAX_CCH] is refused and nothing is written; any other count
    copies at most [cch - 1] characters and always writes the terminator
    after them; the characters behind the terminator are left alone. *)
Definition StringCchCopyA (dst : list ascii) (cch : nat) (src : string) : list ascii :=
  if (cch =? 0)%nat || (STRSAFE_MAX_CCH <? Z.of_nat cch) then dst
  else
    let copied := take (cch - 1) (String.list_ascii_of_string src) in
    copied ++ NUL :: drop (S (length copied)) dst.

(** [safe_copy_sz]: [dst] is always one of the arrays of [nid], never NULL. *)
Definition safe_copy_sz (dst : list ascii) (dstcch : nat) (src : option string) : list ascii :=
  if decide (dstcch = 0%nat) then dst
  else match src with
       | None => <[0%nat := NUL]> dst
       | Some s => StringCchCopyA dst dstcch s
       end.

(** ** The caller's menu description ([struct tray_menu], [src/tray.h])

    An array of items is the list of its entries before the sentinel (the
    entry whose [text] is NULL); the sentinel itself is the end of the list,
    so [text] is never NULL here.  [cb] is a function pointer, [None] when
    NULL; [submenu] is [None] when NULL. *)
#[warnings="-register-all"]
Inductive tray_menu : Type := Build_tray_menu {
  text : string;
  disabled : Z;
  checked : Z;
  checkbox : Z;
  cb : option nat;
  context : Z;
  submenu : option (list tray_menu)
}.

Definition set_checked (v : Z) (m : tray_menu) : tray_menu :=
  Build_tray_menu (text m) (disabled m) v (checkbox m) (cb m) (context m) (submenu m).

Definition set_submenu (s : option (list tray_menu)) (m : tray_menu) : tray_menu :=
  Build_tray_menu (text m) (disabled m) (checked m) (checkbox m) (cb m) (context m) s.

(** Dereferencing and updating through a pointer (a path of indices). *)
Fixpoint node_at (m : list tray_menu) (p : list nat) : option tray_menu :=
  match p with
  | [] => None
  | i :: p' =>
      match p' with
      | [] => m !! i
      | _ => match m !! i with
             | Some n => match submenu n with
                         | Some s => node_at s p'
                         | None => None
                         end
             | None => None
             end
      end
  end.

Fixpoint node_alter (f : tray_menu → tray_menu) (p : list nat) (m : list tray_menu)
    : list tray_menu :=
  match p with
  | [] => m
  | i :: p' =>
      match p' with
      | [] => alter f i m
      | _ => alter (λ n, set_submenu (node_alter f p' <$> submenu n) n) i m
      end
  end.

(** ** Native popup menus

    The items of a popup menu, with the members of [MENUITEMINFOA] the code
    sets or reads.  A submenu is owned by its item ([DestroyMenu] is
    recursive), so it is nested in it.  [dwItemData] is the back-reference
    to the description's item, [None] when 0. *)
#[warnings="-register-all"]
Inductive MENUITEM : Type := Build_MENUITEM {
  fType : Z;
  fState : Z;
  wID : Z;
  hSubMenu : option (list MENUITEM);
  dwTypeData : string;
  dwItemData : option (list nat)
}.

Definition set_fState (v : Z) (it : MENUITEM) : MENUITEM :=
  Build_MENUITEM (fType it) v (wID it) (hSubMenu it) (dwTypeData it) (dwItemData it).

Definition set_hSubMenu (s : option (list MENUITEM)) (it : MENUITEM) : MENUITEM :=
  Build_MENUITEM (fType it) (fState it) (wID it) s (dwTypeData it) (dwItemData it).

Fixpoint item_at (h : list MENUITEM) (np : list nat) : option MENUITEM :=
  match np with
  | [] => None
  | i :: np' =>
      match np' with
      | [] => h !! i
      | _ => match h !! i with
             | Some it => match hSubMenu it with
                          | Some s => item_at s np'
                          | None => None
                          end
             | None => None
             end
      end
  end.

Fixpoint item_alter (f : MENUITEM → MENUITEM) (np : list nat) (h : list MENUITEM)
    : list MENUITEM :=
  match np with
  | [] => h
  | i :: np' =>
      match np' with
      | [] => alter f i h
      | _ => alter (λ it, set_hSubMenu (item_alter f np' <$> hSubMenu it) it) i h
      end
  end.

Fixpoint item_insert_before (new : MENUITEM) (np : list nat) (h : list MENUITEM)
    : list MENUITEM :=
  match np with
  | [] => h ++ [new]
  | i :: np' =>
      match np' with
      | [] => take i h ++ new :: drop i h
      | _ => alter (λ it, set_hSubMenu (item_insert_before new np' <$> hSubMenu it) it) i h
      end
  end.

(** Looking an item up by its identifier, as the menu functions do for
    [MF_BYCOMMAND]: the menu and its submenus are searched.  An item that
    opens a submenu is a match only when nothing else is.  Which of several
    items with one identifier is found is not documented; the model fixes
    one order. *)
Definition next_sibling (np : list nat) : list nat :=
  match np with
  | [] => []
  | i :: np' => S i :: np'
  end.

Section MNLookUpItem.
Variable wCmd : Z.
Variable below : MENUITEM → option (list nat).

Fixpoint lookup_items (items : list MENUITEM) : option (list nat) :=
  match items with
  | [] => None
  | it :: rest =>
      match hSubMenu it with
      | Some _ =>
          match below it with
          | Some np => Some (0%nat :: np)
          | None =>
              match lookup_items rest with
              | Some np => Some (next_sibling np)
              | None => if wID it =? wCmd then Some [0%nat] else None
              end
          end
      | None =>
          if wID it =? wCmd then Some [0%nat] else next_sibling <$> lookup_items rest
      end
  end.
End MNLookUpItem.

Fixpoint lookup_below (wCmd : Z) (it : MENUITEM) {struct it} : option (list nat) :=
  match hSubMenu it with
  | Some sub => lookup_items wCmd (lookup_below wCmd) sub
  | None => None
  end.

Definition MNLookUpItem (wCmd : Z) (h : list MENUITEM) : option (list nat) :=
  lookup_items wCmd (lookup_below wCmd) h.

(** [InsertMenuA(hmenu, uPosition, MF_SEPARATOR, 0, NULL)]: [uPosition] is
    an identifier ([MF_BYCOMMAND] is 0); the separator goes before the item
    with that identifier, at the end when there is none.  A separator has
    no identifier, no text and no item data. *)
Definition separator_item : MENUITEM :=
  Build_MENUITEM MF_SEPARATOR 0 0 None "" None.

Definition InsertMenuA_separator (h : list MENUITEM) (uPosition : Z) : list MENUITEM :=
  match MNLookUpItem uPosition h with
  | Some np => item_insert_before separator_item np h
  | None => h ++ [separator_item]
  end.

(** [InsertMenuItemA(hmenu, item, TRUE, &info)]: by position; a position
    past the last item appends. *)
Definition InsertMenuItemA (h : list MENUITEM) (pos : Z) (info : MENUITEM) : list MENUITEM :=
  take (Z.to_nat pos) h ++ info :: drop (Z.to_nat pos) h.

(** [GetMenuItemInfoA(hmenu, item, FALSE, &info)], [None] when it returns
    FALSE. *)
Definition GetMenuItemInfoA (h : list MENUITEM) (item : Z) : option MENUITEM :=
  match MNLookUpItem item h with
  | Some np => item_at h np
  | None => None
  end.

(** [SetMenuItemInfoA(hmenu, item, FALSE, &info)] with [fMask = MIIM_STATE]. *)
Definition SetMenuItemInfoA_state (h : list MENUITEM) (item : Z) (state : Z) : list MENUITEM :=
  match MNLookUpItem item h with
  | Some np => item_alter (set_fState state) np h
  | None => h
  end.

(** ** [_tray_menu]

    The [for] loop over one array: [addr] is the address of the array, [i]
    the index of [m] in it, [hmenu] the items inserted so far and [id] the
    value of [*id].  [body] is one pass through the loop body. *)
Section tray_menu_for.
Variable body : list nat → tray_menu → list MENUITEM → Z → list MENUITEM * Z.

Fixpoint _tray_menu_for (addr : list nat) (i : nat) (m : list tray_menu)
    (hmenu : list MENUITEM) (id : Z) : list MENUITEM * Z :=
  match m with
  | [] => (hmenu, id)
  | n :: rest =>
      let '(hmenu', id') := body (addr ++ [i]) n hmenu id in
      _tray_menu_for addr (S i) rest hmenu' (to_UINT (id' + 1))
  end.
End tray_menu_for.

Fixpoint _tray_menu_body (p : list nat) (m : tray_menu) (hmenu : list MENUITEM) (id : Z)
    {struct m} : list MENUITEM * Z :=
  if decide (text m = "-") then
    (InsertMenuA_separator hmenu id, id)
  else
    let '(sub, id) :=
      match submenu m with
      | Some s =>
          let '(h, id') := _tray_menu_for _tray_menu_body p 0 s [] id in (Some h, id')
      | None => (None, id)
      end in
    let state := 0 in
    let state := if truthy (disabled m) then Z.lor state MFS_DISABLED else state in
    let state := if truthy (checked m) then Z.lor state MFS_CHECKED else state in
    let item := Build_MENUITEM 0 state id sub (text m) (Some p) in
    (InsertMenuItemA hmenu id item, id).

Definition _tray_menu (m : option (list tray_menu)) (id : Z) : list MENUITEM * Z :=
  match m with
  | Some m => _tray_menu_for _tray_menu_body [] 0 m [] id
  | None => ([], id)
  end.

(** Every call of [_tray_menu] starts with [CreatePopupMenu] (line 190), so
    one build makes one menu for the array it is given and one for every
    submenu it enters (line 203): that of every item with a submenu that is
    not a separator.  [submenus_below] counts the latter for one item. *)
Section submenus_for.
Variable below : tray_menu → nat.

Fixpoint submenus_for (m : list tray_menu) : nat :=
  match m with
  | [] => 0
  | n :: rest => below n + submenus_for rest
  end.
End submenus_for.

Fixpoint submenus_below (m : tray_menu) {struct m} : nat :=
  if decide (text m = "-") then 0%nat
  else match submenu m with
       | Some s => S (submenus_for submenus_below s)
       | None => 0%nat
       end.

Definition submenus_created (m : option (list tray_menu)) : nat :=
  match m with
  | Some m => submenus_for submenus_below m
  | None => 0%nat
  end.

(** ** Icons, the notify-icon record and the tray description *)

Inductive IconType : Type := REGULAR | LARGE | NOTIFICATION.

(** [struct icon_info]; the handles are 0 when NULL. *)
Module icon_info.
Record t : Type := mk {
  path : string;
  icon : Z;
  large_icon : Z;
  notification_icon : Z
}.
End icon_info.

(** The members of [NOTIFYICONDATAA] the code touches.  [szTip], [szInfo]
    and [szInfoTitle] are character arrays of 128, 256 and 64 elements
    ([shellapi.h]); [cbSize] is a layout matter and left out. *)
Record NOTIFYICONDATAA : Type := Build_NOTIFYICONDATAA {
  hWnd : Z;
  uID : Z;
  uFlags : Z;
  uCallbackMessage : Z;
  hIcon : Z;
  szTip : list ascii;
  szInfo : list ascii;
  uVersion : Z;
  szInfoTitle : list ascii;
  dwInfoFlags : Z;
  guidItem : Z;
  hBalloonIcon : Z
}.

Definition set_hWnd (v : Z) (s : NOTIFYICONDATAA) : NOTIFYICONDATAA :=
  Build_NOTIFYICONDATAA v (uID s) (uFlags s) (uCallbackMessage s) (hIcon s) (szTip s)
    (szInfo s) (uVersion s) (szInfoTitle s) (dwInfoFlags s) (guidItem s) (hBalloonIcon s).
Definition set_uID (v : Z) (s : NOTIFYICONDATAA) : NOTIFYICONDATAA :=
  Build_NOTIFYICONDATAA (hWnd s) v (uFlags s) (uCallbackMessage s) (hIcon s) (szTip s)
    (szInfo s) (uVersion s) (szInfoTitle s) (dwInfoFlags s) (guidItem s) (hBalloonIcon s).
Definition set_uFlags (v : Z) (s : NOTIFYICONDATAA) : NOTIFYICONDATAA :=
  Build_NOTIFYICONDATAA (hWnd s) (uID s) v (uCallbackMessage s) (hIcon s) (szTip s)
    (szInfo s) (uVersion s) (szInfoTitle s) (dwInfoFlags s) (guidItem s) (hBalloonIcon s).
Definition set_uCallbackMessage (v : Z) (s : NOTIFYICONDATAA) : NOTIFYICONDATAA :=
  Build_NOTIFYICONDATAA (hWnd s) (uID s) (uFlags s) v (hIcon s) (szTip s) (szInfo s)
    (uVersion s) (szInfoTitle s) (dwInfoFlags s) (guidItem s) (hBalloonIcon s).
Definition set_hIcon (v : Z) (s : NOTIFYICONDATAA) : NOTIFYICONDATAA :=
  Build_NOTIFYICONDATAA (hWnd s) (uID s) (uFlags s) (uCallbackMessage s) v (szTip s)
    (szInfo s) (uVersion s) (szInfoTitle s) (dwInfoFlags s) (guidItem s) (hBalloonIcon s).
Definition set_szTip (v : list ascii) (s : NOTIFYICONDATAA) : NOTIFYICONDATAA :=
  Build_NOTIFYICONDATAA (hWnd s) (uID s) (uFlags s) (uCallbackMessage s) (hIcon s) v
    (szInfo s) (uVersion s) (szInfoTitle s) (dwInfoFlags s) (guidItem s) (hBalloonIcon s).
Definition set_szInfo (v : list ascii) (s : NOTIFYICONDATAA) : NOTIFYICONDATAA :=
  Build_NOTIFYICONDATAA (hWnd s) (uID s) (uFlags s) (uCallbackMessage s) (hIcon s)
    (szTip s) v (uVersion s) (szInfoTitle s) (dwInfoFlags s) (guidItem s)
    (hBalloonIcon s).
Definition set_uVersion (v : Z) (s : NOTIFYICONDATAA) : NOTIFYICONDATAA :=
  Build_NOTIFYICONDATAA (hWnd s) (uID s) (uFlags s) (uCallbackMessage s) (hIcon s)
    (szTip s) (szInfo s) v (szInfoTitle s) (dwInfoFlags s) (guidItem s) (hBalloonIcon s).
Definition set_szInfoTitle (v : list ascii) (s : NOTIFYICONDATAA) : NOTIFYICONDATAA :=
  Build_NOTIFYICONDATAA (hWnd s) (uID s) (uFlags s) (uCallbackMessage s) (hIcon s)
    (szTip s) (szInfo s) (uVersion s) v (dwInfoFlags s) (guidItem s) (hBalloonIcon s).
Definition set_dwInfoFlags (v : Z) (s : NOTIFYICONDATAA) : NOTIFYICONDATAA :=
  Build_NOTIFYICONDATAA (hWnd s) (uID s) (uFlags s) (uCallbackMessage s) (hIcon s)
    (szTip s) (szInfo s) (uVersion s) (szInfoTitle s) v (guidItem s) (hBalloonIcon s).
Definition set_guidItem (v : Z) (s : NOTIFYICONDATAA) : NOTIFYICONDATAA :=
  Build_NOTIFYICONDATAA (hWnd s) (uID s) (uFlags s) (uCallbackMessage s) (hIcon s)
    (szTip s) (szInfo s) (uVersion s) (szInfoTitle s) (dwInfoFlags s) v (hBalloonIcon s).
Definition set_hBalloonIcon (v : Z) (s : NOTIFYICONDATAA) : NOTIFYICONDATAA :=
  Build_NOTIFYICONDATAA (hWnd s) (uID s) (uFlags s) (uCallbackMessage s) (hIcon s)
    (szTip s) (szInfo s) (uVersion s) (szInfoTitle s) (dwInfoFlags s) (guidItem s) v.

Definition SZTIP_SIZE : nat := 128.
Definition SZINFO_SIZE : nat := 256.
Definition SZINFOTITLE_SIZE : nat := 64.

(** [memset(&nid, 0, sizeof(nid))], also the value of the zero-initialised
    static. *)
Definition nid_zero : NOTIFYICONDATAA :=
  Build_NOTIFYICONDATAA 0 0 0 0 0 (replicate SZTIP_SIZE NUL) (replicate SZINFO_SIZE NUL) 0
    (replicate SZINFOTITLE_SIZE NUL) 0 0 0.

Definition kTrayGuid : Z := 0xC1A1C4E17C424DB493B42E9E0D7A8E31.

(** [struct tray] ([src/tray.h]); [iconPathCount] is the length of
    [allIconPaths].  [icon] is passed to [strcmp] unchecked, so it is never
    NULL. *)
Record tray : Type := Build_tray {
  icon : string;
  tooltip : option string;
  notification_icon : option string;
  notification_text : option string;
  notification_title : option string;
  notification_cb : option nat;
  menu : option (list tray_menu);
  allIconPaths : list string
}.

(** ** The state of the process

    A queued message: [message], [wParam], [lParam]. *)
Record MSG : Type := Build_MSG { message : Z; wParam : Z; lParam : Z }.

(** Calls worth remembering, oldest first. *)
Inductive event : Type :=
  | EvShell_NotifyIconA (dwMessage : Z) (data : NOTIFYICONDATAA)
  | EvCreatePopupMenu (h : Z)
  | EvDestroyMenu (h : Z)
  | EvDecodeIcon (file : string) (kind : IconType)
  | EvSendMessage (msg wparam lparam : Z)
  | EvPostMessage (msg wparam lparam : Z)
  | EvPostQuitMessage
  | EvDestroyWindow (h : Z)
  | EvDefWindowProc (msg wparam lparam : Z)
  | EvTrackPopupMenu (h : Z)
  | EvMenuCallback (f : nat) (m : list nat) (seen : tray_menu)
  | EvNotificationCallback (f : nat)
  | EvLog (level : Z) (context : string).

(** The statics of [tray_windows.c] under their own names (the static
    [notification_cb] is [g_notification_cb] here, the name being taken by
    the member of [struct tray]; [icon_info_count] is the length of
    [icon_infos]; [g_tray] holds the caller's description it points to),
    then what the operating system holds for the process: the next handle
    it will hand out, the live top-level menus, the live icons, whether
    the window class is registered, the live windows, the message queue of
    the thread; then the trace. *)
Record state : Type := Build_state {
  nid : NOTIFYICONDATAA;
  hwnd : Z;
  hmenu : Z;
  g_notification_cb : option nat;
  wm_taskbarcreated : Z;
  g_tray : option tray;
  icon_infos : list icon_info.t;
  g_tray_log_cb : option nat;
  os_next_handle : Z;
  os_menus : gmap Z (list MENUITEM);
  os_icons : gset Z;
  os_class : bool;
  os_windows : gset Z;
  os_queue : list MSG;
  trace : list event
}.

Definition set_nid (v : NOTIFYICONDATAA) (s : state) : state :=
  Build_state v (hwnd s) (hmenu s) (g_notification_cb s) (wm_taskbarcreated s)
    (g_tray s) (icon_infos s) (g_tray_log_cb s) (os_next_handle s) (os_menus s)
    (os_icons s) (os_class s) (os_windows s) (os_queue s) (trace s).
Definition set_hwnd (v : Z) (s : state) : state :=
  Build_state (nid s) v (hmenu s) (g_notification_cb s) (wm_taskbarcreated s) (g_tray s)
    (icon_infos s) (g_tray_log_cb s) (os_next_handle s) (os_menus s) (os_icons s)
    (os_class s) (os_windows s) (os_queue s) (trace s).
Definition set_hmenu (v : Z) (s : state) : state :=
  Build_state (nid s) (hwnd s) v (g_notification_cb s) (wm_taskbarcreated s) (g_tray s)
    (icon_infos s) (g_tray_log_cb s) (os_next_handle s) (os_menus s) (os_icons s)
    (os_class s) (os_windows s) (os_queue s) (trace s).
Definition set_g_notification_cb (v : option nat) (s : state) : state :=
  Build_state (nid s) (hwnd s) (hmenu s) v (wm_taskbarcreated s) (g_tray s)
    (icon_infos s) (g_tray_log_cb s) (os_next_handle s) (os_menus s) (os_icons s)
    (os_class s) (os_windows s) (os_queue s) (trace s).
Definition set_wm_taskbarcreated (v : Z) (s : state) : state :=
  Build_state (nid s) (hwnd s) (hmenu s) (g_notification_cb s) v (g_tray s)
    (icon_infos s) (g_tray_log_cb s) (os_next_handle s) (os_menus s) (os_icons s)
    (os_class s) (os_windows s) (os_queue s) (trace s).
Definition set_g_tray (v : option tray) (s : state) : state :=
  Build_state (nid s) (hwnd s) (hmenu s) (g_notification_cb s) (wm_taskbarcreated s) v
    (icon_infos s) (g_tray_log_cb s) (os_next_handle s) (os_menus s) (os_icons s)
    (os_class s) (os_windows s) (os_queue s) (trace s).
Definition set_icon_infos (v : list icon_info.t) (s : state) : state :=
  Build_state (nid s) (hwnd s) (hmenu s) (g_notification_cb s) (wm_taskbarcreated s)
    (g_tray s) v (g_tray_log_cb s) (os_next_handle s) (os_menus s) (os_icons s)
    (os_class s) (os_windows s) (os_queue s) (trace s).
Definition set_g_tray_log_cb (v : option nat) (s : state) : state :=
  Build_state (nid s) (hwnd s) (hmenu s) (g_notification_cb s) (wm_taskbarcreated s)
    (g_tray s) (icon_infos s) v (os_next_handle s) (os_menus s) (os_icons s)
    (os_class s) (os_windows s) (os_queue s) (trace s).
Definition set_os_next_handle (v : Z) (s : state) : state :=
  Build_state (nid s) (hwnd s) (hmenu s) (g_notification_cb s) (wm_taskbarcreated s)
    (g_tray s) (icon_infos s) (g_tray_log_cb s) v (os_menus s) (os_icons s) (os_class s)
    (os_windows s) (os_queue s) (trace s).
Definition set_os_menus (v : gmap Z (list MENUITEM)) (s : state) : state :=
  Build_state (nid s) (hwnd s) (hmenu s) (g_notification_cb s) (wm_taskbarcreated s)
    (g_tray s) (icon_infos s) (g_tray_log_cb s) (os_next_handle s) v (os_icons s)
    (os_class s) (os_windows s) (os_queue s) (trace s).
Definition set_os_icons (v : gset Z) (s : state) : state :=
  Build_state (nid s) (hwnd s) (hmenu s) (g_notification_cb s) (wm_taskbarcreated s)
    (g_tray s) (icon_infos s) (g_tray_log_cb s) (os_next_handle s) (os_menus s) v
    (os_class s) (os_windows s) (os_queue s) (trace s).
Definition set_os_class (v : bool) (s : state) : state :=
  Build_state (nid s) (hwnd s) (hmenu s) (g_notification_cb s) (wm_taskbarcreated s)
    (g_tray s) (icon_infos s) (g_tray_log_cb s) (os_next_handle s) (os_menus s)
    (os_icons s) v (os_windows s) (os_queue s) (trace s).
Definition set_os_windows (v : gset Z) (s : state) : state :=
  Build_state (nid s) (hwnd s) (hmenu s) (g_notification_cb s) (wm_taskbarcreated s)
    (g_tray s) (icon_infos s) (g_tray_log_cb s) (os_next_handle s) (os_menus s)
    (os_icons s) (os_class s) v (os_queue s) (trace s).
Definition set_os_queue (v : list MSG) (s : state) : state :=
  Build_state (nid s) (hwnd s) (hmenu s) (g_notification_cb s) (wm_taskbarcreated s)
    (g_tray s) (icon_infos s) (g_tray_log_cb s) (os_next_handle s) (os_menus s)
    (os_icons s) (os_class s) (os_windows s) v (trace s).
Definition set_trace (v : list event) (s : state) : state :=
  Build_state (nid s) (hwnd s) (hmenu s) (g_notification_cb s) (wm_taskbarcreated s)
    (g_tray s) (icon_infos s) (g_tray_log_cb s) (os_next_handle s) (os_menus s)
    (os_icons s) (os_class s) (os_windows s) (os_queue s) v.

Definition icon_info_count (s : state) : Z := Z.of_nat (length (icon_infos s)).

(** Before [tray_init]: zero-initialised statics, nothing allocated. *)
Definition initial_state : state :=
  Build_state nid_zero 0 0 None 0 None [] None 1 ∅ ∅ false ∅ [] [].

Definition emit (e : event) (s : state) : state := set_trace (trace s ++ [e]) s.

(** The part of the world the code does not decide: what the caller's
    callbacks do, what the Win32 calls answer, and which of the two
    optional SDK macros the build sees. *)
Record Environment : Type := Build_Environment {
  call_menu_cb : nat → list nat → state → state;
  call_notification_cb : nat → state → state;
  RegisterWindowMessageA : string → Z;
  RegisterClassExA_ok : state → bool;
  CreateWindowExA_ok : state → bool;
  Shell_NotifyIconA_ok : Z → state → bool;
  icon_decodes : string → IconType → bool;
  TrackPopupMenu : state → Z;
  GetMessageA_fails : state → bool;
  defined_NIF_SHOWTIP : bool;
  defined_NIIF_LARGE_ICON : bool
}.

(** The result of one call of [tray_loop]: it returned, it is suspended in
    [GetMessageA], or the model ran out of fuel while draining. *)
Inductive loop_result : Type :=
  | Returned (r : Z) (s : state)
  | Suspended
  | OutOfFuel.

Section Tray.
Variable env : Environment.

(** ** Logging *)

Definition tray_set_log_callback (cb : option nat) (s : state) : state :=
  set_g_tray_log_cb cb s.

(** [tray_log] and [tray_log_last_error]: the formatted text is not
    modelled, only that the sink was called. *)
Definition tray_log (level : Z) (context : string) (s : state) : state :=
  match g_tray_log_cb s with
  | Some _ => emit (EvLog level context) s
  | None => s
  end.

Definition tray_log_last_error (level : Z) (context : string) (s : state) : state :=
  tray_log level context s.

(** Lines 85 to 94, the text [tray_log_last_error] passes on.  [message]
    is the array [FormatMessageA] wrote [len] characters to; [len] is less
    than the size of the array, and an element that is not there reads as
    NUL.  The loop cuts line ends off the end of the message. *)
Definition is_line_end (c : ascii) : bool :=
  Ascii.eqb c "010" || Ascii.eqb c "013".

Fixpoint trim_line_ends (message : list ascii) (len : nat) : list ascii * nat :=
  match len with
  | O => (message, O)
  | S len' =>
      if is_line_end (default NUL (message !! len'))
      then trim_line_ends (<[len' := NUL]> message) len'
      else (message, len)
  end.

(** [None] stands for the report without a message text. *)
Definition last_error_message (message : list ascii) (len : nat) : option (list ascii) :=
  if (len =? 0)%nat || Ascii.eqb (default NUL (message !! 0%nat)) NUL then None
  else Some (c_str (trim_line_ends message len).1).

(** ** Win32 calls that change the state *)

Definition upd_nid (f : NOTIFYICONDATAA → NOTIFYICONDATAA) (s : state) : state :=
  set_nid (f (nid s)) s.

Definition Shell_NotifyIconA (dwMessage : Z) (s : state) : bool * state :=
  (Shell_NotifyIconA_ok env dwMessage s, emit (EvShell_NotifyIconA dwMessage (nid s)) s).

(** A top-level popup menu with the given items becomes a live object
    under a fresh handle. *)
Definition CreatePopupMenu (items : list MENUITEM) (s : state) : Z * state :=
  let h := os_next_handle s in
  (h, emit (EvCreatePopupMenu h)
        (set_os_menus (<[h := items]> (os_menus s)) (set_os_next_handle (h + 1) s))).

(** The popup menus of the submenus of one build.  A submenu is nested in
    the item that owns it, so what is left of its creation is the call
    and the handle it takes; the calls come in the order in which the
    build enters the submenus. *)
Fixpoint CreatePopupMenu_submenus (k : nat) (s : state) : state :=
  match k with
  | O => s
  | S k =>
      let h := os_next_handle s in
      CreatePopupMenu_submenus k (emit (EvCreatePopupMenu h) (set_os_next_handle (h + 1) s))
  end.

Definition DestroyMenu (h : Z) (s : state) : state :=
  emit (EvDestroyMenu h) (set_os_menus (delete h (os_menus s)) s).

Definition DestroyIcon (h : Z) (s : state) : state :=
  set_os_icons (os_icons s ∖ {[h]}) s.

(** [ExtractIconExA] for one size, or [LoadImageA]: a fresh icon handle,
    or NULL when the file gives no such image ([ExtractIconExA] is taken
    to leave NULL in the handle it was to fill). *)
Definition decode_icon (file : string) (kind : IconType) (s : state) : Z * state :=
  let s := emit (EvDecodeIcon file kind) s in
  if icon_decodes env file kind then
    let h := os_next_handle s in
    (h, set_os_icons ({[h]} ∪ os_icons s) (set_os_next_handle (h + 1) s))
  else (0, s).

Definition PostQuitMessage (s : state) : state :=
  emit EvPostQuitMessage (set_os_queue (os_queue s ++ [Build_MSG WM_QUIT 0 0]) s).

Definition PostMessage (msg wparam lparam : Z) (s : state) : state :=
  emit (EvPostMessage msg wparam lparam)
    (set_os_queue (os_queue s ++ [Build_MSG msg wparam lparam]) s).

(** [DestroyWindow] sends [WM_DESTROY] to the window procedure before it
    returns; the procedure answers with [PostQuitMessage(0)]. *)
Definition DestroyWindow (h : Z) (s : state) : state :=
  let live := bool_decide (h ∈ os_windows s) in
  let s := emit (EvDestroyWindow h) (set_os_windows (os_windows s ∖ {[h]}) s) in
  if live then PostQuitMessage s else s.

Definition RegisterClassExA (s : state) : bool * state :=
  if RegisterClassExA_ok env s then (true, set_os_class true s) else (false, s).

Definition UnregisterClassA (s : state) : state := set_os_class false s.

Definition CreateWindowExA (s : state) : Z * state :=
  if CreateWindowExA_ok env s then
    let h := os_next_handle s in
    (h, set_os_windows ({[h]} ∪ os_windows s) (set_os_next_handle (h + 1) s))
  else (0, s).

(** ** The icon cache *)

Definition _create_icon_info (path : string) (s : state) : icon_info.t * state :=
  let '(large, s) := decode_icon path LARGE s in
  let '(small, s) := decode_icon path REGULAR s in
  let '(notif, s) := decode_icon path NOTIFICATION s in
  (icon_info.mk path small large notif, s).

(** The loop of [_init_icon_cache]; the array is filled front to back. *)
Fixpoint _init_icon_cache_for (paths : list string) (s : state) : state :=
  match paths with
  | [] => s
  | p :: rest =>
      let '(info, s) := _create_icon_info p s in
      _init_icon_cache_for rest (set_icon_infos (icon_infos s ++ [info]) s)
  end.

Definition _init_icon_cache (paths : list string) (s : state) : state :=
  _init_icon_cache_for paths (set_icon_infos [] s).

Definition destroy_entry (e : icon_info.t) (s : state) : state :=
  let s := if icon_info.icon e =? 0 then s else DestroyIcon (icon_info.icon e) s in
  let s := if icon_info.large_icon e =? 0 then s else DestroyIcon (icon_info.large_icon e) s in
  if icon_info.notification_icon e =? 0 then s
  else DestroyIcon (icon_info.notification_icon e) s.

Definition _destroy_icon_cache (s : state) : state :=
  set_icon_infos [] (foldl (λ s e, destroy_entry e s) s (icon_infos s)).

Definition _fetch_cached_icon (icon_record : icon_info.t) (icon_type : IconType) : Z :=
  match icon_type with
  | REGULAR => icon_info.icon icon_record
  | LARGE => icon_info.large_icon icon_record
  | NOTIFICATION => icon_info.notification_icon icon_record
  end.

(** The scan of [_fetch_icon]: the first entry whose path compares equal
    under [strcmp]. *)
Fixpoint find_cached (path : string) (infos : list icon_info.t) : option icon_info.t :=
  match infos with
  | [] => None
  | e :: rest => if decide (icon_info.path e = path) then Some e else find_cached path rest
  end.

Definition _fetch_icon (path : string) (icon_type : IconType) (s : state) : Z * state :=
  match find_cached path (icon_infos s) with
  | Some e => (_fetch_cached_icon e icon_type, s)
  | None =>
      let '(info, s) := _create_icon_info path s in
      let s := set_icon_infos (icon_infos s ++ [info]) s in
      (_fetch_cached_icon info icon_type, s)
  end.

(** ** [tray_update] *)

(** A string pointer that is neither NULL nor at a NUL. *)
Definition has_chars (p : option string) : bool :=
  match p with
  | Some (String _ _) => true
  | _ => false
  end.

Definition chars_or_empty (p : option string) : string :=
  if has_chars p then default EmptyString p else EmptyString.

(** Lines 388 to 390: build the menu from identifier [ID_TRAY_FIRST] and
    make it the active one.  The top-level menu is created first, then
    the menus of the submenus. *)
Definition install_menu (m : option (list tray_menu)) (s : state) : state :=
  let '(items, _) := _tray_menu m ID_TRAY_FIRST in
  let '(h, s) := CreatePopupMenu items s in
  let s := CreatePopupMenu_submenus (submenus_created m) s in
  set_hmenu h s.

Definition DefWindowProc (msg wparam lparam : Z) (s : state) : state :=
  emit (EvDefWindowProc msg wparam lparam) s.

(** Line 391.  The message reaches [_tray_wnd_proc] at once; it has no
    case for [WM_INITMENUPOPUP], and a registered message number is never
    [WM_INITMENUPOPUP], so [DefWindowProc] takes it (line 186). *)
Definition send_initmenupopup (s : state) : state :=
  DefWindowProc WM_INITMENUPOPUP (hmenu s) 0
    (emit (EvSendMessage WM_INITMENUPOPUP (hmenu s) 0) s).

(** Lines 403 to 413: the tooltip. *)
Definition update_tip (t : tray) (flags : Z) (s : state) : Z * state :=
  if has_chars (tooltip t) then
    let s := upd_nid (λ n, set_szTip (strncpy (szTip n) (default EmptyString (tooltip t)) SZTIP_SIZE) n) s in
    let s := upd_nid (λ n, set_szTip (<[(SZTIP_SIZE - 1)%nat := NUL]> (szTip n)) n) s in
    let flags := Z.lor flags NIF_TIP in
    let flags := if defined_NIF_SHOWTIP env then Z.lor flags NIF_SHOWTIP else flags in
    (flags, s)
  else
    (flags, upd_nid (λ n, set_szTip (<[0%nat := NUL]> (szTip n)) n) s).

(** Lines 417 to 449: the balloon. *)
Definition update_info (t : tray) (flags : Z) (s : state) : Z * state :=
  let has_title := has_chars (notification_title t) in
  let has_text := has_chars (notification_text t) in
  if has_title || has_text then
    let s := upd_nid (λ n, set_szInfoTitle
               (safe_copy_sz (szInfoTitle n) SZINFOTITLE_SIZE
                  (Some (chars_or_empty (notification_title t)))) n) s in
    let s := upd_nid (λ n, set_szInfo
               (safe_copy_sz (szInfo n) SZINFO_SIZE
                  (Some (chars_or_empty (notification_text t)))) n) s in
    let s := upd_nid (set_dwInfoFlags NIIF_NONE) s in
    let '(hLarge, s) :=
      if has_chars (notification_icon t)
      then decode_icon (default EmptyString (notification_icon t)) NOTIFICATION s
      else (0, s) in
    let hLarge := if (hLarge =? 0) && truthy (hIcon (nid s)) then hIcon (nid s) else hLarge in
    let s :=
      if defined_NIIF_LARGE_ICON env && truthy hLarge then
        upd_nid (set_dwInfoFlags (Z.lor NIIF_USER NIIF_LARGE_ICON))
          (upd_nid (set_hBalloonIcon hLarge) s)
      else s in
    (Z.lor flags NIF_INFO, s)
  else
    let s := upd_nid (λ n, set_szInfoTitle (<[0%nat := NUL]> (szInfoTitle n)) n) s in
    let s := upd_nid (λ n, set_szInfo (<[0%nat := NUL]> (szInfo n)) n) s in
    (flags, upd_nid (set_dwInfoFlags NIIF_NONE) s).

(** Lines 393 to 458: the notify-icon record is brought up to date and
    handed to the shell. *)
Definition apply_notify_icon (t : tray) (s : state) : state :=
  let '(icon, s) := _fetch_icon (icon t) REGULAR s in
  let flags := Z.lor NIF_MESSAGE NIF_GUID in
  let '(flags, s) :=
    if truthy icon then (Z.lor flags NIF_ICON, upd_nid (set_hIcon icon) s)
    else (flags, s) in
  let '(flags, s) := update_tip t flags s in
  let '(flags, s) := update_info t flags s in
  let s := set_g_notification_cb (notification_cb t) s in
  let s := upd_nid (set_uFlags flags) s in
  let '(ok, s) := Shell_NotifyIconA NIM_MODIFY s in
  if ok then s else tray_log_last_error TRAY_LOG_WARNING "Shell_NotifyIconA(NIM_MODIFY)" s.

(** Lines 460 to 462. *)
Definition destroy_prevmenu (prevmenu : Z) (s : state) : state :=
  if prevmenu =? 0 then s else DestroyMenu prevmenu s.

(** The body of [tray_update] as the sequence of its steps; [prevmenu] is
    the local of that name, read from [hmenu] on entry. *)
Definition tray_update_steps (t : tray) (prevmenu : Z) : list (state → state) :=
  [ set_g_tray (Some t);
    install_menu (menu t);
    send_initmenupopup;
    apply_notify_icon t;
    destroy_prevmenu prevmenu ].

Definition run_steps (steps : list (state → state)) (s : state) : state :=
  foldl (λ s step, step s) s steps.

Definition tray_update (t : tray) (s : state) : state :=
  run_steps (tray_update_steps t (hmenu s)) s.

(** ** [_tray_wnd_proc] *)

(** The menu [hmenu] refers to, if it is live. *)
Definition active_menu (s : state) : option (list MENUITEM) := os_menus s !! hmenu s.

(** The description's item a pointer refers to. *)
Definition deref (p : list nat) (s : state) : option tray_menu :=
  match g_tray s with
  | Some t => match menu t with
              | Some m => node_at m p
              | None => None
              end
  | None => None
  end.

Definition store (p : list nat) (f : tray_menu → tray_menu) (s : state) : state :=
  match g_tray s with
  | Some t =>
      set_g_tray (Some (Build_tray (icon t) (tooltip t) (notification_icon t)
        (notification_text t) (notification_title t) (notification_cb t)
        (node_alter f p <$> menu t) (allIconPaths t))) s
  | None => s
  end.

(** Line 121: the item the command resolves to, when [GetMenuItemInfoA]
    succeeds and its item data is not 0. *)
Definition resolve_command (cmd_id : Z) (s : state) : option (list nat) :=
  match active_menu s with
  | Some h => match GetMenuItemInfoA h cmd_id with
              | Some item_info => dwItemData item_info
              | None => None
              end
  | None => None
  end.

(** Lines 123 to 128. *)
Definition toggle_checkbox (menu : list nat) (cmd_id : Z) (s : state) : state :=
  match deref menu s with
  | Some m =>
      if truthy (checkbox m) then
        let s := store menu (set_checked (lnot (checked m))) s in
        let state := if truthy (lnot (checked m)) then MFS_CHECKED else 0 in
        match active_menu s with
        | Some h =>
            set_os_menus (<[hmenu s := SetMenuItemInfoA_state h cmd_id state]> (os_menus s)) s
        | None => s
        end
      else s
  | None => s
  end.

(** Lines 129 to 131: [menu->cb(menu)]. *)
Definition invoke_cb (menu : list nat) (s : state) : state :=
  match deref menu s with
  | Some m =>
      match cb m with
      | Some f => call_menu_cb env f menu (emit (EvMenuCallback f menu m) s)
      | None => s
      end
  | None => s
  end.

Definition on_WM_COMMAND (wparam : Z) (s : state) : state :=
  if HIWORD wparam =? 0 then
    let cmd_id := LOWORD wparam in
    match resolve_command cmd_id s with
    | Some menu => invoke_cb menu (toggle_checkbox menu cmd_id s)
    | None => s
    end
  else s.

(** Lines 141 to 153: the popup menu is tracked; the command it returns,
    if any, is sent to the window procedure at once. *)
Definition on_tray_click (s : state) : state :=
  let s := emit (EvTrackPopupMenu (hmenu s)) s in
  let cmd := LOWORD (TrackPopupMenu env s) in
  let s := if truthy cmd then on_WM_COMMAND cmd (emit (EvSendMessage WM_COMMAND cmd 0) s) else s in
  PostMessage WM_NULL 0 0 s.

Definition on_balloon_click (s : state) : state :=
  match g_notification_cb s with
  | Some f => call_notification_cb env f (emit (EvNotificationCallback f) s)
  | None => s
  end.

(** Lines 168 to 172: the icon is added again and the version set. *)
Definition readd_icon (s : state) : state :=
  let s := upd_nid (set_uFlags (Z.lor NIF_MESSAGE NIF_GUID)) s in
  let s := upd_nid (set_uCallbackMessage WM_TRAY_CALLBACK_MESSAGE) s in
  let '(_, s) := Shell_NotifyIconA NIM_ADD s in
  let s := upd_nid (set_uVersion NOTIFYICON_VERSION_4) s in
  let '(_, s) := Shell_NotifyIconA NIM_SETVERSION s in
  s.

(** Lines 175 to 178: the menu is built anew and the old one destroyed. *)
Definition rebuild_menu (t : tray) (s : state) : state :=
  let prevmenu := hmenu s in
  let s := install_menu (menu t) s in
  if prevmenu =? 0 then s else DestroyMenu prevmenu s.

(** Lines 167 to 184: the taskbar was created anew. *)
Definition on_taskbar_created (s : state) : state :=
  let s := readd_icon s in
  match g_tray s with
  | Some t => tray_update t (rebuild_menu t s)
  | None => s
  end.

Definition is_tray_click (sub : Z) : bool :=
  (sub =? WM_LBUTTONUP) || (sub =? WM_RBUTTONUP) || (sub =? WM_CONTEXTMENU).

Definition _tray_wnd_proc (msg wparam lparam : Z) (s : state) : state :=
  if msg =? WM_CLOSE then DestroyWindow (hwnd s) s
  else if msg =? WM_DESTROY then PostQuitMessage s
  else if msg =? WM_COMMAND then on_WM_COMMAND wparam s
  else if (msg =? WM_TRAY_CALLBACK_MESSAGE) && is_tray_click (LOWORD lparam)
  then on_tray_click s
  else if (msg =? WM_TRAY_CALLBACK_MESSAGE) && (LOWORD lparam =? NIN_BALLOONUSERCLICK)
  then on_balloon_click s
  else if msg =? wm_taskbarcreated s then on_taskbar_created s
  else DefWindowProc msg wparam lparam s.

(** ** [tray_init], [tray_loop], [tray_exit] *)

(** Lines 332 to 340. *)
Definition init_nid (s : state) : state :=
  let s := set_nid nid_zero s in
  let s := upd_nid (set_hWnd (hwnd s)) s in
  let s := upd_nid (set_uID 1) s in
  let s := upd_nid (set_guidItem kTrayGuid) s in
  let s := upd_nid (set_uFlags (Z.lor NIF_MESSAGE NIF_GUID)) s in
  upd_nid (set_uCallbackMessage WM_TRAY_CALLBACK_MESSAGE) s.

Definition tray_init (t : tray) (s : state) : Z * state :=
  let s := set_wm_taskbarcreated (RegisterWindowMessageA env "TaskbarCreated") s in
  let s := _init_icon_cache (allIconPaths t) s in
  let '(registered, s) := RegisterClassExA s in
  if negb registered then
    (-1, tray_log_last_error TRAY_LOG_ERROR "RegisterClassExA" s)
  else
    let '(h, s) := CreateWindowExA s in
    let s := set_hwnd h s in
    if h =? 0 then
      let s := tray_log_last_error TRAY_LOG_ERROR "CreateWindowExA" s in
      (-1, UnregisterClassA s)
    else
      let s := init_nid s in
      let '(added, s) := Shell_NotifyIconA NIM_ADD s in
      if negb added then
        let s := tray_log_last_error TRAY_LOG_ERROR "Shell_NotifyIconA(NIM_ADD)" s in
        let s := DestroyWindow (hwnd s) s in
        let s := set_hwnd 0 s in
        (-1, UnregisterClassA s)
      else
        let s := upd_nid (set_uVersion NOTIFYICON_VERSION_4) s in
        let '(versioned, s) := Shell_NotifyIconA NIM_SETVERSION s in
        let s := if versioned then s
                 else tray_log_last_error TRAY_LOG_WARNING "Shell_NotifyIconA(NIM_SETVERSION)" s in
        (0, tray_update t s).

(** [GetMessageA(&msg, NULL, 0, 0)]: -1 on failure, otherwise the oldest
    message leaves the queue and the answer is 0 exactly for [WM_QUIT];
    [None] while the queue is empty, when the call does not return. *)
Definition GetMessageA (s : state) : option (Z * MSG * state) :=
  if GetMessageA_fails env s then Some (-1, Build_MSG 0 0 0, s)
  else match os_queue s with
       | [] => None
       | msg :: rest => Some (if message msg =? WM_QUIT then 0 else 1, msg, set_os_queue rest s)
       end.

(** [PeekMessageA(&msg, NULL, 0, 0, PM_REMOVE)]. *)
Definition PeekMessageA (s : state) : option (MSG * state) :=
  match os_queue s with
  | [] => None
  | msg :: rest => Some (msg, set_os_queue rest s)
  end.

(** [TranslateMessage] only concerns keyboard input and is left out. *)
Definition DispatchMessageA (msg : MSG) (s : state) : state :=
  _tray_wnd_proc (message msg) (wParam msg) (lParam msg) s.

(** The [while] loop of the non-blocking branch. *)
Fixpoint tray_loop_drain (fuel : nat) (s : state) : loop_result :=
  match fuel with
  | O => OutOfFuel
  | S fuel =>
      match PeekMessageA s with
      | Some (msg, s) =>
          if message msg =? WM_QUIT then Returned (-1) s
          else tray_loop_drain fuel (DispatchMessageA msg s)
      | None => Returned 0 s
      end
  end.

Definition tray_loop (fuel : nat) (blocking : Z) (s : state) : loop_result :=
  if truthy blocking then
    match GetMessageA s with
    | Some (r, msg, s) =>
        if r <=? 0 then
          Returned (-1) (if r =? -1 then tray_log_last_error TRAY_LOG_ERROR "GetMessageA" s else s)
        else Returned 0 (DispatchMessageA msg s)
    | None => Suspended
    end
  else tray_loop_drain fuel s.

Definition tray_exit (s : state) : state :=
  let '(_, s) := Shell_NotifyIconA NIM_DELETE s in
  let s := _destroy_icon_cache s in
  let s := if hmenu s =? 0 then s else DestroyMenu (hmenu s) s in
  let s := PostQuitMessage s in
  UnregisterClassA s.

End Tray.

(** ** Notions used to state the properties *)

(** All items of a native menu, those of an item's submenu before the item
    itself. *)
Section all_items.
Variable below : MENUITEM → list MENUITEM.

Fixpoint all_items_for (items : list MENUITEM) : list MENUITEM :=
  match items with
  | [] => []
  | it :: rest => below it ++ it :: all_items_for rest
  end.
End all_items.

Fixpoint all_items_below (it : MENUITEM) {struct it} : list MENUITEM :=
  match hSubMenu it with
  | Some sub => all_items_for all_items_below sub
  | None => []
  end.

Definition all_items (h : list MENUITEM) : list MENUITEM :=
  all_items_for all_items_below h.

(** The identifier bindings a native menu holds: for each item with a
    back-reference, the description's item and the command identifier. *)
Definition binding (it : MENUITEM) : option (list nat * Z) :=
  match dwItemData it with
  | Some p => Some (p, wID it)
  | None => None
  end.

Definition bindings (h : list MENUITEM) : list (list nat * Z) :=
  omap binding (all_items h).

Definition identifier_of (h : list MENUITEM) (p : list nat) : option Z :=
  snd <$> List.find (λ b, bool_decide (fst b = p)) (bindings h).

(** The items of a description the builder visits, with their addresses.
    The submenu of a separator is never entered. *)
Section walk.
Variable node : list nat → tray_menu → list (list nat * tray_menu).

Fixpoint walk_for (addr : list nat) (i : nat) (m : list tray_menu)
    : list (list nat * tray_menu) :=
  match m with
  | [] => []
  | n :: rest => node (addr ++ [i]) n ++ walk_for addr (S i) rest
  end.
End walk.

(** Post-order: the items of a submenu come before the item that opens it. *)
Fixpoint postorder_node (p : list nat) (m : tray_menu) {struct m}
    : list (list nat * tray_menu) :=
  match submenu m with
  | Some s => if decide (text m = "-") then [] else walk_for postorder_node p 0 s
  | None => []
  end ++ [(p, m)].

Definition postorder (m : list tray_menu) : list (list nat * tray_menu) :=
  walk_for postorder_node [] 0 m.

(** Pre-order: an item comes before the items of its submenu. *)
Fixpoint preorder_node (p : list nat) (m : tray_menu) {struct m}
    : list (list nat * tray_menu) :=
  (p, m) :: match submenu m with
            | Some s => if decide (text m = "-") then [] else walk_for preorder_node p 0 s
            | None => []
            end.

Definition preorder (m : list tray_menu) : list (list nat * tray_menu) :=
  walk_for preorder_node [] 0 m.

(** Consecutive slots from [id] on for a sequence of visited items; a
    separator takes its slot and gets no binding. *)
Fixpoint number_from (id : Z) (l : list (list nat * tray_menu)) : list (list nat * Z) :=
  match l with
  | [] => []
  | (p, n) :: rest =>
      (if decide (text n = "-") then [] else [(p, id)]) ++ number_from (id + 1) rest
  end.

Definition strictly_increasing (l : list Z) : Prop := StronglySorted Z.lt l.

(** The identifiers of the items of a description, read in pre-order off
    the menu built from it. *)
Definition preorder_identifiers (m : list tray_menu) : list Z :=
  omap (identifier_of (_tray_menu (Some m) ID_TRAY_FIRST).1) (preorder m).*1.

(** Callbacks of the caller in a trace. *)
Definition is_callback (e : event) : bool :=
  match e with
  | EvMenuCallback _ _ _ | EvNotificationCallback _ => true
  | _ => false
  end.

(** [s'] continues the trace of [s], and by no callback of the caller. *)
Definition quiet (s s' : state) : Prop :=
  ∃ evs, trace s' = trace s ++ evs ∧ Forall (λ e, is_callback e = false) evs.

(** [s'] has the description on record, the active menu and the live menus
    of [s]. *)
Definition keeps_menus (s s' : state) : Prop :=
  g_tray s' = g_tray s ∧ hmenu s' = hmenu s ∧ os_menus s' = os_menus s.

(** The handle about to be handed out is not the one in [hmenu]. *)
Definition handles_fresh (s : state) : Prop := hmenu s < os_next_handle s.

(** The three character arrays have their declared sizes. *)
Definition nid_sized (n : NOTIFYICONDATAA) : Prop :=
  length (szTip n) = SZTIP_SIZE ∧ length (szInfo n) = SZINFO_SIZE ∧
  length (szInfoTitle n) = SZINFOTITLE_SIZE.

(** Whether the description carries a balloon. *)
Definition has_info (t : tray) : bool :=
  has_chars (notification_title t) || has_chars (notification_text t).

(** The three character arrays after an update, from what they held
    before it. *)
Definition szTip_after (t : tray) (old : list ascii) : list ascii :=
  if has_chars (tooltip t) then
    <[(SZTIP_SIZE - 1)%nat := NUL]> (strncpy old (default EmptyString (tooltip t)) SZTIP_SIZE)
  else <[0%nat := NUL]> old.

Definition szInfoTitle_after (t : tray) (old : list ascii) : list ascii :=
  if has_info t then
    safe_copy_sz old SZINFOTITLE_SIZE (Some (chars_or_empty (notification_title t)))
  else <[0%nat := NUL]> old.

Definition szInfo_after (t : tray) (old : list ascii) : list ascii :=
  if has_info t then
    safe_copy_sz old SZINFO_SIZE (Some (chars_or_empty (notification_text t)))
  else <[0%nat := NUL]> old.

(** The flags one update applies, from the description and from whether
    its icon resolved. *)
Definition expected_uFlags (env : Environment) (t : tray) (icon_resolved : bool) : Z :=
  let flags := Z.lor NIF_MESSAGE NIF_GUID in
  let flags := if icon_resolved then Z.lor flags NIF_ICON else flags in
  let flags :=
    if has_chars (tooltip t) then
      let flags := Z.lor flags NIF_TIP in
      if defined_NIF_SHOWTIP env then Z.lor flags NIF_SHOWTIP else flags
    else flags in
  if has_info t then Z.lor flags NIF_INFO else flags.

(** Whether an update loads an image of its own for the balloon: the
    description has a balloon and names a notification icon, and the file
    gives one. *)
Definition balloon_image_loads (env : Environment) (t : tray) : bool :=
  has_info t && has_chars (notification_icon t) &&
  icon_decodes env (default EmptyString (notification_icon t)) NOTIFICATION.

Definition cached_paths (s : state) : list string := icon_info.path <$> icon_infos s.

(** Operations on the icon cache and runs of them. *)
Inductive cache_op : Type :=
  | OpInit (paths : list string)
  | OpResolve (path : string) (kind : IconType).

Definition run_cache_op (env : Environment) (s : state) (op : cache_op) : state :=
  match op with
  | OpInit paths => _init_icon_cache env paths s
  | OpResolve path kind => snd (_fetch_icon env path kind s)
  end.

Definition run_cache_ops (env : Environment) (ops : list cache_op) (s : state) : state :=
  foldl (run_cache_op env) s ops.

Definition init_paths_distinct (op : cache_op) : Prop :=
  match op with
  | OpInit paths => NoDup paths
  | OpResolve _ _ => True
  end.

Definition resolve_all (env : Environment) (paths : list string) (kind : IconType)
    (s : state) : state :=
  run_cache_ops env ((λ p, OpResolve p kind) <$> paths) s.

(** One turn of the draining loop on a message that is not [WM_QUIT]. *)
Definition pump (env : Environment) (s : state) (msg : MSG) : state :=
  DispatchMessageA env msg (set_os_queue (tail (os_queue s)) s).

Definition is_quit (msg : MSG) : bool := message msg =? WM_QUIT.

(** The state after [n] turns of the draining loop, each of which takes
    the message at the head of the queue and dispatches it; there is none
    when one of the turns finds the queue empty or [WM_QUIT] at its
    head. *)
Fixpoint turns (env : Environment) (n : nat) (s : state) : option state :=
  match n with
  | O => Some s
  | S n =>
      match os_queue s with
      | msg :: _ => if is_quit msg then None else turns env n (pump env s msg)
      | [] => None
      end
  end.

(** An environment with other callbacks of the caller. *)
Definition with_callbacks (on_menu : nat → list nat → state → state)
    (on_notification : nat → state → state) (env : Environment) : Environment :=
  Build_Environment on_menu on_notification (RegisterWindowMessageA env)
    (RegisterClassExA_ok env) (CreateWindowExA_ok env) (Shell_NotifyIconA_ok env)
    (icon_decodes env) (TrackPopupMenu env) (GetMessageA_fails env)
    (defined_NIF_SHOWTIP env) (defined_NIIF_LARGE_ICON env).

(** The icon handles an entry of the cache holds, and those of the whole
    cache. *)
Definition entry_handles (e : icon_info.t) : list Z :=
  filter (λ h, h ≠ 0)
    [icon_info.icon e; icon_info.large_icon e; icon_info.notification_icon e].

Definition cache_handles (s : state) : list Z := icon_infos s ≫= entry_handles.

(** Handles are handed out upwards: the live icons and the handles in the
    cache are below the next handle, which is not NULL. *)
Definition icons_below_next (s : state) : Prop :=
  0 < os_next_handle s ∧
  (∀ h, h ∈ os_icons s → h < os_next_handle s) ∧
  (∀ h, h ∈ cache_handles s → h < os_next_handle s).

(** The only live menu, if any, is the one [hmenu] refers to. *)
Definition no_stray_menu (s : state) : Prop :=
  0 < os_next_handle s ∧ hmenu s < os_next_handle s ∧
  ∀ h, is_Some (os_menus s !! h) → h = hmenu s ∧ h ≠ 0.

Definition is_decode (e : event) : bool :=
  match e with
  | EvDecodeIcon _ _ => true
  | _ => false
  end.

Definition is_log (e : event) : bool :=
  match e with
  | EvLog _ _ => true
  | _ => false
  end.

(** The events [s'] has beyond those of [s]. *)
Definition new_events (s s' : state) : list event := drop (length (trace s)) (trace s').

(** Whether an update loads an image for the balloon. *)
Definition loads_balloon_icon (t : tray) : bool :=
  has_info t && has_chars (notification_icon t).

(** The state bits the builder gives an item. *)
Definition state_bits (n : tray_menu) : Z :=
  let state := 0 in
  let state := if truthy (disabled n) then Z.lor state MFS_DISABLED else state in
  if truthy (checked n) then Z.lor state MFS_CHECKED else state.

(** The fields of the notify-icon record that say which icon it is and
    how the shell reports on it. *)
Definition same_identity (n n' : NOTIFYICONDATAA) : Prop :=
  hWnd n' = hWnd n ∧ uID n' = uID n ∧ uCallbackMessage n' = uCallbackMessage n ∧
  uVersion n' = uVersion n ∧ guidItem n' = guidItem n.

(** [s'] has the window, the window class, the message queue, the
    registered message and the log callback of [s], and the same icon
    identity. *)
Definition keeps_window (s s' : state) : Prop :=
  hwnd s' = hwnd s ∧ wm_taskbarcreated s' = wm_taskbarcreated s ∧
  os_class s' = os_class s ∧ os_windows s' = os_windows s ∧
  os_queue s' = os_queue s ∧ g_tray_log_cb s' = g_tray_log_cb s ∧
  same_identity (nid s) (nid s').

(** The calls that create the submenus of one build, from the handle [h]
    on. *)
Definition submenu_events (h : Z) (k : nat) : list event :=
  (λ i, EvCreatePopupMenu (h + Z.of_nat i)) <$> seq 0 k.

(** The calls of [CreatePopupMenu] in one build whose top-level menu gets
    the handle [h]. *)
Definition build_events (h : Z) (m : option (list tray_menu)) : list event :=
  EvCreatePopupMenu h :: submenu_events (h + 1) (submenus_created m).

(** The message of a call of the shell. *)
Definition shell_message (e : event) : option Z :=
  match e with
  | EvShell_NotifyIconA m _ => Some m
  | _ => None
  end.

(** The decoding calls for a list of paths, three for each. *)
Definition decode_events (paths : list string) : list event :=
  paths ≫= λ p, [EvDecodeIcon p LARGE; EvDecodeIcon p REGULAR; EvDecodeIcon p NOTIFICATION].

(** ** Invariants of the builder *)

(** What one pass through the loop body does to the menu under
    construction, as long as nothing wraps. *)
Definition body_appends (n : tray_menu) : Prop :=
  ∀ p acc id,
    0 < id → Z.of_nat (length acc) ≤ id →
    Forall (λ it, wID it < id) (all_items acc) →
    id + Z.of_nat (length (postorder_node p n)) < 2 ^ 32 →
    ∃ it,
      _tray_menu_body p n acc id =
        (acc ++ [it], id + Z.of_nat (length (postorder_node p n)) - 1) ∧
      bindings [it] = number_from id (postorder_node p n) ∧
      Forall (λ x, wID x < id + Z.of_nat (length (postorder_node p n))) (all_items [it]).

(** The addresses the walk gives to the items below [n] lead to them. *)
Definition walk_addresses_ok (root : list tray_menu) (n : tray_menu) : Prop :=
  ∀ p, node_at root p = Some n →
    ∀ q x, (q, x) ∈ postorder_node p n → node_at root q = Some x.



(** An item of a built menu is a separator without identifier and item
    data, or it carries the text and the state bits of the visited item of
    [l], not a separator, that its back-reference names. *)
Definition mirrors (l : list (list nat * tray_menu)) (it : MENUITEM) : Prop :=
  match dwItemData it with
  | Some q => ∃ x, (q, x) ∈ l ∧ text x ≠ "-" ∧ fType it = 0 ∧
                   fState it = state_bits x ∧ dwTypeData it = text x
  | None => fType it = MF_SEPARATOR ∧ fState it = 0 ∧ wID it = 0
  end.

Definition body_mirrors (n : tray_menu) : Prop :=
  ∀ l p acc id,
    postorder_node p n ⊆ l → Forall (mirrors l) (all_items acc) →
    Forall (mirrors l) (all_items (_tray_menu_body p n acc id).1).

(** The menu a description stands for, as a relation between an array of
    the description and the items of a native menu: item for item in the
    order of the array, a separator for a text "-", and for any other item
    its text, its state bits, its address as item data, the menu of its
    submenu, and as identifier the slot after those of its submenu's
    items, counted from [id]. *)
Section shaped.
Variable node : list nat → tray_menu → Z → MENUITEM → Prop.

Fixpoint shaped_for (addr : list nat) (i : nat) (m : list tray_menu) (id : Z)
    (h : list MENUITEM) : Prop :=
  match m, h with
  | [], [] => True
  | n :: m', it :: h' =>
      node (addr ++ [i]) n id it ∧
      shaped_for addr (S i) m' (id + Z.of_nat (length (postorder_node (addr ++ [i]) n))) h'
  | _, _ => False
  end.
End shaped.

Fixpoint shaped_node (p : list nat) (n : tray_menu) (id : Z) (it : MENUITEM) {struct n}
    : Prop :=
  if decide (text n = "-") then it = separator_item
  else
    match submenu n with
    | Some s =>
        ∃ h, shaped_for shaped_node p 0 s id h ∧
             it = Build_MENUITEM 0 (state_bits n)
                    (id + Z.of_nat (length (walk_for postorder_node p 0 s)))
                    (Some h) (text n) (Some p)
    | None => it = Build_MENUITEM 0 (state_bits n) id None (text n) (Some p)
    end.

Definition body_shaped (n : tray_menu) : Prop :=
  ∀ p acc id,
    0 < id → Z.of_nat (length acc) ≤ id →
    Forall (λ it, wID it < id) (all_items acc) →
    id + Z.of_nat (length (postorder_node p n)) < 2 ^ 32 →
    ∃ it,
      _tray_menu_body p n acc id =
        (acc ++ [it], id + Z.of_nat (length (postorder_node p n)) - 1) ∧
      shaped_node p n id it.

(** An item without item data has no identifier. *)
Definition unbound_has_no_id (it : MENUITEM) : Prop :=
  dwItemData it = None → wID it = 0.

Definition body_keeps_unbound (n : tray_menu) : Prop :=
  ∀ p acc id,
    Forall unbound_has_no_id (all_items acc) →
    Forall unbound_has_no_id (all_items (_tray_menu_body p n acc id).1).

(** ** Concrete descriptions and environments *)

(** Callbacks that do nothing, calls that succeed, a user who picks
    nothing. *)
Definition quiet_env : Environment :=
  Build_Environment (λ _ _ s, s) (λ _ s, s) (λ _, 0xC000) (λ _, true) (λ _, true)
    (λ _ _, true) (λ _ _, true) (λ _, 0) (λ _, false) true true.

(** The same with a window class that cannot be registered. *)
Definition no_class_env : Environment :=
  Build_Environment (λ _ _ s, s) (λ _ s, s) (λ _, 0xC000) (λ _, false) (λ _, true)
    (λ _ _, true) (λ _ _, true) (λ _, 0) (λ _, false) true true.

(** The same with a window that cannot be created. *)
Definition no_window_env : Environment :=
  Build_Environment (λ _ _ s, s) (λ _ s, s) (λ _, 0xC000) (λ _, true) (λ _, false)
    (λ _ _, true) (λ _ _, true) (λ _, 0) (λ _, false) true true.

(** The same with a shell that refuses the icon. *)
Definition no_shell_env : Environment :=
  Build_Environment (λ _ _ s, s) (λ _ s, s) (λ _, 0xC000) (λ _, true) (λ _, true)
    (λ _ _, false) (λ _ _, true) (λ _, 0) (λ _, false) true true.

(** The same with a shell that takes the icon and refuses every later
    call. *)
Definition add_only_env : Environment :=
  Build_Environment (λ _ _ s, s) (λ _ s, s) (λ _, 0xC000) (λ _, true) (λ _, true)
    (λ dwMessage _, dwMessage =? NIM_ADD) (λ _ _, true) (λ _, 0) (λ _, false) true true.

(** The same with a failing [GetMessageA]. *)
Definition no_message_env : Environment :=
  Build_Environment (λ _ _ s, s) (λ _ s, s) (λ _, 0xC000) (λ _, true) (λ _, true)
    (λ _ _, true) (λ _ _, true) (λ _, 0) (λ _, true) true true.

(** A user who picks the first item of the menu, and a menu callback that
    ends the program. *)
Definition exiting_env : Environment :=
  Build_Environment (λ _ _ s, tray_exit quiet_env s) (λ _ s, s) (λ _, 0xC000) (λ _, true)
    (λ _, true) (λ _ _, true) (λ _ _, true) (λ _, ID_TRAY_FIRST) (λ _, false) true true.

(** The same as [quiet_env] with one image file, "a.ico". *)
Definition one_icon_env : Environment :=
  Build_Environment (λ _ _ s, s) (λ _ s, s) (λ _, 0xC000) (λ _, true) (λ _, true)
    (λ _ _, true) (λ file _, bool_decide (file = "a.ico")) (λ _, 0) (λ _, false) true true.

Definition leaf (text : string) : tray_menu := Build_tray_menu text 0 0 0 None 0 None.

(** Quit, a separator, and a checkbox. *)
Definition scenario_menu : list tray_menu :=
  [ Build_tray_menu "Quit" 0 0 0 (Some 1%nat) 0 None;
    leaf "-";
    Build_tray_menu "Toggle" 0 0 1 (Some 2%nat) 0 None ].

Definition scenario : tray :=
  Build_tray "a.ico" (Some "Hi") None None None None (Some scenario_menu) ["a.ico"].

Definition scenario_no_tip : tray :=
  Build_tray "a.ico" None None None None None (Some scenario_menu) ["a.ico"].

(** One item that opens a submenu of one item. *)
Definition nested_menu : list tray_menu :=
  [ Build_tray_menu "File" 0 0 0 None 0 (Some [leaf "Open"]) ].

Definition nested : tray :=
  Build_tray "a.ico" None None None None None (Some nested_menu) ["a.ico"].

(** A checkbox whose [checked] is 2. *)
Definition checked2_menu : list tray_menu :=
  [ Build_tray_menu "Toggle" 0 2 1 None 0 None ].

(** A balloon with a text and no image of its own, under an icon whose
    file is not "a.ico". *)
Definition balloon_other_icon : tray :=
  Build_tray "b.ico" None None (Some "Done") None None (Some scenario_menu) [].

Definition checked2 : tray :=
  Build_tray "a.ico" None None None None None (Some checked2_menu) [].
(** * Properties *)

(** ** Induction over descriptions and native menus *)

Lemma tray_menu_nested_ind (P : tray_menu → Prop) :
  (∀ m, (∀ s, submenu m = Some s → Forall P s) → P m) → ∀ m, P m.
Proof.
  intros step. fix IH 1. intros [t d c k f x sub]. apply step. simpl.
  intros s Hs. destruct sub as [l|]; [|discriminate].
  injection Hs as <-. induction l as [|n l IHl]; constructor; [apply IH | exact IHl].
Qed.

Lemma MENUITEM_nested_ind (P : MENUITEM → Prop) :
  (∀ it, (∀ s, hSubMenu it = Some s → Forall P s) → P it) → ∀ it, P it.
Proof.
  intros step. fix IH 1. intros [ty st id sub tx da]. apply step. simpl.
  intros s Hs. destruct sub as [l|]; [|discriminate].
  injection Hs as <-. induction l as [|n l IHl]; constructor; [apply IH | exact IHl].
Qed.

(** ** Items of native menus *)

Lemma all_items_app h1 h2 : all_items (h1 ++ h2) = all_items h1 ++ all_items h2.
Proof.
  unfold all_items. induction h1 as [|it h1 IH]; simpl; [done|].
  rewrite IH. by rewrite <- app_assoc.
Qed.

Lemma all_items_cons it h :
  all_items (it :: h) = all_items_below it ++ it :: all_items h.
Proof. done. Qed.

Lemma all_items_below_eq it :
  all_items_below it = match hSubMenu it with Some sub => all_items sub | None => [] end.
Proof. by destruct it. Qed.

Lemma bindings_app h1 h2 : bindings (h1 ++ h2) = bindings h1 ++ bindings h2.
Proof. unfold bindings. by rewrite all_items_app, omap_app. Qed.

Lemma item_at_all_items np : ∀ h it, item_at h np = Some it → it ∈ all_items h.
Proof.
  induction np as [|i np IH]; intros h it; simpl; [done|].
  destruct np as [|j np].
  - intros Hi. apply list_elem_of_split_length in Hi as (l1 & l2 & -> & _).
    rewrite all_items_app, all_items_cons. set_solver.
  - destruct (h !! i) as [it'|] eqn:Hi; [|done].
    destruct (hSubMenu it') as [s|] eqn:Hs; [|done].
    intros Hat. apply IH in Hat.
    apply list_elem_of_split_length in Hi as (l1 & l2 & -> & _).
    rewrite all_items_app, all_items_cons, all_items_below_eq, Hs. set_solver.
Qed.

(** ** Looking items up by identifier *)

Lemma item_at_cons h i j np :
  item_at h (i :: j :: np) =
  match h !! i with
  | Some it => match hSubMenu it with Some s => item_at s (j :: np) | None => None end
  | None => None
  end.
Proof. done. Qed.

Lemma lookup_below_eq cmd it :
  lookup_below cmd it =
  match hSubMenu it with Some sub => MNLookUpItem cmd sub | None => None end.
Proof. by destruct it. Qed.

Lemma MNLookUpItem_cons cmd it rest :
  MNLookUpItem cmd (it :: rest) =
  match hSubMenu it with
  | Some sub =>
      match MNLookUpItem cmd sub with
      | Some np => Some (0%nat :: np)
      | None =>
          match MNLookUpItem cmd rest with
          | Some np => Some (next_sibling np)
          | None => if wID it =? cmd then Some [0%nat] else None
          end
      end
  | None => if wID it =? cmd then Some [0%nat] else next_sibling <$> MNLookUpItem cmd rest
  end.
Proof.
  unfold MNLookUpItem at 1. simpl. rewrite lookup_below_eq.
  by destruct (hSubMenu it).
Qed.

Lemma item_at_next_sibling it h np :
  item_at (it :: h) (next_sibling np) = item_at h np.
Proof. destruct np as [|i [|j np]]; done. Qed.

(** What is found is an item of the menu and has the identifier asked for. *)
Lemma MNLookUpItem_sound cmd : ∀ h np,
  MNLookUpItem cmd h = Some np → ∃ it, item_at h np = Some it ∧ wID it = cmd.
Proof.
  assert (step : ∀ h, Forall (λ it, ∀ s np, hSubMenu it = Some s →
             MNLookUpItem cmd s = Some np → ∃ x, item_at s np = Some x ∧ wID x = cmd) h →
           ∀ np, MNLookUpItem cmd h = Some np → ∃ x, item_at h np = Some x ∧ wID x = cmd).
  { induction 1 as [|it h Hit _ IH]; intros np; [done|].
    rewrite MNLookUpItem_cons.
    destruct (hSubMenu it) as [s|] eqn:Hs.
    - destruct (MNLookUpItem cmd s) as [np0|] eqn:H0.
      + intros [= <-]. destruct (Hit _ _ eq_refl H0) as (x & Hx & Hid).
        exists x. split; [|done]. destruct np0 as [|j np0]; [done|].
        rewrite item_at_cons. simpl. by rewrite Hs.
      + destruct (MNLookUpItem cmd h) as [np1|].
        * intros [= <-]. rewrite item_at_next_sibling. by apply IH.
        * destruct (wID it =? cmd) eqn:E; [|done]. intros [= <-].
          exists it. split; [done|]. by apply Z.eqb_eq.
    - destruct (wID it =? cmd) eqn:E.
      + intros [= <-]. exists it. split; [done|]. by apply Z.eqb_eq.
      + destruct (MNLookUpItem cmd h) as [np1|]; [|done].
        intros [= <-]. rewrite item_at_next_sibling. by apply IH. }
  assert (nodes : ∀ it s np, hSubMenu it = Some s →
            MNLookUpItem cmd s = Some np → ∃ x, item_at s np = Some x ∧ wID x = cmd).
  { intros it. induction it as [it IH] using MENUITEM_nested_ind.
    intros s np Hs. apply step. specialize (IH _ Hs).
    eapply Forall_impl; [exact IH|]. simpl. intros x Hx. exact Hx. }
  intros h. apply step. apply Forall_forall. intros it _. apply nodes.
Qed.

Lemma MNLookUpItem_None cmd h :
  Forall (λ it, wID it ≠ cmd) (all_items h) → MNLookUpItem cmd h = None.
Proof.
  intros Hall. destruct (MNLookUpItem cmd h) as [np|] eqn:E; [|done].
  apply MNLookUpItem_sound in E as (it & Hat & Hid).
  apply item_at_all_items in Hat. rewrite Forall_forall in Hall.
  by destruct (Hall _ Hat).
Qed.

(** ** The builder while the identifier does not wrap *)

Lemma tray_menu_body_eq p m hmenu id :
  _tray_menu_body p m hmenu id =
  if decide (text m = "-") then (InsertMenuA_separator hmenu id, id)
  else
    let '(sub, id1) :=
      match submenu m with
      | Some s => let '(h, id') := _tray_menu_for _tray_menu_body p 0 s [] id in (Some h, id')
      | None => (None, id)
      end in
    let state := if truthy (disabled m) then Z.lor 0 MFS_DISABLED else 0 in
    let state := if truthy (checked m) then Z.lor state MFS_CHECKED else state in
    (InsertMenuItemA hmenu id1 (Build_MENUITEM 0 state id1 sub (text m) (Some p)), id1).
Proof. by destruct m. Qed.

Lemma postorder_node_eq p m :
  postorder_node p m =
  match submenu m with
  | Some s => if decide (text m = "-") then [] else walk_for postorder_node p 0 s
  | None => []
  end ++ [(p, m)].
Proof. by destruct m. Qed.

Lemma number_from_app l1 : ∀ id l2,
  number_from id (l1 ++ l2) = number_from id l1 ++ number_from (id + Z.of_nat (length l1)) l2.
Proof.
  induction l1 as [|[p n] l1 IH]; intros id l2; simpl.
  - by rewrite Z.add_0_r.
  - rewrite IH, <- app_assoc. do 3 f_equal. lia.
Qed.

Lemma InsertMenuItemA_append h pos info :
  Z.of_nat (length h) ≤ pos → InsertMenuItemA h pos info = h ++ [info].
Proof.
  intros Hpos. unfold InsertMenuItemA.
  rewrite take_ge, drop_ge by lia. done.
Qed.

Lemma InsertMenuA_separator_append h id :
  Forall (λ it, wID it < id) (all_items h) →
  InsertMenuA_separator h id = h ++ [separator_item].
Proof.
  intros Hall. unfold InsertMenuA_separator. rewrite MNLookUpItem_None; [done|].
  eapply Forall_impl; [exact Hall|]. simpl. lia.
Qed.

Lemma all_items_singleton it :
  all_items [it] = all_items_below it ++ [it].
Proof. done. Qed.

Lemma bindings_singleton it :
  bindings [it] =
  match hSubMenu it with Some sub => bindings sub | None => [] end ++
  match binding it with Some b => [b] | None => [] end.
Proof.
  unfold bindings. rewrite all_items_singleton, omap_app, all_items_below_eq. simpl.
  destruct (hSubMenu it), (binding it); done.
Qed.

Lemma tray_menu_for_appends m :
  Forall body_appends m →
  ∀ addr i acc id,
    0 < id → Z.of_nat (length acc) ≤ id →
    Forall (λ it, wID it < id) (all_items acc) →
    id + Z.of_nat (length (walk_for postorder_node addr i m)) < 2 ^ 32 →
    ∃ its,
      _tray_menu_for _tray_menu_body addr i m acc id =
        (acc ++ its, id + Z.of_nat (length (walk_for postorder_node addr i m))) ∧
      bindings its = number_from id (walk_for postorder_node addr i m) ∧
      Forall (λ x, wID x < id + Z.of_nat (length (walk_for postorder_node addr i m)))
        (all_items its).
Proof.
  induction 1 as [|n rest Hn _ IH]; intros addr i acc id Hid Hlen Hbelow Hfit; simpl in *.
  - exists []. rewrite app_nil_r, Z.add_0_r. by repeat split.
  - rewrite length_app in Hfit |- *. rewrite Nat2Z.inj_add in Hfit |- *.
    set (ln := Z.of_nat (length (postorder_node (addr ++ [i]) n))) in *.
    set (lr := Z.of_nat (length (walk_for postorder_node addr (S i) rest))) in *.
    assert (1 ≤ ln).
    { subst ln. rewrite postorder_node_eq, length_app. simpl. lia. }
    destruct (Hn (addr ++ [i]) acc id) as (it & -> & Hb & Hw); [done|done|done|lia|].
    cbv beta iota. fold ln in Hw |- *.
    replace (to_UINT (id + ln - 1 + 1)) with (id + ln).
    2:{ unfold to_UINT. rewrite Z.mod_small; lia. }
    destruct (IH addr (S i) (acc ++ [it]) (id + ln)) as (its & -> & Hbs & Hws).
    + lia.
    + rewrite length_app. simpl. lia.
    + rewrite all_items_app. apply Forall_app. split; [|done].
      eapply Forall_impl; [exact Hbelow|]. simpl. lia.
    + fold lr. lia.
    + exists (it :: its). fold lr in Hws |- *. split; [|split].
      * f_equal; [by rewrite <- app_assoc | lia].
      * change (it :: its) with ([it] ++ its).
        rewrite bindings_app, Hb, Hbs, number_from_app. done.
      * change (it :: its) with ([it] ++ its). rewrite all_items_app.
        apply Forall_app. split.
        -- eapply Forall_impl; [exact Hw|]. simpl. lia.
        -- eapply Forall_impl; [exact Hws|]. simpl. lia.
Qed.

Lemma tray_menu_body_appends n : body_appends n.
Proof.
  induction n as [n IH] using tray_menu_nested_ind.
  intros p acc id Hid Hlen Hbelow Hfit.
  rewrite tray_menu_body_eq. rewrite postorder_node_eq in Hfit |- *.
  destruct (decide (text n = "-")) as [Hsep|Hsep].
  - assert (Hone : match submenu n with Some _ => [] | None => [] end ++ [(p, n)]
                   = [(p, n)]) by (by destruct (submenu n)).
    rewrite Hone. simpl.
    exists separator_item. rewrite InsertMenuA_separator_append by done.
    split; [f_equal; lia|]. rewrite decide_True by done.
    split; [done|]. repeat constructor. simpl. lia.
  - destruct (submenu n) as [s|] eqn:Hs.
    + rewrite length_app in Hfit |- *. simpl in Hfit |- *.
      rewrite Nat2Z.inj_add in Hfit |- *. simpl in Hfit |- *.
      set (ls := Z.of_nat (length (walk_for postorder_node p 0 s))) in *.
      destruct (tray_menu_for_appends s (IH _ eq_refl) p 0%nat [] id)
        as (its & -> & Hbs & Hws); [done|simpl; lia|constructor|fold ls; lia|].
      fold ls in Hws |- *. cbv beta iota zeta.
      eexists. rewrite InsertMenuItemA_append by lia.
      split; [f_equal; lia|]. split.
      * rewrite bindings_singleton. simpl. rewrite Hbs, number_from_app. simpl.
        rewrite decide_False by done. done.
      * rewrite all_items_below_eq. cbn [hSubMenu app].
        apply Forall_app. split.
        -- eapply Forall_impl; [exact Hws|]. simpl. lia.
        -- repeat constructor. simpl. lia.
    + cbv beta iota zeta. cbn [app length] in Hfit |- *.
      eexists. rewrite InsertMenuItemA_append by lia.
      split; [f_equal; lia|]. cbn [number_from]. rewrite decide_False by done.
      split; [done|]. repeat constructor. simpl. lia.
Qed.

Lemma number_from_bounds l : ∀ id b,
  b ∈ number_from id l → id ≤ b.2 < id + Z.of_nat (length l).
Proof.
  induction l as [|[p n] l IH]; intros id b; simpl; [by intros ?%elem_of_nil|].
  rewrite elem_of_app. intros [Hb|Hb].
  - destruct (decide (text n = "-")); [by apply elem_of_nil in Hb|].
    apply list_elem_of_singleton in Hb as ->. simpl. lia.
  - apply IH in Hb. lia.
Qed.

Lemma number_from_increasing l : ∀ id, strictly_increasing (number_from id l).*2.
Proof.
  induction l as [|[p n] l IH]; intros id; simpl; [constructor|].
  destruct (decide (text n = "-")); simpl; [apply IH|].
  constructor; [apply IH|].
  apply Forall_forall. intros x Hx. apply list_elem_of_fmap in Hx as (b & -> & Hb).
  apply number_from_bounds in Hb. lia.
Qed.

Lemma strictly_increasing_NoDup l : strictly_increasing l → NoDup l.
Proof.
  induction 1 as [|x l _ IH Hx]; constructor; [|done].
  intros Hin. rewrite Forall_forall in Hx. specialize (Hx _ Hin). lia.
Qed.

(** ** Where the back-references of a built menu point, with or without
    wrap-around *)

Lemma node_at_snoc root : ∀ p n s j,
  node_at root p = Some n → submenu n = Some s → node_at root (p ++ [j]) = s !! j.
Proof.
  intros p. revert root. induction p as [|i p IH]; intros root n s j; [done|].
  destruct p as [|i' p].
  - simpl. intros -> ->. done.
  - change ((i :: i' :: p) ++ [j]) with (i :: (i' :: p) ++ [j]).
    simpl. destruct (root !! i) as [n0|]; [|done].
    destruct (submenu n0) as [s0|]; [|done].
    intros Hat Hs. rewrite <- (IH s0 n s j Hat Hs). by destruct p.
Qed.

Lemma walk_for_addresses_ok root m :
  Forall (walk_addresses_ok root) m →
  ∀ addr i,
    (∀ j n, m !! j = Some n → node_at root (addr ++ [(i + j)%nat]) = Some n) →
    ∀ q x, (q, x) ∈ walk_for postorder_node addr i m → node_at root q = Some x.
Proof.
  induction 1 as [|n rest Hn _ IH]; intros addr i Harr q x; simpl.
  - by intros ?%elem_of_nil.
  - rewrite elem_of_app. intros [Hin|Hin].
    + eapply Hn; [|exact Hin]. specialize (Harr 0%nat n eq_refl).
      by rewrite Nat.add_0_r in Harr.
    + eapply (IH addr (S i)); [|exact Hin]. intros j n' Hj.
      specialize (Harr (S j) n' Hj). by replace (S i + j)%nat with (i + S j)%nat by lia.
Qed.

Lemma postorder_node_addresses_ok root n : walk_addresses_ok root n.
Proof.
  induction n as [n IH] using tray_menu_nested_ind.
  intros p Hp q x. rewrite postorder_node_eq, elem_of_app, list_elem_of_singleton.
  intros [Hin|[= -> ->]]; [|done].
  destruct (submenu n) as [s|] eqn:Hs; [|by apply elem_of_nil in Hin].
  destruct (decide (text n = "-")); [by apply elem_of_nil in Hin|].
  eapply (walk_for_addresses_ok root s); [| |exact Hin].
  - eapply Forall_impl; [exact (IH _ eq_refl)|]. done.
  - intros j n' Hj. simpl. by rewrite (node_at_snoc root p n s j Hp Hs).
Qed.

(** Every visited item is found in the description at its address. *)
Lemma postorder_node_at m p n : (p, n) ∈ postorder m → node_at m p = Some n.
Proof.
  apply (walk_for_addresses_ok m m).
  - apply Forall_forall. intros x _. apply postorder_node_addresses_ok.
  - intros j x Hj. done.
Qed.

Lemma alter_lookup_None {A} (f : A → A) (l : list A) : ∀ i,
  l !! i = None → alter f i l = l.
Proof.
  induction l as [|x l IH]; intros [|i]; simpl; try done.
  intros Hi. f_equal. by apply IH.
Qed.

Section insertions.
Variable P : MENUITEM → Prop.
Hypothesis P_set_hSubMenu : ∀ s it, P it → P (set_hSubMenu s it).

Lemma all_items_take_drop i h :
  Forall P (all_items h) ↔ Forall P (all_items (take i h)) ∧ Forall P (all_items (drop i h)).
Proof.
  rewrite <- (take_drop i h) at 1. by rewrite all_items_app, Forall_app.
Qed.

Lemma Forall_all_items_cons it h :
  Forall P (all_items (it :: h)) ↔
  Forall P (all_items_below it) ∧ P it ∧ Forall P (all_items h).
Proof. by rewrite all_items_cons, Forall_app, Forall_cons. Qed.

Lemma Forall_InsertMenuItemA h pos info :
  Forall P (all_items h) → Forall P (all_items [info]) →
  Forall P (all_items (InsertMenuItemA h pos info)).
Proof.
  intros Hh Hi. unfold InsertMenuItemA.
  apply (all_items_take_drop (Z.to_nat pos)) in Hh as [Ht Hd].
  change (info :: drop (Z.to_nat pos) h) with ([info] ++ drop (Z.to_nat pos) h).
  rewrite !all_items_app, !Forall_app. done.
Qed.

Lemma Forall_item_insert_before new np : ∀ h,
  Forall P (all_items [new]) → Forall P (all_items h) →
  Forall P (all_items (item_insert_before new np h)).
Proof.
  induction np as [|i np IH]; intros h Hnew Hh; simpl.
  - by rewrite all_items_app, Forall_app.
  - destruct np as [|j np].
    + apply (all_items_take_drop i) in Hh as [Ht Hd].
      change (new :: drop i h) with ([new] ++ drop i h).
      rewrite !all_items_app, !Forall_app. done.
    + destruct (h !! i) as [it|] eqn:Hi.
      2:{ by rewrite alter_lookup_None. }
      apply list_elem_of_split_length in Hi as (l1 & l2 & -> & ->).
      rewrite alter_app_r_alt by done. rewrite Nat.sub_diag. simpl.
      rewrite all_items_app, Forall_app in Hh. destruct Hh as [H1 H2].
      apply Forall_all_items_cons in H2 as (Hb & Hit & H2).
      rewrite all_items_app, Forall_app. split; [done|].
      apply Forall_all_items_cons. split; [|split; [by apply P_set_hSubMenu|done]].
      rewrite all_items_below_eq in Hb |- *. simpl.
      destruct (hSubMenu it) as [s|]; simpl; [|done].
      by apply IH.
Qed.

Lemma Forall_InsertMenuA_separator h id :
  P separator_item → Forall P (all_items h) →
  Forall P (all_items (InsertMenuA_separator h id)).
Proof.
  intros Hsep Hh. unfold InsertMenuA_separator.
  destruct (MNLookUpItem id h) as [np|].
  - apply Forall_item_insert_before; [|done]. by repeat constructor.
  - rewrite all_items_app, Forall_app. split; [done|]. by repeat constructor.
Qed.
End insertions.





(** ** Identifiers assigned by one build *)

Lemma number_from_lookup l : ∀ id k p n,
  l !! k = Some (p, n) → text n ≠ "-" → (p, id + Z.of_nat k) ∈ number_from id l.
Proof.
  induction l as [|[q x] l IH]; intros id k p n; [done|].
  destruct k as [|k]; cbn [lookup list_lookup number_from].
  - intros [= -> ->] Htext. rewrite decide_False by done. rewrite Z.add_0_r. set_solver.
  - intros Hk Htext. apply elem_of_app. right.
    replace (id + Z.of_nat (S k)) with (id + 1 + Z.of_nat k) by lia.
    exact (IH (id + 1) k p n Hk Htext).
Qed.

Lemma tray_menu_identifiers_support (m : list tray_menu) :
  ID_TRAY_FIRST + Z.of_nat (length (postorder m)) < 2 ^ 32 →
  bindings (_tray_menu (Some m) ID_TRAY_FIRST).1 = number_from ID_TRAY_FIRST (postorder m) ∧
  NoDup (bindings (_tray_menu (Some m) ID_TRAY_FIRST).1).*2.
Proof.
  intros Hfit. simpl.
  destruct (tray_menu_for_appends m) with (addr := @nil nat) (i := 0%nat)
    (acc := @nil MENUITEM) (id := ID_TRAY_FIRST) as (its & Hrun & Hb & _).
  - apply Forall_forall. intros n _. apply tray_menu_body_appends.
  - done.
  - done.
  - constructor.
  - exact Hfit.
  - fold (postorder m) in Hrun, Hb. rewrite Hrun. simpl. rewrite Hb.
    split; [done|]. apply strictly_increasing_NoDup, number_from_increasing.
Qed.

(** C1, amended.  One build from [ID_TRAY_FIRST] numbers the visited items
    depth-first in post-order: the items of a submenu get their identifiers
    before the item that opens it.  The item finished as number [k] gets
    [1000 + k]; a separator keeps its slot without a binding.  Read in that
    order the identifiers increase strictly, so they are pairwise distinct.
    This holds as long as the counter stays below [2^32]. *)
Theorem tray_menu_identifiers (m : list tray_menu) :
  ID_TRAY_FIRST + Z.of_nat (length (postorder m)) < 2 ^ 32 →
  let built := _tray_menu (Some m) ID_TRAY_FIRST in
  bindings built.1 = number_from ID_TRAY_FIRST (postorder m) ∧
  built.2 = ID_TRAY_FIRST + Z.of_nat (length (postorder m)) ∧
  strictly_increasing (bindings built.1).*2 ∧
  NoDup (bindings built.1).*2 ∧
  (∀ k p n, postorder m !! k = Some (p, n) → text n ≠ "-" →
     node_at m p = Some n ∧ (p, ID_TRAY_FIRST + Z.of_nat k) ∈ bindings built.1).
Proof.
  intros Hfit. simpl.
  destruct (tray_menu_for_appends m) with (addr := @nil nat) (i := 0%nat)
    (acc := @nil MENUITEM) (id := ID_TRAY_FIRST) as (its & Hrun & Hb & _).
  - apply Forall_forall. intros n _. apply tray_menu_body_appends.
  - done.
  - done.
  - constructor.
  - exact Hfit.
  - fold (postorder m) in Hrun, Hb. rewrite Hrun. simpl. rewrite Hb.
    split; [done|]. split; [done|]. split; [apply number_from_increasing|].
    split; [apply strictly_increasing_NoDup, number_from_increasing|].
    intros k p n Hk Htext. split.
    + apply postorder_node_at. by eapply list_elem_of_lookup_2.
    + by eapply number_from_lookup.
Qed.

Lemma tray_menu_identifiers_witness :
  ID_TRAY_FIRST + Z.of_nat (length (postorder nested_menu)) < 2 ^ 32 ∧
  bindings (_tray_menu (Some nested_menu) ID_TRAY_FIRST).1 =
    number_from ID_TRAY_FIRST (postorder nested_menu).
Proof.
  assert (H : ID_TRAY_FIRST + Z.of_nat (length (postorder nested_menu)) < 2 ^ 32)
    by (vm_compute; reflexivity).
  split; [exact H|]. exact (proj1 (tray_menu_identifiers nested_menu H)).
Defined.

(** C1 as stated fails: read in pre-order, the identifiers of the menu
    "File > Open" are 1001 for "File" and 1000 for "Open". *)
Lemma preorder_identifiers_not_increasing :
  preorder_identifiers nested_menu = [1001; 1000] ∧
  ¬ strictly_increasing (preorder_identifiers nested_menu).
Proof.
  split; [vm_compute; reflexivity|].
  intros H. vm_compute in H. inversion H as [|? ? _ Hall]; subst.
  inversion Hall as [|? ? Hlt _]; subst. discriminate Hlt.
Qed.

(** ** From an identifier back to its item *)

Lemma MNLookUpItem_complete cmd : ∀ h x,
  x ∈ all_items h → wID x = cmd → is_Some (MNLookUpItem cmd h).
Proof.
  assert (step : ∀ h, Forall (λ it, ∀ s x, hSubMenu it = Some s → x ∈ all_items s →
             wID x = cmd → is_Some (MNLookUpItem cmd s)) h →
           ∀ x, x ∈ all_items h → wID x = cmd → is_Some (MNLookUpItem cmd h)).
  { induction 1 as [|it h Hit _ IH]; intros x Hx Hid; [by apply elem_of_nil in Hx|].
    rewrite MNLookUpItem_cons.
    rewrite all_items_cons, all_items_below_eq in Hx.
    destruct (hSubMenu it) as [s|] eqn:Hs.
    - destruct (MNLookUpItem cmd s) as [np|] eqn:Hsub; [done|].
      destruct (MNLookUpItem cmd h) as [np|] eqn:Hrest; [done|].
      apply elem_of_app in Hx as [Hx|Hx].
      { destruct (Hit s x eq_refl Hx Hid) as [? ?]. congruence. }
      apply elem_of_cons in Hx as [->|Hx].
      + apply Z.eqb_eq in Hid. by rewrite Hid.
      + destruct (IH x Hx Hid) as [? ?]. congruence.
    - simpl in Hx. apply elem_of_cons in Hx as [->|Hx].
      + apply Z.eqb_eq in Hid. by rewrite Hid.
      + destruct (wID it =? cmd); [done|].
        destruct (IH x Hx Hid) as [np ->]. done. }
  assert (nodes : ∀ it s x, hSubMenu it = Some s → x ∈ all_items s →
            wID x = cmd → is_Some (MNLookUpItem cmd s)).
  { intros it. induction it as [it IH] using MENUITEM_nested_ind.
    intros s x Hs. apply step. specialize (IH _ Hs).
    eapply Forall_impl; [exact IH|]. simpl. intros y Hy. exact Hy. }
  intros h. apply step. apply Forall_forall. intros it _. apply nodes.
Qed.

Lemma tray_menu_for_keeps_unbound m :
  Forall body_keeps_unbound m →
  ∀ addr i acc id,
    Forall unbound_has_no_id (all_items acc) →
    Forall unbound_has_no_id (all_items (_tray_menu_for _tray_menu_body addr i m acc id).1).
Proof.
  induction 1 as [|n rest Hn _ IH]; intros addr i acc id Hacc; simpl in *; [done|].
  specialize (Hn (addr ++ [i]) acc id).
  destruct (_tray_menu_body (addr ++ [i]) n acc id) as [hmenu' id'].
  apply IH. by apply Hn.
Qed.

Lemma tray_menu_body_keeps_unbound n : body_keeps_unbound n.
Proof.
  induction n as [n IH] using tray_menu_nested_ind.
  intros p acc id Hacc. rewrite tray_menu_body_eq.
  destruct (decide (text n = "-")) as [Hsep|Hsep]; simpl.
  - by apply Forall_InsertMenuA_separator.
  - destruct (submenu n) as [s|] eqn:Hs.
    + pose proof (tray_menu_for_keeps_unbound s (IH _ eq_refl) p 0%nat [] id) as Hs'.
      destruct (_tray_menu_for _tray_menu_body p 0 s [] id) as [h id1]. simpl in *.
      apply Forall_InsertMenuItemA; [done|].
      rewrite all_items_singleton, all_items_below_eq. simpl.
      apply Forall_app. split; [apply Hs'; constructor|]. by repeat constructor.
    + simpl. apply Forall_InsertMenuItemA; [done|]. by repeat constructor.
Qed.

Lemma tray_menu_keeps_unbound m id :
  Forall unbound_has_no_id (all_items (_tray_menu m id).1).
Proof.
  destruct m as [m|]; simpl; [|constructor].
  apply tray_menu_for_keeps_unbound; [|constructor].
  apply Forall_forall. intros n _. apply tray_menu_body_keeps_unbound.
Qed.

Lemma NoDup_snd_unique {A} (l : list (A * Z)) a b c :
  NoDup l.*2 → (a, c) ∈ l → (b, c) ∈ l → a = b.
Proof.
  induction l as [|[x y] l IH]; simpl; [by intros _ ?%elem_of_nil|].
  intros [Hy Hnd]%NoDup_cons [Ha|Ha]%elem_of_cons [Hb|Hb]%elem_of_cons.
  - congruence.
  - injection Ha as -> ->. destruct Hy. apply list_elem_of_fmap. by exists (b, y).
  - injection Hb as -> ->. destruct Hy. apply list_elem_of_fmap. by exists (a, y).
  - by apply IH.
Qed.

Lemma elem_of_bindings h p id :
  (p, id) ∈ bindings h ↔ ∃ it, it ∈ all_items h ∧ dwItemData it = Some p ∧ wID it = id.
Proof.
  unfold bindings. rewrite list_elem_of_omap. unfold binding. split.
  - intros (it & Hin & Hb). exists it. destruct (dwItemData it); [|done].
    by injection Hb as -> ->.
  - intros (it & Hin & Hp & Hid). exists it. by rewrite Hp, Hid.
Qed.

(** While nothing wraps, the identifier bound to an item of the
    description is found in the built menu, and what is found there leads
    back to that item. *)
Lemma tray_menu_identifier_resolves m p id :
  ID_TRAY_FIRST + Z.of_nat (length (postorder m)) < 2 ^ 32 →
  (p, id) ∈ bindings (_tray_menu (Some m) ID_TRAY_FIRST).1 →
  ∃ it, GetMenuItemInfoA (_tray_menu (Some m) ID_TRAY_FIRST).1 id = Some it ∧
        dwItemData it = Some p.
Proof.
  intros Hfit Hb.
  destruct (tray_menu_identifiers_support m Hfit) as (Heq & Hnd).
  set (built := (_tray_menu (Some m) ID_TRAY_FIRST).1) in *.
  assert (Hid : ID_TRAY_FIRST ≤ id).
  { rewrite Heq in Hb. by apply number_from_bounds in Hb as [? _]. }
  apply elem_of_bindings in Hb as Hit. destruct Hit as (it & Hin & Hp & Hw).
  destruct (MNLookUpItem_complete id built it Hin Hw) as [np Hnp].
  destruct (MNLookUpItem_sound id built np Hnp) as (it' & Hat & Hw').
  exists it'. unfold GetMenuItemInfoA. rewrite Hnp. split; [done|].
  apply item_at_all_items in Hat as Hin'.
  destruct (dwItemData it') as [p'|] eqn:Hp'.
  - f_equal. apply (NoDup_snd_unique (bindings built) p' p id Hnd).
    + apply elem_of_bindings. by exists it'.
    + apply elem_of_bindings. by exists it.
  - pose proof (tray_menu_keeps_unbound (Some m) ID_TRAY_FIRST) as Hun.
    rewrite Forall_forall in Hun. specialize (Hun it' Hin' Hp').
    unfold ID_TRAY_FIRST in Hid. lia.
Qed.

(** At the top of its range the counter wraps: of two items built from
    [2^32 - 1] the first gets [2^32 - 1] and the second 0, which as a
    position puts it in front. *)
Lemma tray_menu_wraps :
  bindings (_tray_menu (Some [leaf "a"; leaf "b"]) (2 ^ 32 - 1)).1 =
    [([1%nat], 0); ([0%nat], 2 ^ 32 - 1)].
Proof.
  unfold _tray_menu. cbn [_tray_menu_for]. rewrite !tray_menu_body_eq.
  cbn [leaf text submenu disabled checked app].
  rewrite !(decide_False (P := _ = "-")) by done. cbv zeta.
  rewrite InsertMenuItemA_append by (cbn [length]; lia). cbv beta iota.
  replace (to_UINT (2 ^ 32 - 1 + 1)) with 0 by (vm_compute; reflexivity).
  reflexivity.
Qed.

(** ** What the steps of an update leave alone *)

Lemma quiet_refl s : quiet s s.
Proof. exists []. by rewrite app_nil_r. Qed.

Lemma quiet_trans s1 s2 s3 : quiet s1 s2 → quiet s2 s3 → quiet s1 s3.
Proof.
  intros (e1 & H1 & F1) (e2 & H2 & F2). exists (e1 ++ e2).
  rewrite H2, H1, app_assoc. split; [done|]. by apply Forall_app.
Qed.

Lemma quiet_emit e s : is_callback e = false → quiet s (emit e s).
Proof. intros He. exists [e]. split; [done|]. by repeat constructor. Qed.

Lemma quiet_same_trace s s' : trace s' = trace s → quiet s s'.
Proof. intros H. exists []. by rewrite app_nil_r. Qed.

Lemma keeps_menus_refl s : keeps_menus s s.
Proof. done. Qed.

Lemma keeps_menus_trans s1 s2 s3 : keeps_menus s1 s2 → keeps_menus s2 s3 → keeps_menus s1 s3.
Proof. unfold keeps_menus. intros (? & ? & ?) (? & ? & ?). repeat split; congruence. Qed.

Section frames.
Variable env : Environment.

Lemma tray_log_last_error_frame level context s :
  let s' := tray_log_last_error level context s in
  nid s' = nid s ∧ icon_infos s' = icon_infos s ∧ keeps_menus s s' ∧ quiet s s'.
Proof.
  unfold tray_log_last_error, tray_log. destruct (g_tray_log_cb s); simpl.
  - repeat split. by apply quiet_emit.
  - repeat split. apply quiet_refl.
Qed.

Lemma decode_icon_frame file kind s :
  let s' := (decode_icon env file kind s).2 in
  nid s' = nid s ∧ icon_infos s' = icon_infos s ∧ keeps_menus s s' ∧ quiet s s'.
Proof.
  unfold decode_icon. destruct (icon_decodes env file kind); simpl;
    repeat split; by apply (quiet_emit (EvDecodeIcon file kind)).
Qed.

Lemma create_icon_info_frame path s :
  let s' := (_create_icon_info env path s).2 in
  nid s' = nid s ∧ icon_infos s' = icon_infos s ∧ keeps_menus s s' ∧ quiet s s'.
Proof.
  unfold _create_icon_info.
  pose proof (decode_icon_frame path LARGE s) as H1.
  destruct (decode_icon env path LARGE s) as [large s1].
  pose proof (decode_icon_frame path REGULAR s1) as H2.
  destruct (decode_icon env path REGULAR s1) as [small s2].
  pose proof (decode_icon_frame path NOTIFICATION s2) as H3.
  destruct (decode_icon env path NOTIFICATION s2) as [notif s3].
  simpl in *. destruct H1 as (? & ? & ? & ?), H2 as (? & ? & ? & ?), H3 as (? & ? & ? & ?).
  split; [congruence|]. split; [congruence|].
  split; [eauto using keeps_menus_trans | eauto using quiet_trans].
Qed.

Lemma create_icon_info_path path s :
  icon_info.path (_create_icon_info env path s).1 = path.
Proof.
  unfold _create_icon_info.
  destruct (decode_icon env path LARGE s) as [large s1].
  destruct (decode_icon env path REGULAR s1) as [small s2].
  by destruct (decode_icon env path NOTIFICATION s2) as [notif s3].
Qed.

Lemma fetch_icon_frame path kind s :
  let s' := (_fetch_icon env path kind s).2 in
  nid s' = nid s ∧ keeps_menus s s' ∧ quiet s s'.
Proof.
  unfold _fetch_icon. destruct (find_cached path (icon_infos s)); simpl.
  - repeat split. apply quiet_refl.
  - pose proof (create_icon_info_frame path s) as H.
    destruct (_create_icon_info env path s) as [info s1]. simpl in *.
    destruct H as (? & ? & ? & ?). split; [done|]. split; [done|].
    eapply quiet_trans; [eassumption|]. by apply quiet_same_trace.
Qed.
End frames.

(** ** The icon cache *)

Section icon_cache.
Variable env : Environment.

Lemma find_cached_Some path infos e :
  find_cached path infos = Some e → e ∈ infos ∧ icon_info.path e = path.
Proof.
  induction infos as [|x infos IH]; simpl; [done|].
  destruct (decide (icon_info.path x = path)).
  - intros [= <-]. split; [left|done].
  - intros H. destruct (IH H). split; [by right|done].
Qed.

Lemma find_cached_None path infos :
  find_cached path infos = None → path ∉ icon_info.path <$> infos.
Proof.
  induction infos as [|x infos IH]; simpl; [intros _; apply not_elem_of_nil|].
  destruct (decide (icon_info.path x = path)); [done|].
  intros H. apply not_elem_of_cons. split; [done|by apply IH].
Qed.

Lemma find_cached_elem path infos :
  path ∈ icon_info.path <$> infos → is_Some (find_cached path infos).
Proof.
  intros Hin. destruct (find_cached path infos) eqn:E; [done|].
  by apply find_cached_None in E.
Qed.

(** A hit changes nothing: no decoding call, no new entry. *)
Lemma fetch_icon_hit path kind s :
  path ∈ cached_paths s →
  ∃ e, e ∈ icon_infos s ∧ icon_info.path e = path ∧
       _fetch_icon env path kind s = (_fetch_cached_icon e kind, s).
Proof.
  intros [e He]%find_cached_elem. exists e.
  destruct (find_cached_Some _ _ _ He). unfold _fetch_icon. by rewrite He.
Qed.

(** A miss appends one entry for the path. *)
Lemma fetch_icon_miss path kind s :
  path ∉ cached_paths s →
  cached_paths (_fetch_icon env path kind s).2 = cached_paths s ++ [path].
Proof.
  intros Hmiss. unfold _fetch_icon.
  destruct (find_cached path (icon_infos s)) as [e|] eqn:E.
  - apply find_cached_Some in E as [Hin <-]. destruct Hmiss.
    unfold cached_paths. by apply list_elem_of_fmap_2.
  - pose proof (create_icon_info_frame env path s) as (_ & Hinfos & _).
    pose proof (create_icon_info_path env path s) as Hpath.
    destruct (_create_icon_info env path s) as [info s1]. simpl in *.
    unfold cached_paths. simpl. by rewrite fmap_app, Hinfos, <- Hpath.
Qed.

Lemma fetch_icon_NoDup path kind s :
  NoDup (cached_paths s) → NoDup (cached_paths (_fetch_icon env path kind s).2).
Proof.
  intros Hnd. destruct (decide (path ∈ cached_paths s)) as [Hin|Hout].
  - destruct (fetch_icon_hit path kind s Hin) as (e & _ & _ & ->). done.
  - rewrite fetch_icon_miss by done. apply NoDup_app. split; [done|].
    split; [|apply NoDup_singleton]. intros x Hx ->%list_elem_of_singleton. done.
Qed.

Lemma init_icon_cache_for_paths paths : ∀ s,
  cached_paths (_init_icon_cache_for env paths s) = cached_paths s ++ paths.
Proof.
  induction paths as [|p paths IH]; intros s; simpl; [by rewrite app_nil_r|].
  pose proof (create_icon_info_frame env p s) as (_ & Hinfos & _).
  pose proof (create_icon_info_path env p s) as Hpath.
  destruct (_create_icon_info env p s) as [info s1]. simpl in *.
  rewrite IH. unfold cached_paths. simpl.
  by rewrite fmap_app, Hinfos, <- app_assoc, <- Hpath.
Qed.

(** Initialisation makes the cache exactly the given paths, in order,
    duplicates included. *)
Lemma init_icon_cache_paths paths s :
  cached_paths (_init_icon_cache env paths s) = paths.
Proof. unfold _init_icon_cache. by rewrite init_icon_cache_for_paths. Qed.

Lemma run_cache_ops_NoDup ops : ∀ s,
  NoDup (cached_paths s) → Forall init_paths_distinct ops →
  NoDup (cached_paths (run_cache_ops env ops s)).
Proof.
  induction ops as [|op ops IH]; intros s Hnd Hops; [done|].
  apply Forall_cons in Hops as [Hop Hops]. apply IH; [|done].
  destruct op as [paths|path kind]; simpl in *.
  - by rewrite init_icon_cache_paths.
  - by apply fetch_icon_NoDup.
Qed.

Lemma resolve_all_paths paths kind : ∀ s,
  NoDup paths → (∀ p, p ∈ paths → p ∉ cached_paths s) →
  cached_paths (resolve_all env paths kind s) = cached_paths s ++ paths.
Proof.
  induction paths as [|p paths IH]; intros s Hnd Hnew; [by rewrite app_nil_r|].
  apply NoDup_cons in Hnd as [Hp Hnd].
  change (resolve_all env (p :: paths) kind s)
    with (resolve_all env paths kind (_fetch_icon env p kind s).2).
  assert (Hstep : cached_paths (_fetch_icon env p kind s).2 = cached_paths s ++ [p]).
  { apply fetch_icon_miss, Hnew. left. }
  rewrite IH, Hstep; [by rewrite <- app_assoc|done|].
  intros q Hq. rewrite Hstep. apply not_elem_of_app. split.
  - apply Hnew. by right.
  - intros ->%list_elem_of_singleton. done.
Qed.

(** C3, amended.  After any run of cache initialisations and resolves in
    which every initialisation is given pairwise distinct paths, the
    cache holds at most one entry per path; resolving a path that is
    present returns the handle stored in its entry and changes nothing
    (no decoding call, no new entry); resolving [N] distinct paths that
    are not present appends exactly [N] entries, one per path. *)
Theorem icon_cache_one_entry_per_path ops s :
  NoDup (cached_paths s) → Forall init_paths_distinct ops →
  let s' := run_cache_ops env ops s in
  NoDup (cached_paths s') ∧
  (∀ path kind, path ∈ cached_paths s' →
     ∃ e, e ∈ icon_infos s' ∧ icon_info.path e = path ∧
          _fetch_icon env path kind s' = (_fetch_cached_icon e kind, s')) ∧
  (∀ paths kind, NoDup paths → (∀ p, p ∈ paths → p ∉ cached_paths s') →
     cached_paths (resolve_all env paths kind s') = cached_paths s' ++ paths ∧
     length (icon_infos (resolve_all env paths kind s')) =
       (length (icon_infos s') + length paths)%nat).
Proof.
  intros Hnd Hops s'. split; [by apply run_cache_ops_NoDup|].
  split; [intros path kind; apply fetch_icon_hit|].
  intros paths kind Hpaths Hnew.
  pose proof (resolve_all_paths paths kind s' Hpaths Hnew) as Heq.
  split; [done|]. apply (f_equal length) in Heq.
  unfold cached_paths in Heq. by rewrite length_app, !length_fmap in Heq.
Qed.
End icon_cache.

Lemma icon_cache_one_entry_per_path_witness :
  NoDup (cached_paths initial_state) ∧
  Forall init_paths_distinct [OpInit ["a.ico"]; OpResolve "a.ico" REGULAR; OpResolve "b.ico" LARGE] ∧
  NoDup (cached_paths (run_cache_ops quiet_env
    [OpInit ["a.ico"]; OpResolve "a.ico" REGULAR; OpResolve "b.ico" LARGE] initial_state)).
Proof.
  assert (H1 : NoDup (cached_paths initial_state)) by constructor.
  assert (H2 : Forall init_paths_distinct
            [OpInit ["a.ico"]; OpResolve "a.ico" REGULAR; OpResolve "b.ico" LARGE]).
  { repeat constructor. apply not_elem_of_nil. }
  split; [exact H1|]. split; [exact H2|].
  exact (proj1 (icon_cache_one_entry_per_path quiet_env _ _ H1 H2)).
Defined.

(** C3 as stated fails: initialising the cache with one path given twice
    makes two entries for it. *)
Lemma init_icon_cache_duplicates :
  cached_paths (run_cache_ops quiet_env [OpInit ["a.ico"; "a.ico"]] initial_state)
    = ["a.ico"; "a.ico"] ∧
  ¬ NoDup (cached_paths (run_cache_ops quiet_env [OpInit ["a.ico"; "a.ico"]] initial_state)).
Proof.
  split; [vm_compute; reflexivity|]. intros H. vm_compute in H. apply NoDup_cons in H as [H _].
  apply H. left.
Qed.

(** ** The notify-icon record across an update *)

Section notify_icon.
Variable env : Environment.

Lemma update_tip_spec t flags s :
  let r := update_tip env t flags s in
  r.1 = (if has_chars (tooltip t) then
           if defined_NIF_SHOWTIP env then Z.lor (Z.lor flags NIF_TIP) NIF_SHOWTIP
           else Z.lor flags NIF_TIP
         else flags) ∧
  szTip (nid r.2) = szTip_after t (szTip (nid s)) ∧
  szInfoTitle (nid r.2) = szInfoTitle (nid s) ∧
  szInfo (nid r.2) = szInfo (nid s) ∧
  keeps_menus s r.2 ∧ trace r.2 = trace s.
Proof.
  unfold update_tip, szTip_after.
  destruct (has_chars (tooltip t)); [destruct (defined_NIF_SHOWTIP env)|]; simpl; done.
Qed.

Lemma update_info_spec t flags s :
  let r := update_info env t flags s in
  r.1 = (if has_info t then Z.lor flags NIF_INFO else flags) ∧
  szTip (nid r.2) = szTip (nid s) ∧
  szInfoTitle (nid r.2) = szInfoTitle_after t (szInfoTitle (nid s)) ∧
  szInfo (nid r.2) = szInfo_after t (szInfo (nid s)) ∧
  keeps_menus s r.2 ∧ quiet s r.2.
Proof.
  unfold update_info, szInfoTitle_after, szInfo_after, has_info.
  destruct (has_chars (notification_title t) || has_chars (notification_text t)).
  2:{ simpl. do 5 (split; [done|]). by apply quiet_same_trace. }
  match goal with
  | |- context [if has_chars (notification_icon t) then decode_icon env ?f ?k ?s0 else _] =>
      pose proof (decode_icon_frame env f k s0) as Hd;
      destruct (has_chars (notification_icon t));
      [destruct (decode_icon env f k s0) as [hLarge s1]|]
  end.
  - simpl in Hd. destruct Hd as (Hnid & _ & (? & ? & ?) & ?).
    match goal with
    | |- context [if ?c then _ else s1] => destruct c
    end; simpl; rewrite ?Hnid; simpl; (do 4 (split; [done|])); (split; [done|]);
      (eapply quiet_trans; [|exact H2]); by apply quiet_same_trace.
  - match goal with
    | |- context [if ?c then upd_nid _ _ else _] => destruct c
    end; simpl; (do 5 (split; [done|])); by apply quiet_same_trace.
Qed.

Lemma Shell_NotifyIconA_frame dwMessage s :
  let s' := (Shell_NotifyIconA env dwMessage s).2 in
  nid s' = nid s ∧ keeps_menus s s' ∧ trace s' = trace s ++ [EvShell_NotifyIconA dwMessage (nid s)].
Proof. done. Qed.

(** What one update makes of the notify-icon record. *)
Lemma apply_notify_icon_spec t s :
  let s' := apply_notify_icon env t s in
  uFlags (nid s') = expected_uFlags env t (truthy (_fetch_icon env (icon t) REGULAR s).1) ∧
  szTip (nid s') = szTip_after t (szTip (nid s)) ∧
  szInfoTitle (nid s') = szInfoTitle_after t (szInfoTitle (nid s)) ∧
  szInfo (nid s') = szInfo_after t (szInfo (nid s)) ∧
  g_notification_cb s' = notification_cb t ∧
  keeps_menus s s' ∧ quiet s s' ∧
  EvShell_NotifyIconA NIM_MODIFY (nid s') ∈ trace s'.
Proof.
  unfold apply_notify_icon, expected_uFlags.
  pose proof (fetch_icon_frame env (icon t) REGULAR s) as Hf.
  destruct (_fetch_icon env (icon t) REGULAR s) as [h s1]. simpl in Hf.
  destruct Hf as (Hnid1 & Hk1 & Hq1). cbn [fst].
  set (flags1 := if truthy h then Z.lor (Z.lor NIF_MESSAGE NIF_GUID) NIF_ICON
                 else Z.lor NIF_MESSAGE NIF_GUID).
  set (s2 := if truthy h then upd_nid (set_hIcon h) s1 else s1).
  assert (H2 : szTip (nid s2) = szTip (nid s) ∧ szInfoTitle (nid s2) = szInfoTitle (nid s) ∧
               szInfo (nid s2) = szInfo (nid s) ∧ keeps_menus s s2 ∧ quiet s s2).
  { subst s2. destruct (truthy h); simpl; rewrite Hnid1;
      (split; [done|]); (split; [done|]); (split; [done|]); (split; [exact Hk1|]);
      (eapply quiet_trans; [exact Hq1|]); by apply quiet_same_trace. }
  replace (if truthy h then (Z.lor (Z.lor NIF_MESSAGE NIF_GUID) NIF_ICON, upd_nid (set_hIcon h) s1)
           else (Z.lor NIF_MESSAGE NIF_GUID, s1)) with (flags1, s2)
    by (subst flags1 s2; by destruct (truthy h)).
  pose proof (update_tip_spec t flags1 s2) as Ht.
  destruct (update_tip env t flags1 s2) as [flags2 s3]. simpl in Ht.
  pose proof (update_info_spec t flags2 s3) as Hi.
  destruct (update_info env t flags2 s3) as [flags3 s4]. simpl in Hi.
  destruct H2 as (A1 & A2 & A3 & A4 & A5).
  destruct Ht as (B0 & B1 & B2 & B3 & B4 & B5).
  destruct Hi as (C0 & C1 & C2 & C3 & C4 & C5).
  set (s5 := upd_nid (set_uFlags flags3) (set_g_notification_cb (notification_cb t) s4)).
  assert (K : keeps_menus s s5).
  { eapply keeps_menus_trans; [exact A4|]. eapply keeps_menus_trans; [exact B4|].
    eapply keeps_menus_trans; [exact C4|]. done. }
  assert (Q : quiet s s5).
  { eapply quiet_trans; [exact A5|]. eapply quiet_trans; [by apply quiet_same_trace|].
    eapply quiet_trans; [exact C5|]. by apply quiet_same_trace. }
  assert (F : uFlags (nid s5) =
    (if has_info t
     then Z.lor (if has_chars (tooltip t)
                 then if defined_NIF_SHOWTIP env
                      then Z.lor (Z.lor flags1 NIF_TIP) NIF_SHOWTIP
                      else Z.lor flags1 NIF_TIP
                 else flags1) NIF_INFO
     else if has_chars (tooltip t)
          then if defined_NIF_SHOWTIP env
               then Z.lor (Z.lor flags1 NIF_TIP) NIF_SHOWTIP
               else Z.lor flags1 NIF_TIP
          else flags1)).
  { subst s5. simpl. by rewrite C0, B0. }
  assert (N : nid (if (Shell_NotifyIconA env NIM_MODIFY s5).1 then (Shell_NotifyIconA env NIM_MODIFY s5).2
                   else tray_log_last_error TRAY_LOG_WARNING "Shell_NotifyIconA(NIM_MODIFY)"
                          (Shell_NotifyIconA env NIM_MODIFY s5).2) = nid s5).
  { destruct (Shell_NotifyIconA env NIM_MODIFY s5).1; [done|].
    by destruct (tray_log_last_error_frame TRAY_LOG_WARNING "Shell_NotifyIconA(NIM_MODIFY)"
                   (Shell_NotifyIconA env NIM_MODIFY s5).2) as (-> & _). }
  change (let '(ok, s) := Shell_NotifyIconA env NIM_MODIFY s5 in
          if ok then s else tray_log_last_error TRAY_LOG_WARNING "Shell_NotifyIconA(NIM_MODIFY)" s)
    with (if (Shell_NotifyIconA env NIM_MODIFY s5).1 then (Shell_NotifyIconA env NIM_MODIFY s5).2
          else tray_log_last_error TRAY_LOG_WARNING "Shell_NotifyIconA(NIM_MODIFY)"
                 (Shell_NotifyIconA env NIM_MODIFY s5).2).
  rewrite N.
  split.
  { rewrite F. subst flags1. cbv zeta.
    destruct (truthy h), (has_info t), (has_chars (tooltip t)), (defined_NIF_SHOWTIP env);
      reflexivity. }
  split; [subst s5; simpl; congruence|].
  split; [subst s5; simpl; congruence|].
  split; [subst s5; simpl; congruence|].
  pose proof (tray_log_last_error_frame TRAY_LOG_WARNING "Shell_NotifyIconA(NIM_MODIFY)"
                (Shell_NotifyIconA env NIM_MODIFY s5).2) as (_ & _ & L1 & L2).
  destruct (Shell_NotifyIconA env NIM_MODIFY s5).1.
  - split; [done|]. split; [done|]. split.
    + eapply quiet_trans; [exact Q|]. by apply quiet_emit.
    + simpl. set_solver.
  - split.
    { unfold tray_log_last_error, tray_log.
      by destruct (g_tray_log_cb (Shell_NotifyIconA env NIM_MODIFY s5).2). }
    split.
    + eapply keeps_menus_trans; [exact K|]. apply L1.
    + split.
      * eapply quiet_trans; [exact Q|]. eapply quiet_trans; [|exact L2]. by apply quiet_emit.
      * destruct L2 as (evs & -> & _). simpl. set_solver.
Qed.
End notify_icon.

(** ** Character arrays *)

Lemma c_str_app_NUL l r : c_str (l ++ NUL :: r) = c_str l.
Proof.
  induction l as [|c l IH]; simpl; [done|].
  destruct (Ascii.eqb c NUL); [done|]. by rewrite IH.
Qed.

Lemma c_str_take k : ∀ l, c_str (take k l) = take k (c_str l).
Proof.
  induction k as [|k IH]; intros [|c l]; simpl; try done.
  destruct (Ascii.eqb c NUL); [done|]. simpl. by rewrite IH.
Qed.

Lemma c_str_padded l n : c_str (l ++ replicate n NUL) = c_str l.
Proof.
  induction l as [|c l IH]; simpl.
  - by destruct n.
  - destruct (Ascii.eqb c NUL); [done|]. by rewrite IH.
Qed.

Lemma c_str_insert_0 l : c_str (<[0%nat := NUL]> l) = [].
Proof. by destruct l. Qed.

Lemma length_strncpy dst src n :
  (n ≤ length dst)%nat → length (strncpy dst src n) = length dst.
Proof.
  intros Hn. unfold strncpy.
  rewrite length_app, length_take, length_app, length_replicate, length_drop. lia.
Qed.

(** [strncpy] over the whole array, then a terminator in its last element:
    the array holds the source cut to one character less than its size. *)
Lemma strncpy_terminated dst src n :
  (0 < n)%nat →
  <[(n - 1)%nat := NUL]> (strncpy dst src n) =
    take (n - 1) (String.list_ascii_of_string src ++ replicate n NUL) ++ NUL :: drop n dst.
Proof.
  intros Hn. unfold strncpy.
  set (padded := String.list_ascii_of_string src ++ replicate n NUL).
  assert (Hlen : length (take n padded) = n).
  { rewrite length_take. subst padded. rewrite length_app, length_replicate. lia. }
  rewrite insert_app_l by lia.
  rewrite insert_take_drop by lia.
  rewrite take_take, Nat.min_l by lia.
  rewrite (drop_ge (take n padded)) by lia. by rewrite <- app_assoc.
Qed.

Lemma c_str_strncpy_terminated dst src n :
  (0 < n)%nat →
  c_str (<[(n - 1)%nat := NUL]> (strncpy dst src n)) =
    take (n - 1) (c_str (String.list_ascii_of_string src)).
Proof.
  intros Hn. by rewrite strncpy_terminated, c_str_app_NUL, c_str_take, c_str_padded.
Qed.

Lemma StringCchCopyA_accepted dst cch src :
  (0 < cch)%nat → Z.of_nat cch ≤ STRSAFE_MAX_CCH →
  StringCchCopyA dst cch src =
    take (cch - 1) (String.list_ascii_of_string src) ++
    NUL :: drop (S (length (take (cch - 1) (String.list_ascii_of_string src)))) dst.
Proof.
  intros Hpos Hmax. unfold StringCchCopyA.
  destruct (Nat.eqb_spec cch 0) as [|_]; [lia|].
  destruct (Z.ltb_spec STRSAFE_MAX_CCH (Z.of_nat cch)); [lia|done].
Qed.

Lemma StringCchCopyA_refused dst cch src :
  cch = 0%nat ∨ STRSAFE_MAX_CCH < Z.of_nat cch → StringCchCopyA dst cch src = dst.
Proof.
  intros Hc. unfold StringCchCopyA.
  destruct (Nat.eqb_spec cch 0) as [|Hnz]; [done|].
  destruct (Z.ltb_spec STRSAFE_MAX_CCH (Z.of_nat cch)); [done|lia].
Qed.

Lemma c_str_StringCchCopyA dst cch src :
  (0 < cch)%nat → Z.of_nat cch ≤ STRSAFE_MAX_CCH →
  c_str (StringCchCopyA dst cch src) = take (cch - 1) (c_str (String.list_ascii_of_string src)).
Proof.
  intros Hpos Hmax. rewrite StringCchCopyA_accepted by done.
  by rewrite c_str_app_NUL, c_str_take.
Qed.

Lemma length_StringCchCopyA dst cch src :
  (0 < cch ≤ length dst)%nat → length (StringCchCopyA dst cch src) = length dst.
Proof.
  intros Hc. unfold StringCchCopyA.
  destruct ((cch =? 0)%nat || (STRSAFE_MAX_CCH <? Z.of_nat cch)); [done|].
  rewrite length_app. simpl. rewrite length_drop, length_take. lia.
Qed.

Lemma NUL_in_insert i l : (i < length l)%nat → NUL ∈ <[i := NUL]> l.
Proof.
  intros Hi. apply list_elem_of_lookup. exists i. by apply list_lookup_insert_eq.
Qed.

Lemma szTip_after_spec t old :
  length old = SZTIP_SIZE →
  length (szTip_after t old) = SZTIP_SIZE ∧ NUL ∈ szTip_after t old ∧
  c_str (szTip_after t old) =
    take (SZTIP_SIZE - 1) (c_str (String.list_ascii_of_string (chars_or_empty (tooltip t)))).
Proof.
  intros Hlen. unfold szTip_after, chars_or_empty.
  destruct (has_chars (tooltip t)).
  - split; [by rewrite length_insert, length_strncpy by lia|]. split.
    + apply NUL_in_insert. rewrite length_strncpy by lia. rewrite Hlen. unfold SZTIP_SIZE. lia.
    + apply c_str_strncpy_terminated. unfold SZTIP_SIZE. lia.
  - split; [by rewrite length_insert|]. split.
    + apply NUL_in_insert. rewrite Hlen. unfold SZTIP_SIZE. lia.
    + by rewrite c_str_insert_0.
Qed.

Lemma has_chars_false_empty p : has_chars p = false → chars_or_empty p = EmptyString.
Proof. unfold chars_or_empty. by intros ->. Qed.

Lemma safe_copy_sz_spec old size src :
  (0 < size)%nat → Z.of_nat size ≤ STRSAFE_MAX_CCH → length old = size →
  length (safe_copy_sz old size (Some src)) = size ∧
  NUL ∈ safe_copy_sz old size (Some src) ∧
  c_str (safe_copy_sz old size (Some src)) =
    take (size - 1) (c_str (String.list_ascii_of_string src)).
Proof.
  intros Hsize Hmax Hlen. unfold safe_copy_sz. rewrite decide_False by lia.
  split; [rewrite length_StringCchCopyA; lia|]. split.
  - rewrite StringCchCopyA_accepted by done. apply elem_of_app. right. by left.
  - by apply c_str_StringCchCopyA.
Qed.

Lemma szInfoTitle_after_spec t old :
  length old = SZINFOTITLE_SIZE →
  length (szInfoTitle_after t old) = SZINFOTITLE_SIZE ∧ NUL ∈ szInfoTitle_after t old ∧
  c_str (szInfoTitle_after t old) =
    take (SZINFOTITLE_SIZE - 1)
      (c_str (String.list_ascii_of_string (chars_or_empty (notification_title t)))).
Proof.
  intros Hlen. unfold szInfoTitle_after. destruct (has_info t) eqn:Hinfo.
  - apply safe_copy_sz_spec; [unfold SZINFOTITLE_SIZE; lia|by vm_compute|done].
  - unfold has_info in Hinfo. apply orb_false_iff in Hinfo as [Ht _].
    rewrite (has_chars_false_empty _ Ht).
    split; [by rewrite length_insert|]. split.
    + apply NUL_in_insert. rewrite Hlen. unfold SZINFOTITLE_SIZE. lia.
    + by rewrite c_str_insert_0.
Qed.

Lemma szInfo_after_spec t old :
  length old = SZINFO_SIZE →
  length (szInfo_after t old) = SZINFO_SIZE ∧ NUL ∈ szInfo_after t old ∧
  c_str (szInfo_after t old) =
    take (SZINFO_SIZE - 1)
      (c_str (String.list_ascii_of_string (chars_or_empty (notification_text t)))).
Proof.
  intros Hlen. unfold szInfo_after. destruct (has_info t) eqn:Hinfo.
  - apply safe_copy_sz_spec; [unfold SZINFO_SIZE; lia|by vm_compute|done].
  - unfold has_info in Hinfo. apply orb_false_iff in Hinfo as [_ Ht].
    rewrite (has_chars_false_empty _ Ht).
    split; [by rewrite length_insert|]. split.
    + apply NUL_in_insert. rewrite Hlen. unfold SZINFO_SIZE. lia.
    + by rewrite c_str_insert_0.
Qed.

(** ** [tray_update] step by step *)

Lemma submenu_events_S h k :
  submenu_events h (S k) = EvCreatePopupMenu h :: submenu_events (h + 1) k.
Proof.
  unfold submenu_events. cbn [seq fmap list_fmap]. rewrite Z.add_0_r. f_equal.
  rewrite <- fmap_S_seq, <- list_fmap_compose. apply list_fmap_ext.
  intros _ i _. simpl. f_equal. lia.
Qed.

Lemma build_events_created h m :
  Forall (λ e, ∃ h', e = EvCreatePopupMenu h') (build_events h m).
Proof.
  unfold build_events, submenu_events. constructor; [by eexists|].
  apply Forall_fmap, Forall_forall. intros i _. simpl. by eexists.
Qed.

Lemma build_events_quiet h m : Forall (λ e, is_callback e = false) (build_events h m).
Proof. eapply Forall_impl; [apply build_events_created|]. by intros e [h' ->]. Qed.

(** The submenus of a build take a handle each and leave the rest of the
    state alone. *)
Lemma CreatePopupMenu_submenus_spec k : ∀ s,
  let s' := CreatePopupMenu_submenus k s in
  os_next_handle s' = os_next_handle s + Z.of_nat k ∧
  trace s' = trace s ++ submenu_events (os_next_handle s) k ∧
  s' = set_trace (trace s') (set_os_next_handle (os_next_handle s') s).
Proof.
  induction k as [|k IH]; intros s.
  - simpl. rewrite Z.add_0_r, app_nil_r. by destruct s.
  - cbn [CreatePopupMenu_submenus].
    destruct (IH (emit (EvCreatePopupMenu (os_next_handle s))
                    (set_os_next_handle (os_next_handle s + 1) s))) as (N & T & E).
    cbn zeta in *. split; [rewrite N; simpl; lia|]. split.
    + rewrite T, submenu_events_S. simpl. by rewrite <- app_assoc.
    + rewrite E at 1. done.
Qed.

Lemma install_menu_spec m s :
  let s' := install_menu m s in
  hmenu s' = os_next_handle s ∧
  os_menus s' = <[os_next_handle s := (_tray_menu m ID_TRAY_FIRST).1]> (os_menus s) ∧
  g_tray s' = g_tray s ∧ nid s' = nid s ∧
  trace s' = trace s ++ build_events (os_next_handle s) m.
Proof.
  unfold install_menu, CreatePopupMenu. destruct (_tray_menu m ID_TRAY_FIRST) as [items id].
  match goal with |- context [CreatePopupMenu_submenus ?k ?s0] =>
    destruct (CreatePopupMenu_submenus_spec k s0) as (N & T & E) end.
  cbn zeta in *. rewrite E. simpl. rewrite T. simpl. unfold build_events.
  by rewrite <- app_assoc.
Qed.

(** What a build leaves alone, and the handles it takes: one for the
    top-level menu and one for every submenu. *)
Lemma install_menu_frame m s :
  let s' := install_menu m s in
  os_next_handle s' = os_next_handle s + 1 + Z.of_nat (submenus_created m) ∧
  icon_infos s' = icon_infos s ∧ os_icons s' = os_icons s ∧
  os_windows s' = os_windows s ∧ os_queue s' = os_queue s ∧
  g_tray_log_cb s' = g_tray_log_cb s ∧ g_notification_cb s' = g_notification_cb s ∧
  hwnd s' = hwnd s ∧ wm_taskbarcreated s' = wm_taskbarcreated s ∧
  os_class s' = os_class s.
Proof.
  unfold install_menu, CreatePopupMenu. destruct (_tray_menu m ID_TRAY_FIRST) as [items id].
  match goal with |- context [CreatePopupMenu_submenus ?k ?s0] =>
    destruct (CreatePopupMenu_submenus_spec k s0) as (N & T & E) end.
  cbn zeta in *. rewrite E. simpl. rewrite N. simpl. done.
Qed.

Lemma destroy_prevmenu_spec prevmenu s :
  let s' := destroy_prevmenu prevmenu s in
  hmenu s' = hmenu s ∧ g_tray s' = g_tray s ∧ nid s' = nid s ∧
  os_menus s' = (if prevmenu =? 0 then os_menus s else delete prevmenu (os_menus s)) ∧
  trace s' = trace s ++ (if prevmenu =? 0 then [] else [EvDestroyMenu prevmenu]).
Proof.
  unfold destroy_prevmenu. destruct (prevmenu =? 0); simpl; [|done].
  by rewrite app_nil_r.
Qed.

Section update.
Variable env : Environment.

(** The state in which the notify-icon record is brought up to date. *)
Lemma tray_update_eq t s :
  tray_update env t s =
  destroy_prevmenu (hmenu s)
    (apply_notify_icon env t (run_steps (take 3 (tray_update_steps env t (hmenu s))) s)).
Proof. done. Qed.

Lemma before_notify_spec t s :
  let s3 := run_steps (take 3 (tray_update_steps env t (hmenu s))) s in
  g_tray s3 = Some t ∧ hmenu s3 = os_next_handle s ∧
  os_menus s3 = <[os_next_handle s := (_tray_menu (menu t) ID_TRAY_FIRST).1]> (os_menus s) ∧
  nid s3 = nid s ∧
  trace s3 = trace s ++ build_events (os_next_handle s) (menu t) ++
               [EvSendMessage WM_INITMENUPOPUP (os_next_handle s) 0;
                EvDefWindowProc WM_INITMENUPOPUP (os_next_handle s) 0].
Proof.
  cbn [tray_update_steps take run_steps foldl].
  destruct (install_menu_spec (menu t) (set_g_tray (Some t) s)) as (H1 & H2 & H3 & H4 & H5).
  unfold send_initmenupopup, DefWindowProc, emit. simpl in *.
  rewrite H1, H2, H3, H4, H5, <- !app_assoc. done.
Qed.

Lemma tray_update_spec t s :
  let s3 := run_steps (take 3 (tray_update_steps env t (hmenu s))) s in
  let s' := tray_update env t s in
  uFlags (nid s') = expected_uFlags env t (truthy (_fetch_icon env (icon t) REGULAR s3).1) ∧
  szTip (nid s') = szTip_after t (szTip (nid s)) ∧
  szInfoTitle (nid s') = szInfoTitle_after t (szInfoTitle (nid s)) ∧
  szInfo (nid s') = szInfo_after t (szInfo (nid s)) ∧
  g_tray s' = Some t ∧ hmenu s' = os_next_handle s ∧
  os_menus s' =
    (if hmenu s =? 0 then <[os_next_handle s := (_tray_menu (menu t) ID_TRAY_FIRST).1]> (os_menus s)
     else delete (hmenu s)
            (<[os_next_handle s := (_tray_menu (menu t) ID_TRAY_FIRST).1]> (os_menus s))) ∧
  quiet s s' ∧
  EvShell_NotifyIconA NIM_MODIFY (nid s') ∈ trace s'.
Proof.
  intros s3 s'. subst s'. rewrite tray_update_eq. fold s3.
  destruct (before_notify_spec t s) as (G3 & H3 & M3 & N3 & T3). fold s3 in G3, H3, M3, N3, T3.
  destruct (apply_notify_icon_spec env t s3) as (F & A1 & A2 & A3 & _ & (K1 & K2 & K3) & Q & E).
  destruct (destroy_prevmenu_spec (hmenu s) (apply_notify_icon env t s3))
    as (D1 & D2 & D3 & D4 & D5).
  rewrite D3, D2, D1, D4, D5, K1, K2, K3, G3, H3, M3.
  split; [exact F|]. rewrite A1, A2, A3, N3. do 6 (split; [done|]). split.
  - eapply quiet_trans; [|eapply quiet_trans; [exact Q|]].
    + exists (build_events (os_next_handle s) (menu t) ++
              [EvSendMessage WM_INITMENUPOPUP (os_next_handle s) 0;
               EvDefWindowProc WM_INITMENUPOPUP (os_next_handle s) 0]).
      split; [done|]. apply Forall_app. split; [apply build_events_quiet|].
      by repeat constructor.
    + exists (if hmenu s =? 0 then [] else [EvDestroyMenu (hmenu s)]).
      split; [done|]. destruct (hmenu s =? 0); by repeat constructor.
  - apply elem_of_app. by left.
Qed.

(** After an update [hmenu] refers to the live menu just built from the
    description. *)
Lemma tray_update_active_menu t s :
  handles_fresh s →
  active_menu (tray_update env t s) = Some (_tray_menu (menu t) ID_TRAY_FIRST).1.
Proof.
  intros Hfresh. unfold handles_fresh in Hfresh.
  destruct (tray_update_spec t s) as (_ & _ & _ & _ & _ & H & M & _).
  unfold active_menu. rewrite H, M. destruct (hmenu s =? 0).
  - by rewrite lookup_insert_eq.
  - rewrite lookup_delete_ne by lia. by rewrite lookup_insert_eq.
Qed.
End update.

(** ** Flags and fields applied by an update *)

Lemma expected_uFlags_bits env t icon_ok :
  (Z.land (expected_uFlags env t icon_ok) NIF_ICON ≠ 0 ↔ icon_ok = true) ∧
  (Z.land (expected_uFlags env t icon_ok) NIF_TIP ≠ 0 ↔ has_chars (tooltip t) = true) ∧
  (Z.land (expected_uFlags env t icon_ok) NIF_INFO ≠ 0 ↔ has_info t = true) ∧
  Z.land (expected_uFlags env t icon_ok) NIF_MESSAGE ≠ 0 ∧
  Z.land (expected_uFlags env t icon_ok) NIF_GUID ≠ 0.
Proof.
  unfold expected_uFlags.
  destruct icon_ok, (has_chars (tooltip t)), (defined_NIF_SHOWTIP env), (has_info t);
    vm_compute; repeat split; congruence.
Qed.

(** C10.  An update copies the tooltip, the notification title and the
    notification text into their arrays cut to the array size less one:
    the arrays keep their sizes, each holds a NUL, and the string each
    holds is the source cut to 127, 63 and 255 characters (the empty string
    when the source is absent or the balloon is not shown).  [tray_update]
    is total: it returns a state for every description. *)
Theorem tray_update_truncates env t s :
  nid_sized (nid s) →
  let n' := nid (tray_update env t s) in
  nid_sized n' ∧
  NUL ∈ szTip n' ∧ NUL ∈ szInfoTitle n' ∧ NUL ∈ szInfo n' ∧
  c_str (szTip n') =
    take (SZTIP_SIZE - 1) (c_str (String.list_ascii_of_string (chars_or_empty (tooltip t)))) ∧
  c_str (szInfoTitle n') =
    take (SZINFOTITLE_SIZE - 1)
      (c_str (String.list_ascii_of_string (chars_or_empty (notification_title t)))) ∧
  c_str (szInfo n') =
    take (SZINFO_SIZE - 1)
      (c_str (String.list_ascii_of_string (chars_or_empty (notification_text t)))).
Proof.
  intros (H1 & H2 & H3) n'.
  destruct (tray_update_spec env t s) as (_ & T & TI & I & _). fold n' in T, TI, I.
  destruct (szTip_after_spec t _ H1) as (A1 & A2 & A3).
  destruct (szInfoTitle_after_spec t _ H3) as (B1 & B2 & B3).
  destruct (szInfo_after_spec t _ H2) as (C1 & C2 & C3).
  unfold nid_sized. rewrite T, TI, I. done.
Qed.

Lemma tray_update_truncates_witness :
  nid_sized (nid initial_state) ∧
  nid_sized (nid (tray_update quiet_env scenario initial_state)).
Proof.
  assert (H : nid_sized (nid initial_state)) by (vm_compute; done).
  split; [exact H|]. exact (proj1 (tray_update_truncates quiet_env scenario initial_state H)).
Defined.

(** ** The menu handle during an update *)

(** C9.  In an update the new menu is built and made the active one in the
    second step; from then on [hmenu] refers to it and it is live.  The
    menu that was active on entry stays live through the first four steps
    and is destroyed in the fifth and last.  So if [hmenu] referred to a
    live menu on entry, it does after every step. *)
Theorem tray_update_menu_handover env t s :
  handles_fresh s →
  let at_ := λ k, run_steps (take k (tray_update_steps env t (hmenu s))) s in
  let built := (_tray_menu (menu t) ID_TRAY_FIRST).1 in
  tray_update env t s = at_ 5%nat ∧
  (∀ k, (k < 2)%nat → hmenu (at_ k) = hmenu s ∧ os_menus (at_ k) = os_menus s) ∧
  (∀ k, (2 ≤ k ≤ 5)%nat →
     hmenu (at_ k) = os_next_handle s ∧ active_menu (at_ k) = Some built) ∧
  (∀ k, (k ≤ 4)%nat → os_menus (at_ k) !! hmenu s = os_menus s !! hmenu s) ∧
  trace (at_ 5%nat) =
    trace (at_ 4%nat) ++ (if hmenu s =? 0 then [] else [EvDestroyMenu (hmenu s)]) ∧
  (hmenu s ≠ 0 → os_menus (at_ 5%nat) !! hmenu s = None) ∧
  (∀ k, (k ≤ 5)%nat → is_Some (active_menu s) → is_Some (active_menu (at_ k))).
Proof.
  intros Hfresh at_ built. unfold handles_fresh in Hfresh.
  destruct (before_notify_spec env t s) as (G3 & H3 & M3 & N3 & T3).
  destruct (install_menu_spec (menu t) (set_g_tray (Some t) s)) as (I1 & I2 & _).
  simpl in I1, I2.
  destruct (apply_notify_icon_spec env t (at_ 3%nat)) as (_ & _ & _ & _ & _ & (K1 & K2 & K3) & _).
  destruct (destroy_prevmenu_spec (hmenu s) (at_ 4%nat)) as (D1 & _ & _ & D4 & D5).
  change (run_steps (take 3 (tray_update_steps env t (hmenu s))) s) with (at_ 3%nat) in *.
  change (apply_notify_icon env t (at_ 3%nat)) with (at_ 4%nat) in *.
  change (destroy_prevmenu (hmenu s) (at_ 4%nat)) with (at_ 5%nat) in *.
  change (install_menu (menu t) (set_g_tray (Some t) s)) with (at_ 2%nat) in *.
  assert (A2 : active_menu (at_ 2%nat) = Some built).
  { unfold active_menu. rewrite I1, I2. by rewrite lookup_insert_eq. }
  assert (A3 : active_menu (at_ 3%nat) = Some built).
  { unfold active_menu. rewrite H3, M3. by rewrite lookup_insert_eq. }
  assert (A4 : active_menu (at_ 4%nat) = Some built).
  { unfold active_menu. rewrite K2, K3. exact A3. }
  assert (A5 : active_menu (at_ 5%nat) = Some built).
  { pose proof A4 as A4'. unfold active_menu in A4' |- *.
    rewrite K2, H3 in A4'. rewrite D1, D4, K2, H3.
    destruct (hmenu s =? 0); [exact A4'|].
    rewrite lookup_delete_ne by lia. exact A4'. }
  assert (P2 : os_menus (at_ 2%nat) !! hmenu s = os_menus s !! hmenu s).
  { rewrite I2. apply lookup_insert_ne. lia. }
  assert (P3 : os_menus (at_ 3%nat) !! hmenu s = os_menus s !! hmenu s).
  { rewrite M3. apply lookup_insert_ne. lia. }
  split; [done|]. split.
  { intros [|[|k]] Hk; [done|done|lia]. }
  split.
  { intros [|[|[|[|[|[|k]]]]]] Hk; try lia.
    - by rewrite I1.
    - by rewrite H3.
    - by rewrite K2, H3.
    - by rewrite D1, K2, H3. }
  split.
  { intros [|[|[|[|[|k]]]]] Hk; try lia; try done. by rewrite K3. }
  split; [exact D5|]. split.
  { intros Hne. rewrite D4. apply Z.eqb_neq in Hne. rewrite Hne. apply lookup_delete_eq. }
  intros [|[|[|[|[|[|k]]]]]] Hk Hlive; try lia; try done.
  all: eexists; eassumption.
Qed.

Lemma tray_update_menu_handover_witness :
  handles_fresh (tray_update quiet_env scenario initial_state) ∧
  tray_update quiet_env scenario_no_tip (tray_update quiet_env scenario initial_state) =
  run_steps (take 5 (tray_update_steps quiet_env scenario_no_tip
                       (hmenu (tray_update quiet_env scenario initial_state))))
    (tray_update quiet_env scenario initial_state).
Proof.
  assert (H : handles_fresh (tray_update quiet_env scenario initial_state))
    by (vm_compute; reflexivity).
  split; [exact H|].
  exact (proj1 (tray_update_menu_handover quiet_env scenario_no_tip _ H)).
Defined.

(** ** Items and menus under in-place changes *)

Lemma node_at_alter f : ∀ p m n,
  node_at m p = Some n → node_at (node_alter f p m) p = Some (f n).
Proof.
  induction p as [|i p IH]; intros m n; [done|].
  destruct p as [|j p].
  - simpl. intros Hi. by rewrite list_lookup_alter_eq, Hi.
  - cbn [node_at node_alter].
    destruct (m !! i) as [x|] eqn:Hi; [|done].
    destruct (submenu x) as [sub|] eqn:Hsub; [|done].
    intros Hat. rewrite list_lookup_alter_eq, Hi. simpl. rewrite Hsub. simpl.
    by apply IH.
Qed.

Lemma item_at_alter f : ∀ np h it,
  item_at h np = Some it → ∃ it', item_at (item_alter f np h) np = Some it' ∧
                                 dwItemData it' = dwItemData (f it) ∧ wID it' = wID (f it).
Proof.
  induction np as [|i np IH]; intros h it; [done|].
  destruct np as [|j np].
  - simpl. intros Hi. exists (f it). by rewrite list_lookup_alter_eq, Hi.
  - cbn [item_at item_alter].
    destruct (h !! i) as [x|] eqn:Hi; [|done].
    destruct (hSubMenu x) as [sub|] eqn:Hsub; [|done].
    intros Hat. rewrite list_lookup_alter_eq, Hi. simpl. rewrite Hsub. simpl.
    by apply IH.
Qed.

Lemma lookup_items_alter cmd g : ∀ h i,
  (∀ it, wID (g it) = wID it ∧ lookup_below cmd (g it) = lookup_below cmd it ∧
         (hSubMenu (g it) = None ↔ hSubMenu it = None)) →
  MNLookUpItem cmd (alter g i h) = MNLookUpItem cmd h.
Proof.
  intros h i Hg. revert i. unfold MNLookUpItem.
  induction h as [|it h IH]; intros [|i]; try done.
  - cbn [alter list_alter lookup_items].
    destruct (Hg it) as (-> & -> & Hnone).
    destruct (hSubMenu it) as [s|] eqn:Hs, (hSubMenu (g it)) as [s'|] eqn:Hs'; try done.
    + discriminate (proj1 Hnone eq_refl).
    + discriminate (proj2 Hnone eq_refl).
  - cbn [alter list_alter lookup_items]. change (list_alter g i h) with (alter g i h).
    by rewrite IH.
Qed.

Lemma MNLookUpItem_item_alter_state cmd v : ∀ np h,
  MNLookUpItem cmd (item_alter (set_fState v) np h) = MNLookUpItem cmd h.
Proof.
  induction np as [|i np IH]; intros h; [done|].
  destruct np as [|j np]; cbn [item_alter].
  - apply lookup_items_alter. intros it. by destruct it.
  - apply lookup_items_alter. intros it. split; [done|]. split.
    + rewrite !lookup_below_eq. simpl. destruct (hSubMenu it); simpl; [apply IH|done].
    + simpl. by destruct (hSubMenu it).
Qed.

(** Setting the state of the item a command refers to does not change
    what the command resolves to. *)
Lemma GetMenuItemInfoA_after_set h cmd v it :
  GetMenuItemInfoA h cmd = Some it →
  ∃ it', GetMenuItemInfoA (SetMenuItemInfoA_state h cmd v) cmd = Some it' ∧
         dwItemData it' = dwItemData it.
Proof.
  unfold GetMenuItemInfoA, SetMenuItemInfoA_state.
  destruct (MNLookUpItem cmd h) as [np|] eqn:Hnp; [|done].
  intros Hat. rewrite MNLookUpItem_item_alter_state, Hnp.
  destruct (item_at_alter (set_fState v) np h it Hat) as (it' & -> & Hd & _).
  by exists it'.
Qed.

Lemma GetMenuItemInfoA_elem h cmd it :
  GetMenuItemInfoA h cmd = Some it → it ∈ all_items h ∧ wID it = cmd.
Proof.
  unfold GetMenuItemInfoA. destruct (MNLookUpItem cmd h) as [np|] eqn:Hnp; [|done].
  intros Hat. destruct (MNLookUpItem_sound cmd h np Hnp) as (it' & Hat' & Hid).
  rewrite Hat in Hat'. injection Hat' as <-. split; [|done].
  by eapply item_at_all_items.
Qed.

(** ** Dispatching a command *)

Lemma keeps_menus_deref p s s' : keeps_menus s s' → deref p s' = deref p s.
Proof. intros (H & _). unfold deref. by rewrite H. Qed.

Lemma keeps_menus_resolve cmd s s' :
  keeps_menus s s' → resolve_command cmd s' = resolve_command cmd s.
Proof. intros (_ & H1 & H2). unfold resolve_command, active_menu. by rewrite H1, H2. Qed.

Lemma deref_store p f s n : deref p s = Some n → deref p (store p f s) = Some (f n).
Proof.
  unfold deref, store. destruct (g_tray s) as [t|]; [|done]. simpl.
  destruct (menu t) as [m|]; [|done]. simpl. apply node_at_alter.
Qed.

Lemma toggle_checkbox_deref p cmd s n :
  deref p s = Some n → truthy (checkbox n) = true →
  deref p (toggle_checkbox p cmd s) = Some (set_checked (lnot (checked n)) n).
Proof.
  intros Hn Hbox. unfold toggle_checkbox. rewrite Hn, Hbox.
  pose proof (deref_store p (set_checked (lnot (checked n))) s n Hn) as Hs.
  destruct (active_menu (store p (set_checked (lnot (checked n))) s)); [|done].
  by rewrite <- Hs.
Qed.

Lemma toggle_checkbox_plain p cmd s n :
  deref p s = Some n → truthy (checkbox n) = false → toggle_checkbox p cmd s = s.
Proof. intros Hn Hbox. unfold toggle_checkbox. by rewrite Hn, Hbox. Qed.

Lemma store_menus p f s :
  hmenu (store p f s) = hmenu s ∧ os_menus (store p f s) = os_menus s ∧
  trace (store p f s) = trace s.
Proof. unfold store. by destruct (g_tray s). Qed.

Lemma toggle_checkbox_resolve p cmd s :
  resolve_command cmd s = Some p → resolve_command cmd (toggle_checkbox p cmd s) = Some p.
Proof.
  intros Hres. unfold toggle_checkbox.
  destruct (deref p s) as [n|]; [|done].
  destruct (truthy (checkbox n)); [|done].
  set (s1 := store p (set_checked (lnot (checked n))) s).
  destruct (store_menus p (set_checked (lnot (checked n))) s) as (Hh & Hm & _).
  fold s1 in Hh, Hm.
  unfold resolve_command, active_menu in Hres |- *. rewrite Hh, Hm.
  destruct (os_menus s !! hmenu s) as [h|] eqn:Hact; [|done].
  simpl. rewrite Hh, lookup_insert_eq.
  destruct (GetMenuItemInfoA h cmd) as [it|] eqn:Hget; [|done].
  destruct (GetMenuItemInfoA_after_set h cmd
              (if truthy (lnot (checked n)) then MFS_CHECKED else 0) it Hget)
    as (it' & -> & ->). done.
Qed.

Lemma toggle_checkbox_trace p cmd s : trace (toggle_checkbox p cmd s) = trace s.
Proof.
  unfold toggle_checkbox. destruct (deref p s) as [n|]; [|done].
  destruct (truthy (checkbox n)); [|done].
  destruct (store_menus p (set_checked (lnot (checked n))) s) as (_ & _ & Ht).
  by destruct (active_menu (store p (set_checked (lnot (checked n))) s)).
Qed.

Lemma lnot_lnot c : lnot (lnot c) = (if c =? 0 then 0 else 1).
Proof. unfold lnot. by destruct (c =? 0). Qed.

Lemma truthy_lnot_lnot c : truthy (lnot (lnot c)) = truthy c.
Proof. rewrite lnot_lnot. unfold truthy. by destruct (c =? 0). Qed.

Section dispatch.
Variable env : Environment.

(** One dispatch: the checkbox is flipped first, then the callback runs
    on the state that has the flipped item. *)
Lemma on_WM_COMMAND_once s wparam p n :
  HIWORD wparam = 0 →
  resolve_command (LOWORD wparam) s = Some p →
  deref p s = Some n →
  let s1 := toggle_checkbox p (LOWORD wparam) s in
  let n1 := if truthy (checkbox n) then set_checked (lnot (checked n)) n else n in
  deref p s1 = Some n1 ∧
  on_WM_COMMAND env wparam s =
    match cb n with
    | Some f => call_menu_cb env f p (emit (EvMenuCallback f p n1) s1)
    | None => s1
    end.
Proof.
  intros Hhi Hres Hn s1 n1.
  assert (H1 : deref p s1 = Some n1).
  { subst s1 n1. destruct (truthy (checkbox n)) eqn:Hbox.
    - by apply toggle_checkbox_deref.
    - by rewrite (toggle_checkbox_plain p _ s n). }
  split; [exact H1|].
  unfold on_WM_COMMAND. rewrite Hhi, Hres. simpl. fold s1.
  unfold invoke_cb. rewrite H1.
  subst n1. by destruct (truthy (checkbox n)).
Qed.

(** C2, amended.  Dispatching the command of an item flips [checked] of a
    checkbox item with C's [!] before the callback is called, so the
    callback gets the flipped item; an item that is not a checkbox is
    left as it is.  When the callback leaves the description and the
    menu alone, a second dispatch makes [checked] the double negation of
    its first value: the same truth value, and the same number when it
    was 0 or 1. *)
Theorem checkbox_dispatch s wparam p n :
  HIWORD wparam = 0 →
  resolve_command (LOWORD wparam) s = Some p →
  deref p s = Some n →
  let s1 := toggle_checkbox p (LOWORD wparam) s in
  let n1 := if truthy (checkbox n) then set_checked (lnot (checked n)) n else n in
  deref p s1 = Some n1 ∧
  trace s1 = trace s ∧
  on_WM_COMMAND env wparam s =
    match cb n with
    | Some f => call_menu_cb env f p (emit (EvMenuCallback f p n1) s1)
    | None => s1
    end ∧
  (truthy (checkbox n) = false → s1 = s) ∧
  (truthy (checkbox n) = true →
   (∀ f s0, cb n = Some f → keeps_menus s0 (call_menu_cb env f p s0)) →
   let n2 := set_checked (lnot (lnot (checked n))) n in
   deref p (on_WM_COMMAND env wparam (on_WM_COMMAND env wparam s)) = Some n2 ∧
   truthy (checked n2) = truthy (checked n) ∧
   (checked n = 0 ∨ checked n = 1 → n2 = n)).
Proof.
  intros Hhi Hres Hn s1 n1.
  destruct (on_WM_COMMAND_once s wparam p n Hhi Hres Hn) as (H1 & Hrun).
  fold s1 n1 in H1, Hrun.
  split; [exact H1|]. split; [apply toggle_checkbox_trace|]. split; [exact Hrun|].
  split; [intros Hbox; by apply (toggle_checkbox_plain p _ s n)|].
  intros Hbox Hcb n2.
  set (s' := on_WM_COMMAND env wparam s) in *.
  assert (K : keeps_menus s1 s').
  { rewrite Hrun. destruct (cb n) as [f|] eqn:Hf; [|done].
    eapply keeps_menus_trans; [|by apply Hcb]. done. }
  assert (Hres' : resolve_command (LOWORD wparam) s' = Some p).
  { rewrite (keeps_menus_resolve _ _ _ K). by apply toggle_checkbox_resolve. }
  assert (Hn' : deref p s' = Some n1) by (by rewrite (keeps_menus_deref _ _ _ K)).
  destruct (on_WM_COMMAND_once s' wparam p n1 Hhi Hres' Hn') as (H2 & Hrun').
  assert (Hn1 : n1 = set_checked (lnot (checked n)) n) by (subst n1; by rewrite Hbox).
  assert (Hbox1 : truthy (checkbox n1) = true) by (by rewrite Hn1).
  rewrite Hbox1 in H2, Hrun'.
  assert (Hn2 : set_checked (lnot (checked n1)) n1 = n2) by (by rewrite Hn1).
  rewrite Hn2 in H2, Hrun'.
  split; [|split].
  - rewrite Hrun'. destruct (cb n1) as [f|] eqn:Hf; [|exact H2].
    rewrite <- H2. apply keeps_menus_deref.
    eapply keeps_menus_trans; [|apply Hcb; by rewrite Hn1 in Hf]. done.
  - apply truthy_lnot_lnot.
  - subst n2. rewrite lnot_lnot. intros [H|H]; rewrite H; simpl; rewrite <- H; by destruct n.
Qed.

End dispatch.





Lemma checkbox_dispatch_witness :
  HIWORD 1002 = 0 ∧
  resolve_command (LOWORD 1002) (tray_update quiet_env scenario initial_state) = Some [2%nat] ∧
  deref [2%nat] (tray_update quiet_env scenario initial_state)
    = Some (Build_tray_menu "Toggle" 0 0 1 (Some 2%nat) 0 None) ∧
  deref [2%nat] (toggle_checkbox [2%nat] (LOWORD 1002)
                   (tray_update quiet_env scenario initial_state))
    = Some (Build_tray_menu "Toggle" 0 1 1 (Some 2%nat) 0 None).
Proof.
  assert (H1 : HIWORD 1002 = 0) by (vm_compute; reflexivity).
  assert (H2 : resolve_command (LOWORD 1002) (tray_update quiet_env scenario initial_state)
               = Some [2%nat]) by (vm_compute; reflexivity).
  assert (H3 : deref [2%nat] (tray_update quiet_env scenario initial_state)
               = Some (Build_tray_menu "Toggle" 0 0 1 (Some 2%nat) 0 None))
    by (vm_compute; reflexivity).
  split; [exact H1|]. split; [exact H2|]. split; [exact H3|].
  exact (proj1 (checkbox_dispatch quiet_env _ 1002 [2%nat] _ H1 H2 H3)).
Defined.

(** C2 as stated fails for an initial value of [checked] other than 0 and
    1: a checkbox item with [checked = 2] has [checked = 1] after two
    dispatches of its command. *)
Lemma checked2_not_restored :
  checked <$> deref [0%nat] (tray_update quiet_env checked2 initial_state) = Some 2 ∧
  resolve_command 1000 (tray_update quiet_env checked2 initial_state) = Some [0%nat] ∧
  checked <$> deref [0%nat]
    (on_WM_COMMAND quiet_env 1000
       (on_WM_COMMAND quiet_env 1000 (tray_update quiet_env checked2 initial_state)))
    = Some 1.
Proof. vm_compute. done. Qed.

(** ** The shell restarts *)

Lemma tray_wnd_proc_registered env msg wparam lparam s :
  0xC000 ≤ msg → wm_taskbarcreated s = msg →
  _tray_wnd_proc env msg wparam lparam s = on_taskbar_created env s.
Proof.
  intros Hmsg Hreg. unfold _tray_wnd_proc.
  assert ((msg =? WM_CLOSE) = false) as -> by (apply Z.eqb_neq; unfold WM_CLOSE; lia).
  assert ((msg =? WM_DESTROY) = false) as -> by (apply Z.eqb_neq; unfold WM_DESTROY; lia).
  assert ((msg =? WM_COMMAND) = false) as -> by (apply Z.eqb_neq; unfold WM_COMMAND; lia).
  assert ((msg =? WM_TRAY_CALLBACK_MESSAGE) = false) as ->
    by (apply Z.eqb_neq; unfold WM_TRAY_CALLBACK_MESSAGE, WM_USER; lia).
  simpl. by rewrite Hreg, Z.eqb_refl.
Qed.

Section taskbar_created.
Variable env : Environment.

Lemma readd_icon_spec s :
  let n1 := set_uCallbackMessage WM_TRAY_CALLBACK_MESSAGE
              (set_uFlags (Z.lor NIF_MESSAGE NIF_GUID) (nid s)) in
  let n2 := set_uVersion NOTIFYICON_VERSION_4 n1 in
  trace (readd_icon env s) =
    trace s ++ [EvShell_NotifyIconA NIM_ADD n1; EvShell_NotifyIconA NIM_SETVERSION n2] ∧
  keeps_menus s (readd_icon env s) ∧
  os_next_handle (readd_icon env s) = os_next_handle s.
Proof. unfold readd_icon. simpl. by rewrite <- app_assoc. Qed.

Lemma rebuild_menu_spec t s :
  trace (rebuild_menu t s) =
    trace s ++ build_events (os_next_handle s) (menu t) ++
               (if hmenu s =? 0 then [] else [EvDestroyMenu (hmenu s)]) ∧
  g_tray (rebuild_menu t s) = g_tray s ∧
  handles_fresh (rebuild_menu t s).
Proof.
  unfold rebuild_menu, handles_fresh.
  destruct (install_menu_spec (menu t) s) as (H1 & _ & H3 & _ & H5).
  destruct (install_menu_frame (menu t) s) as (N & _).
  cbn zeta in *.
  destruct (hmenu s =? 0); simpl; rewrite ?H1, ?H3, ?H5, ?N, <- ?app_assoc, ?app_nil_r;
    (split; [done|]); split; (done || lia).
Qed.

(** Nothing in an update looks at the callbacks of the caller. *)
Lemma tray_update_with_callbacks f g t s :
  tray_update (with_callbacks f g env) t s = tray_update env t s.
Proof. by destruct env. Qed.

Lemma readd_icon_with_callbacks f g s :
  readd_icon (with_callbacks f g env) s = readd_icon env s.
Proof. by destruct env. Qed.

Lemma on_taskbar_created_with_callbacks f g s :
  on_taskbar_created (with_callbacks f g env) s = on_taskbar_created env s.
Proof.
  unfold on_taskbar_created. rewrite readd_icon_with_callbacks.
  destruct (g_tray (readd_icon env s)); [apply tray_update_with_callbacks|done].
Qed.

(** C6.  When the registered shell-restart message arrives and a
    description [t] is on record, the handler adds the notify icon again,
    sets the version again, builds the menu from [t] and runs
    [tray_update] on [t]; afterwards [t] is still on record and the
    active menu is the one built from it.  No callback of the caller is
    called: none is in the trace, and the outcome is the same whatever
    the callbacks would do. *)
Theorem taskbar_created_restores s t msg wparam lparam :
  g_tray s = Some t → wm_taskbarcreated s = msg → 0xC000 ≤ msg →
  let s' := _tray_wnd_proc env msg wparam lparam s in
  let n1 := set_uCallbackMessage WM_TRAY_CALLBACK_MESSAGE
              (set_uFlags (Z.lor NIF_MESSAGE NIF_GUID) (nid s)) in
  let n2 := set_uVersion NOTIFYICON_VERSION_4 n1 in
  s' = tray_update env t (rebuild_menu t (readd_icon env s)) ∧
  (∃ rest,
     trace s' = trace s ++ EvShell_NotifyIconA NIM_ADD n1 ::
                  EvShell_NotifyIconA NIM_SETVERSION n2 ::
                  EvCreatePopupMenu (os_next_handle s) :: rest ∧
     Forall (λ e, is_callback e = false) rest) ∧
  EvShell_NotifyIconA NIM_MODIFY (nid s') ∈ trace s' ∧
  g_tray s' = Some t ∧
  active_menu s' = Some (_tray_menu (menu t) ID_TRAY_FIRST).1 ∧
  (∀ f g, _tray_wnd_proc (with_callbacks f g env) msg wparam lparam s = s').
Proof.
  intros Htray Hreg Hmsg s' n1 n2.
  destruct (readd_icon_spec s) as (T1 & (G1 & H1 & M1) & N1). fold n1 n2 in T1.
  destruct (rebuild_menu_spec t (readd_icon env s)) as (T2 & G2 & F2).
  assert (Hs' : s' = tray_update env t (rebuild_menu t (readd_icon env s))).
  { subst s'. rewrite (tray_wnd_proc_registered env) by done.
    unfold on_taskbar_created. by rewrite G1, Htray. }
  split; [exact Hs'|].
  destruct (tray_update_spec env t (rebuild_menu t (readd_icon env s)))
    as (_ & _ & _ & _ & G & _ & _ & (evs & T3 & Q3) & E).
  rewrite <- Hs' in G, T3, E.
  split.
  { exists (submenu_events (os_next_handle s + 1) (submenus_created (menu t)) ++
            (if hmenu (readd_icon env s) =? 0 then []
             else [EvDestroyMenu (hmenu (readd_icon env s))]) ++ evs).
    split.
    - rewrite T3, T2, T1, N1. unfold build_events. rewrite <- !app_assoc. done.
    - pose proof (build_events_quiet (os_next_handle s) (menu t)) as Hq.
      unfold build_events in Hq. apply Forall_cons in Hq as [_ Hq].
      apply Forall_app. split; [done|]. apply Forall_app. split; [|done].
      destruct (hmenu (readd_icon env s) =? 0); by repeat constructor. }
  split; [exact E|]. split; [exact G|]. split.
  { rewrite Hs'. by apply tray_update_active_menu. }
  intros f g. subst s'.
  rewrite !tray_wnd_proc_registered by done.
  apply on_taskbar_created_with_callbacks.
Qed.
End taskbar_created.

Lemma taskbar_created_restores_witness :
  g_tray (tray_init quiet_env scenario initial_state).2 = Some scenario ∧
  wm_taskbarcreated (tray_init quiet_env scenario initial_state).2 = 0xC000 ∧
  0xC000 ≤ 0xC000 ∧
  _tray_wnd_proc quiet_env 0xC000 0 0 (tray_init quiet_env scenario initial_state).2 =
    tray_update quiet_env scenario
      (rebuild_menu scenario (readd_icon quiet_env (tray_init quiet_env scenario initial_state).2)).
Proof.
  assert (H1 : g_tray (tray_init quiet_env scenario initial_state).2 = Some scenario)
    by (vm_compute; reflexivity).
  assert (H2 : wm_taskbarcreated (tray_init quiet_env scenario initial_state).2 = 0xC000)
    by (vm_compute; reflexivity).
  assert (H3 : 0xC000 ≤ 0xC000) by (vm_compute; discriminate).
  split; [exact H1|]. split; [exact H2|]. split; [exact H3|].
  exact (proj1 (taskbar_created_restores quiet_env _ scenario 0xC000 0 0 H1 H2 H3)).
Defined.

(** ** A failing [tray_init] *)

(** C4, evaluated where it fails.  With one icon path in the description,
    [tray_init] returns -1 when the window class cannot be registered, when
    the window cannot be created and when the shell refuses the icon; the
    class and the window of the attempt are gone, but the icon cache built
    at the start of the attempt still has its entry and the three icon
    handles decoded for it are still live. *)
Theorem tray_init_failure_keeps_icon_cache :
  let after := λ env, tray_init env scenario initial_state in
  let left_behind := λ r : Z * state,
    (r.1, cached_paths r.2, elements (os_icons r.2), os_class r.2,
     elements (os_windows r.2), hwnd r.2) in
  left_behind (after no_class_env) = (-1, ["a.ico"], [3; 2; 1], false, [], 0) ∧
  left_behind (after no_window_env) = (-1, ["a.ico"], [3; 2; 1], false, [], 0) ∧
  left_behind (after no_shell_env) = (-1, ["a.ico"], [3; 2; 1], false, [], 0) ∧
  cached_paths (_destroy_icon_cache (after no_class_env).2) = [] ∧
  elements (os_icons (_destroy_icon_cache (after no_class_env).2)) = [].
Proof. vm_compute. done. Qed.

(** ** [tray_loop] *)

Section loop.
Variable env : Environment.

Lemma tray_loop_drain_prefix pre : ∀ fuel s rest,
  Forall (λ m, is_quit m = false) pre →
  (∀ msg s0, msg ∈ pre → os_queue (DispatchMessageA env msg s0) = os_queue s0) →
  os_queue s = pre ++ rest →
  tray_loop_drain env (length pre + fuel) s = tray_loop_drain env fuel (foldl (pump env) s pre) ∧
  os_queue (foldl (pump env) s pre) = rest.
Proof.
  induction pre as [|msg pre IH]; intros fuel s rest Hpre Hkeep Hq; [done|].
  apply Forall_cons in Hpre as [Hmsg Hpre].
  cbn [length Nat.add tray_loop_drain foldl]. unfold PeekMessageA. rewrite Hq.
  cbn [app]. unfold is_quit in Hmsg. rewrite Hmsg.
  assert (Hstep : pump env s msg = DispatchMessageA env msg (set_os_queue (pre ++ rest) s)).
  { unfold pump. by rewrite Hq. }
  rewrite <- Hstep. apply IH; [done| |].
  - intros m s0 Hm. apply Hkeep. by right.
  - rewrite Hstep, Hkeep by left. done.
Qed.

Lemma tray_loop_drain_turns n : ∀ fuel s s1,
  turns env n s = Some s1 →
  tray_loop_drain env (n + fuel) s = tray_loop_drain env fuel s1.
Proof.
  induction n as [|n IH]; intros fuel s s1 Ht; simpl in Ht.
  { by injection Ht as ->. }
  cbn [Nat.add tray_loop_drain]. unfold PeekMessageA.
  destruct (os_queue s) as [|msg rest] eqn:Hq; [done|].
  unfold is_quit in Ht. destruct (message msg =? WM_QUIT); [done|].
  apply IH. unfold pump in Ht. by rewrite Hq in Ht.
Qed.

Lemma tray_loop_drain_not_suspended fuel : ∀ s, tray_loop_drain env fuel s ≠ Suspended.
Proof.
  induction fuel as [|fuel IH]; intros s; [done|].
  cbn [tray_loop_drain]. destruct (PeekMessageA s) as [[msg s0]|]; [|done].
  destruct (message msg =? WM_QUIT); [done|apply IH].
Qed.

Lemma tray_loop_drain_returned fuel : ∀ s r s',
  tray_loop_drain env fuel s = Returned r s' →
  ∃ n s1, (n < fuel)%nat ∧ turns env n s = Some s1 ∧
    (r = 0 ∧ os_queue s1 = [] ∧ s' = s1 ∨
     r = -1 ∧ ∃ q post, os_queue s1 = q :: post ∧ is_quit q = true ∧
                        s' = set_os_queue post s1).
Proof.
  induction fuel as [|fuel IH]; intros s r s' Hr; [done|].
  cbn [tray_loop_drain] in Hr. unfold PeekMessageA in Hr.
  destruct (os_queue s) as [|msg rest] eqn:Hq.
  - injection Hr as <- <-. exists 0%nat, s. split; [lia|]. split; [done|]. by left.
  - destruct (message msg =? WM_QUIT) eqn:Hm.
    + injection Hr as <- <-. exists 0%nat, s. split; [lia|]. split; [done|]. right.
      split; [done|]. by exists msg, rest.
    + apply IH in Hr as (n & s1 & Hn & Ht & Hres).
      exists (S n), s1. split; [lia|]. split; [|done].
      cbn [turns]. rewrite Hq. unfold is_quit. rewrite Hm. unfold pump. by rewrite Hq.
Qed.

(** C8, amended.  In blocking mode [tray_loop] does not return while the
    queue is empty; it returns -1 when the message it gets is [WM_QUIT]
    and also when [GetMessageA] fails, and otherwise dispatches the one
    message and returns 0.  In non-blocking mode it never suspends.  It
    takes the message at the head of the queue and dispatches it, turn
    after turn, whatever the dispatch of a message posts or calls: when
    after some turns the queue is empty it returns 0 in the state
    reached, and when [WM_QUIT] is then at the head of the queue it
    returns -1, leaving what is queued behind it.  It returns in no
    other way: 0 only with the queue empty, -1 only at a [WM_QUIT].
    With messages whose dispatch posts nothing, the turns are those of
    the messages queued at the call, in order. *)
Theorem tray_loop_terminate fuel blocking s :
  (truthy blocking = true →
     (GetMessageA_fails env s = true →
        tray_loop env fuel blocking s =
          Returned (-1) (tray_log_last_error TRAY_LOG_ERROR "GetMessageA" s)) ∧
     (GetMessageA_fails env s = false → os_queue s = [] →
        tray_loop env fuel blocking s = Suspended) ∧
     (GetMessageA_fails env s = false → ∀ msg rest, os_queue s = msg :: rest →
        tray_loop env fuel blocking s =
          if is_quit msg then Returned (-1) (set_os_queue rest s)
          else Returned 0 (DispatchMessageA env msg (set_os_queue rest s)))) ∧
  (truthy blocking = false →
     tray_loop env fuel blocking s ≠ Suspended ∧
     (∀ n s1, turns env n s = Some s1 → (n < fuel)%nat →
        (os_queue s1 = [] → tray_loop env fuel blocking s = Returned 0 s1) ∧
        (∀ q post, os_queue s1 = q :: post → is_quit q = true →
           tray_loop env fuel blocking s = Returned (-1) (set_os_queue post s1))) ∧
     (∀ r s', tray_loop env fuel blocking s = Returned r s' →
        ∃ n s1, (n < fuel)%nat ∧ turns env n s = Some s1 ∧
          (r = 0 ∧ os_queue s1 = [] ∧ s' = s1 ∨
           r = -1 ∧ ∃ q post, os_queue s1 = q :: post ∧ is_quit q = true ∧
                              s' = set_os_queue post s1)) ∧
     (∀ pre, Forall (λ m, is_quit m = false) pre →
        (∀ msg s0, msg ∈ pre → os_queue (DispatchMessageA env msg s0) = os_queue s0) →
        (length pre < fuel)%nat →
        (os_queue s = pre →
           tray_loop env fuel blocking s = Returned 0 (foldl (pump env) s pre) ∧
           os_queue (foldl (pump env) s pre) = []) ∧
        (∀ q post, is_quit q = true → os_queue s = pre ++ q :: post →
           tray_loop env fuel blocking s =
             Returned (-1) (set_os_queue post (foldl (pump env) s pre))))).
Proof.
  split.
  - intros Hb. unfold tray_loop, GetMessageA. rewrite Hb.
    split; [by intros ->|]. split.
    + by intros -> ->.
    + intros -> msg rest ->. unfold is_quit. by destruct (message msg =? WM_QUIT).
  - intros Hb. unfold tray_loop. rewrite Hb.
    split; [apply tray_loop_drain_not_suspended|]. split; [|split].
    + intros n s1 Ht Hfuel.
      replace fuel with (n + S (fuel - n - 1))%nat by lia.
      rewrite (tray_loop_drain_turns n _ s s1 Ht).
      cbn [tray_loop_drain]. unfold PeekMessageA. split.
      * by intros ->.
      * intros q post -> Hquit. unfold is_quit in Hquit. by rewrite Hquit.
    + apply tray_loop_drain_returned.
    + intros pre Hpre Hkeep Hfuel.
      replace fuel with (length pre + S (fuel - length pre - 1))%nat by lia.
      split.
      * intros Hq.
        destruct (tray_loop_drain_prefix pre (S (fuel - length pre - 1)) s [] Hpre Hkeep)
          as (-> & Hrest); [by rewrite app_nil_r|].
        split; [|done]. cbn [tray_loop_drain]. unfold PeekMessageA. by rewrite Hrest.
      * intros q post Hquit Hq.
        destruct (tray_loop_drain_prefix pre (S (fuel - length pre - 1)) s (q :: post)
                    Hpre Hkeep Hq) as (-> & Hrest).
        cbn [tray_loop_drain]. unfold PeekMessageA. rewrite Hrest.
        unfold is_quit in Hquit. by rewrite Hquit.
Qed.
End loop.

Lemma tray_loop_terminate_witness :
  let click := Build_MSG WM_TRAY_CALLBACK_MESSAGE 0 WM_RBUTTONUP in
  let s := set_os_queue [click] (tray_init exiting_env scenario initial_state).2 in
  truthy 0 = false ∧
  turns exiting_env 1 s = Some (pump exiting_env s click) ∧
  (1 < 5)%nat ∧
  os_queue (pump exiting_env s click) = [Build_MSG WM_QUIT 0 0; Build_MSG WM_NULL 0 0] ∧
  tray_loop exiting_env 5 0 s =
    Returned (-1) (set_os_queue [Build_MSG WM_NULL 0 0] (pump exiting_env s click)).
Proof.
  intros click s.
  assert (H0 : truthy 0 = false) by reflexivity.
  assert (H1 : turns exiting_env 1 s = Some (pump exiting_env s click))
    by (vm_compute; reflexivity).
  assert (H2 : (1 < 5)%nat) by lia.
  assert (H3 : os_queue (pump exiting_env s click) =
               [Build_MSG WM_QUIT 0 0; Build_MSG WM_NULL 0 0]) by (vm_compute; reflexivity).
  split; [exact H0|]. split; [exact H1|]. split; [exact H2|]. split; [exact H3|].
  exact (proj2 (proj1 (proj2 (proj2 (tray_loop_terminate exiting_env 5 0 s) H0))
                  1%nat (pump exiting_env s click) H1 H2)
           (Build_MSG WM_QUIT 0 0) [Build_MSG WM_NULL 0 0] H3 eq_refl).
Defined.

(** C8 as stated fails: with nothing queued and no quit posted, a failing
    [GetMessageA] makes the blocking [tray_loop] return -1. *)
Lemma tray_loop_terminates_without_quit :
  os_queue initial_state = [] ∧ trace initial_state = [] ∧
  tray_loop no_message_env 0 1 initial_state = Returned (-1) initial_state.
Proof. vm_compute. done. Qed.

(** ** From a command back to the item, after an update *)

(** After an update, and while nothing wrapped in the build, the
    identifier bound to an item resolves to that item of the description
    on record. *)
Lemma tray_update_resolves env t m s p id :
  menu t = Some m → handles_fresh s →
  ID_TRAY_FIRST + Z.of_nat (length (postorder m)) < 2 ^ 32 →
  (p, id) ∈ bindings (_tray_menu (Some m) ID_TRAY_FIRST).1 →
  resolve_command id (tray_update env t s) = Some p ∧
  deref p (tray_update env t s) = node_at m p.
Proof.
  intros Hm Hfresh Hfit Hb.
  destruct (tray_menu_identifier_resolves m p id Hfit Hb) as (it & Hget & Hp).
  pose proof (tray_update_active_menu env t s Hfresh) as Hact. rewrite Hm in Hact.
  destruct (tray_update_spec env t s) as (_ & _ & _ & _ & G & _).
  split.
  - unfold resolve_command. by rewrite Hact, Hget.
  - unfold deref. by rewrite G, Hm.
Qed.

(** ** Icon handles *)

Lemma elem_of_entry_handles e h :
  h ∈ entry_handles e ↔
  h ≠ 0 ∧ (h = icon_info.icon e ∨ h = icon_info.large_icon e ∨
           h = icon_info.notification_icon e).
Proof.
  unfold entry_handles. rewrite list_elem_of_filter.
  rewrite !elem_of_cons, elem_of_nil. tauto.
Qed.

Lemma elem_of_cache_handles s h :
  h ∈ cache_handles s ↔ ∃ e, e ∈ icon_infos s ∧ h ∈ entry_handles e.
Proof.
  unfold cache_handles. rewrite list_elem_of_bind. split; intros (e & ? & ?); by exists e.
Qed.

Lemma destroy_entry_icons e s h :
  h ∈ os_icons (destroy_entry e s) ↔ h ∈ os_icons s ∧ h ∉ entry_handles e.
Proof.
  rewrite elem_of_entry_handles. unfold destroy_entry, DestroyIcon.
  destruct (Z.eqb_spec (icon_info.icon e) 0), (Z.eqb_spec (icon_info.large_icon e) 0),
    (Z.eqb_spec (icon_info.notification_icon e) 0); simpl;
    rewrite ?elem_of_difference, ?elem_of_singleton; intuition congruence.
Qed.

Lemma destroy_entry_frame e s :
  let s' := destroy_entry e s in
  icon_infos s' = icon_infos s ∧ nid s' = nid s ∧ keeps_menus s s' ∧ trace s' = trace s ∧
  os_windows s' = os_windows s ∧ os_queue s' = os_queue s ∧
  os_next_handle s' = os_next_handle s.
Proof.
  unfold destroy_entry, DestroyIcon.
  by destruct (icon_info.icon e =? 0), (icon_info.large_icon e =? 0),
    (icon_info.notification_icon e =? 0).
Qed.

Lemma destroy_entries_icons entries : ∀ s h,
  h ∈ os_icons (foldl (λ s e, destroy_entry e s) s entries) ↔
  h ∈ os_icons s ∧ ∀ e, e ∈ entries → h ∉ entry_handles e.
Proof.
  induction entries as [|e entries IH]; intros s h; simpl.
  - split; [intros ?; split; [done|]; by intros ? ?%elem_of_nil|by intros [? _]].
  - rewrite IH, destroy_entry_icons. split.
    + intros [[? ?] Hrest]. split; [done|]. intros e' [->|?]%elem_of_cons; [done|by apply Hrest].
    + intros [? Hall]. split; [split; [done|apply Hall; left]|].
      intros e' ?. apply Hall. by right.
Qed.

Lemma destroy_entries_frame entries : ∀ s,
  let s' := foldl (λ s e, destroy_entry e s) s entries in
  nid s' = nid s ∧ keeps_menus s s' ∧ trace s' = trace s ∧
  os_windows s' = os_windows s ∧ os_queue s' = os_queue s ∧
  os_next_handle s' = os_next_handle s.
Proof.
  induction entries as [|e entries IH]; intros s; simpl; [done|].
  destruct (destroy_entry_frame e s) as (_ & H1 & (G & H & M) & H3 & H4 & H5 & H6).
  destruct (IH (destroy_entry e s)) as (I1 & (G' & H' & M') & I3 & I4 & I5 & I6).
  simpl in *. unfold keeps_menus. repeat split; congruence.
Qed.

Lemma destroy_icon_cache_icons s h :
  h ∈ os_icons (_destroy_icon_cache s) ↔ h ∈ os_icons s ∧ h ∉ cache_handles s.
Proof.
  unfold _destroy_icon_cache. simpl. rewrite destroy_entries_icons, elem_of_cache_handles. split.
  - intros [? Hall]. split; [done|]. intros (e & He & Hh). by apply (Hall e He).
  - intros [? Hnone]. split; [done|]. intros e He Hh. apply Hnone. by exists e.
Qed.

Lemma destroy_icon_cache_frame s :
  let s' := _destroy_icon_cache s in
  icon_infos s' = [] ∧ nid s' = nid s ∧ keeps_menus s s' ∧ trace s' = trace s ∧
  os_windows s' = os_windows s ∧ os_queue s' = os_queue s ∧
  os_next_handle s' = os_next_handle s.
Proof.
  unfold _destroy_icon_cache.
  destruct (destroy_entries_frame (icon_infos s) s) as (H1 & H2 & H3 & H4 & H5 & H6).
  done.
Qed.

(** X1.  [_destroy_icon_cache] empties the cache and destroys exactly the
    icons the cache held: a handle is live afterwards when it was live
    before and was in no entry of the cache.  The menus, the window, the
    queue, the notify-icon record and the trace are left as they were. *)
Theorem destroy_icon_cache_releases s :
  let s' := _destroy_icon_cache s in
  icon_infos s' = [] ∧ cache_handles s' = [] ∧
  (∀ h, h ∈ os_icons s' ↔ h ∈ os_icons s ∧ h ∉ cache_handles s) ∧
  (∀ h, h ∈ cache_handles s → h ∉ os_icons s') ∧
  nid s' = nid s ∧ keeps_menus s s' ∧ trace s' = trace s ∧
  os_windows s' = os_windows s ∧ os_queue s' = os_queue s.
Proof.
  destruct (destroy_icon_cache_frame s) as (H1 & H2 & H3 & H4 & H5 & H6 & _).
  split; [done|]. split; [done|]. split; [apply destroy_icon_cache_icons|]. split.
  { intros h Hh [_ Hn]%destroy_icon_cache_icons. done. }
  done.
Qed.

(** ** Decoding *)

Section resources.
Variable env : Environment.

Lemma decode_icon_resources file kind s :
  let r := decode_icon env file kind s in
  icon_infos r.2 = icon_infos s ∧
  trace r.2 = trace s ++ [EvDecodeIcon file kind] ∧
  os_windows r.2 = os_windows s ∧ os_queue r.2 = os_queue s ∧
  g_tray_log_cb r.2 = g_tray_log_cb s ∧
  (icon_decodes env file kind = true →
     r.1 = os_next_handle s ∧ os_next_handle r.2 = os_next_handle s + 1 ∧
     ∀ h, h ∈ os_icons r.2 ↔ h = os_next_handle s ∨ h ∈ os_icons s) ∧
  (icon_decodes env file kind = false →
     r.1 = 0 ∧ os_next_handle r.2 = os_next_handle s ∧ os_icons r.2 = os_icons s).
Proof.
  unfold decode_icon. destruct (icon_decodes env file kind); simpl.
  - do 5 (split; [done|]). split; [|done]. intros _. do 2 (split; [done|]).
    intros h. rewrite elem_of_union, elem_of_singleton. tauto.
  - do 5 (split; [done|]). split; [done|]. by intros _.
Qed.

(** One entry: three decoding calls, handles from the next one upwards. *)
Lemma create_icon_info_resources path s :
  0 < os_next_handle s →
  let r := _create_icon_info env path s in
  trace r.2 = trace s ++ [EvDecodeIcon path LARGE; EvDecodeIcon path REGULAR;
                          EvDecodeIcon path NOTIFICATION] ∧
  os_windows r.2 = os_windows s ∧ os_queue r.2 = os_queue s ∧
  g_tray_log_cb r.2 = g_tray_log_cb s ∧
  os_next_handle s ≤ os_next_handle r.2 ∧
  (∀ h, h ∈ entry_handles r.1 → os_next_handle s ≤ h < os_next_handle r.2) ∧
  (∀ h, h ∈ os_icons r.2 ↔ h ∈ entry_handles r.1 ∨ h ∈ os_icons s).
Proof.
  intros Hpos. unfold _create_icon_info.
  pose proof (decode_icon_resources path LARGE s) as H1.
  destruct (decode_icon env path LARGE s) as [large s1].
  pose proof (decode_icon_resources path REGULAR s1) as H2.
  destruct (decode_icon env path REGULAR s1) as [small s2].
  pose proof (decode_icon_resources path NOTIFICATION s2) as H3.
  destruct (decode_icon env path NOTIFICATION s2) as [notif s3].
  simpl in *.
  destruct H1 as (_ & T1 & W1 & Q1 & L1 & Y1 & N1).
  destruct H2 as (_ & T2 & W2 & Q2 & L2 & Y2 & N2).
  destruct H3 as (_ & T3 & W3 & Q3 & L3 & Y3 & N3).
  split; [by rewrite T3, T2, T1, <- !app_assoc|].
  split; [congruence|]. split; [congruence|]. split; [congruence|].
  destruct (icon_decodes env path LARGE);
    [destruct (Y1 eq_refl) as (-> & X1 & I1)|destruct (N1 eq_refl) as (-> & X1 & I1)];
  (destruct (icon_decodes env path REGULAR);
    [destruct (Y2 eq_refl) as (-> & X2 & I2)|destruct (N2 eq_refl) as (-> & X2 & I2)]);
  (destruct (icon_decodes env path NOTIFICATION);
    [destruct (Y3 eq_refl) as (-> & X3 & I3)|destruct (N3 eq_refl) as (-> & X3 & I3)]);
  (split; [lia|]); (split;
    [intros h; rewrite elem_of_entry_handles; simpl; lia
    |intros h; rewrite elem_of_entry_handles; simpl;
     rewrite ?I3, ?I2, ?I1; rewrite ?X2, ?X1;
     intuition (try congruence; try lia)]).
Qed.
End resources.

(** ** The cache and the live icons *)

Lemma cache_handles_snoc s e :
  cache_handles (set_icon_infos (icon_infos s ++ [e]) s) = cache_handles s ++ entry_handles e.
Proof. unfold cache_handles. simpl. by rewrite bind_app, bind_singleton. Qed.

Section cache_resources.
Variable env : Environment.

Lemma init_icon_cache_for_resources paths : ∀ s,
  0 < os_next_handle s →
  let s' := _init_icon_cache_for env paths s in
  os_next_handle s ≤ os_next_handle s' ∧
  os_windows s' = os_windows s ∧ os_queue s' = os_queue s ∧
  trace s' = trace s ++ (paths ≫= λ p, [EvDecodeIcon p LARGE; EvDecodeIcon p REGULAR;
                                        EvDecodeIcon p NOTIFICATION]) ∧
  ∃ new, cache_handles s' = cache_handles s ++ new ∧
         (∀ h, h ∈ new → os_next_handle s ≤ h < os_next_handle s') ∧
         (∀ h, h ∈ os_icons s' ↔ h ∈ new ∨ h ∈ os_icons s).
Proof.
  induction paths as [|p paths IH]; intros s Hpos; simpl.
  - split; [lia|]. do 2 (split; [done|]). split; [by rewrite app_nil_r|].
    exists []. rewrite app_nil_r. split; [done|]. split; [by intros ? ?%elem_of_nil|].
    intros h. rewrite elem_of_nil. tauto.
  - pose proof (create_icon_info_resources env p s Hpos) as Hc.
    pose proof (create_icon_info_frame env p s) as Hf.
    destruct (_create_icon_info env p s) as [info s1]. simpl in Hc, Hf.
    destruct Hc as (T1 & W1 & Q1 & _ & N1 & B1 & I1).
    destruct Hf as (_ & C1 & _ & _).
    set (s2 := set_icon_infos (icon_infos s1 ++ [info]) s1).
    assert (Hpos2 : 0 < os_next_handle s2) by (simpl; lia).
    destruct (IH s2 Hpos2) as (N2 & W2 & Q2 & T2 & new & C2 & B2 & I2).
    simpl in *. split; [lia|]. split; [congruence|]. split; [congruence|].
    split; [by rewrite T2, T1, <- app_assoc|].
    exists (entry_handles info ++ new). split.
    { rewrite C2. unfold s2. rewrite cache_handles_snoc. unfold cache_handles.
      by rewrite C1, <- app_assoc. }
    split.
    { intros h [Hh|Hh]%elem_of_app; [specialize (B1 h Hh)|specialize (B2 h Hh)]; lia. }
    intros h. rewrite I2, I1, elem_of_app. tauto.
Qed.

Lemma fetch_icon_resources path kind s :
  0 < os_next_handle s →
  let r := _fetch_icon env path kind s in
  os_next_handle s ≤ os_next_handle r.2 ∧
  os_windows r.2 = os_windows s ∧ os_queue r.2 = os_queue s ∧
  g_tray_log_cb r.2 = g_tray_log_cb s ∧
  (path ∈ cached_paths s → r.2 = s) ∧
  (path ∉ cached_paths s →
     trace r.2 = trace s ++ [EvDecodeIcon path LARGE; EvDecodeIcon path REGULAR;
                             EvDecodeIcon path NOTIFICATION]) ∧
  ∃ new, cache_handles r.2 = cache_handles s ++ new ∧
         (∀ h, h ∈ new → os_next_handle s ≤ h < os_next_handle r.2) ∧
         (∀ h, h ∈ os_icons r.2 ↔ h ∈ new ∨ h ∈ os_icons s).
Proof.
  intros Hpos. unfold _fetch_icon.
  destruct (find_cached path (icon_infos s)) as [e|] eqn:Hfind; simpl.
  - split; [lia|]. do 3 (split; [done|]). split; [done|]. split.
    { intros Hn. apply find_cached_Some in Hfind as [He <-].
      destruct Hn. unfold cached_paths. by apply list_elem_of_fmap_2. }
    exists []. rewrite app_nil_r. split; [done|]. split; [by intros ? ?%elem_of_nil|].
    intros h. rewrite elem_of_nil. tauto.
  - pose proof (create_icon_info_resources env path s Hpos) as Hc.
    pose proof (create_icon_info_frame env path s) as Hf.
    destruct (_create_icon_info env path s) as [info s1]. simpl in *.
    destruct Hc as (T1 & W1 & Q1 & L1 & N1 & B1 & I1).
    destruct Hf as (_ & C1 & _ & _).
    split; [lia|]. do 3 (split; [done|]). split.
    { intros Hin. apply find_cached_None in Hfind. by destruct Hfind. }
    split; [done|].
    exists (entry_handles info). split.
    { rewrite cache_handles_snoc. unfold cache_handles. by rewrite C1. }
    split; [exact B1|]. exact I1.
Qed.
End cache_resources.

(** X2.  What [_init_icon_cache] decodes, [_destroy_icon_cache] destroys:
    with handles handed out upwards, the live icons after the two calls
    are the ones before them, and in between every new icon is held by an
    entry of the cache.  Initialising decodes every listed path three
    times, in list order. *)
Theorem init_destroy_icon_cache_round_trip env paths s :
  0 < os_next_handle s →
  (∀ h, h ∈ os_icons s → h < os_next_handle s) →
  let s1 := _init_icon_cache env paths s in
  let s2 := _destroy_icon_cache s1 in
  (∀ h, h ∈ os_icons s2 ↔ h ∈ os_icons s) ∧
  (∀ h, h ∈ os_icons s1 ↔ h ∈ cache_handles s1 ∨ h ∈ os_icons s) ∧
  icon_infos s2 = [] ∧
  trace s2 = trace s ++ (paths ≫= λ p, [EvDecodeIcon p LARGE; EvDecodeIcon p REGULAR;
                                        EvDecodeIcon p NOTIFICATION]).
Proof.
  intros Hpos Hbelow s1 s2.
  destruct (init_icon_cache_for_resources env paths (set_icon_infos [] s) Hpos)
    as (_ & _ & _ & T1 & new & C1 & B1 & I1).
  fold (_init_icon_cache env paths s) in T1, C1, B1, I1. fold s1 in T1, C1, B1, I1.
  simpl in T1, C1, B1, I1.
  destruct (destroy_icon_cache_frame s1) as (E2 & _ & _ & T2 & _).
  pose proof (destroy_icon_cache_icons s1) as I2.
  fold s2 in E2, I2, T2.
  assert (C1' : cache_handles s1 = new) by (rewrite C1; done).
  split.
  { intros h. rewrite I2, I1, C1'. split; [intros [[?|?] ?]; done|].
    intros Hh. split; [by right|]. intros Hn. specialize (B1 h Hn).
    specialize (Hbelow h Hh). lia. }
  split; [by intros h; rewrite I1, C1'|]. split; [done|]. by rewrite T2, T1.
Qed.

Lemma init_destroy_icon_cache_round_trip_witness :
  0 < os_next_handle initial_state ∧
  (∀ h, h ∈ os_icons initial_state → h < os_next_handle initial_state) ∧
  ∀ h, h ∈ os_icons (_destroy_icon_cache (_init_icon_cache quiet_env ["a.ico"; "b.ico"]
                                            initial_state)) ↔ h ∈ os_icons initial_state.
Proof.
  assert (H1 : 0 < os_next_handle initial_state) by (vm_compute; reflexivity).
  assert (H2 : ∀ h, h ∈ os_icons initial_state → h < os_next_handle initial_state).
  { intros h Hh. change (os_icons initial_state) with (∅ : gset Z) in Hh. set_solver. }
  split; [exact H1|]. split; [exact H2|].
  exact (proj1 (init_destroy_icon_cache_round_trip quiet_env ["a.ico"; "b.ico"]
                  initial_state H1 H2)).
Defined.

(** ** What one update does to the handles and to the trace *)

Section update_resources.
Variable env : Environment.

Lemma update_tip_resources t flags s :
  let s' := (update_tip env t flags s).2 in
  s' = upd_nid (λ _, nid s') s.
Proof. unfold update_tip. by destruct (has_chars (tooltip t)), s. Qed.

(** The balloon part loads at most one image, and only for a balloon
    with an icon path. *)
Lemma update_info_resources t flags s :
  let file := default EmptyString (notification_icon t) in
  let loaded := loads_balloon_icon t && icon_decodes env file NOTIFICATION in
  let s' := (update_info env t flags s).2 in
  trace s' = trace s ++ (if loads_balloon_icon t then [EvDecodeIcon file NOTIFICATION] else []) ∧
  icon_infos s' = icon_infos s ∧ os_windows s' = os_windows s ∧ os_queue s' = os_queue s ∧
  g_tray_log_cb s' = g_tray_log_cb s ∧ g_notification_cb s' = g_notification_cb s ∧
  os_next_handle s' = (if loaded then os_next_handle s + 1 else os_next_handle s) ∧
  (∀ h, h ∈ os_icons s' ↔ (loaded = true ∧ h = os_next_handle s) ∨ h ∈ os_icons s) ∧
  (loaded = true → defined_NIIF_LARGE_ICON env = true → 0 < os_next_handle s →
     hBalloonIcon (nid s') = os_next_handle s).
Proof.
  unfold update_info, loads_balloon_icon, has_info.
  destruct (has_chars (notification_title t) || has_chars (notification_text t)); simpl;
    [|split; [by rewrite app_nil_r|]; do 6 (split; [done|]); split; [|done];
      intros h; intuition congruence].
  destruct (has_chars (notification_icon t)); simpl.
  - unfold decode_icon.
    destruct (icon_decodes env (default EmptyString (notification_icon t)) NOTIFICATION) eqn:Hd;
      simpl.
    + destruct (Z.eqb_spec (os_next_handle s) 0) as [Hz|Hz]; simpl.
      * destruct (defined_NIIF_LARGE_ICON env && truthy _); simpl;
          (do 7 (split; [done|])); (split; [|intros; lia]);
          intros h; rewrite elem_of_union, elem_of_singleton; intuition congruence.
      * destruct (defined_NIIF_LARGE_ICON env) eqn:Hl; simpl.
        -- unfold truthy. destruct (Z.eqb_spec (os_next_handle s) 0); [done|]. simpl.
           do 7 (split; [done|]). split; [|done].
           intros h; rewrite elem_of_union, elem_of_singleton; intuition congruence.
        -- do 7 (split; [done|]). split; [|done].
           intros h; rewrite elem_of_union, elem_of_singleton; intuition congruence.
    + destruct (defined_NIIF_LARGE_ICON env && truthy _); simpl;
        (do 7 (split; [done|])); (split; [|done]); intros h; intuition congruence.
  - destruct (defined_NIIF_LARGE_ICON env && truthy _); simpl;
      (split; [by rewrite app_nil_r|]); (do 6 (split; [done|])); (split; [|done]);
      intros h; intuition congruence.
Qed.
End update_resources.

Section update_resources2.
Variable env : Environment.

(** What the notify-icon part of an update leaves behind, from the state
    [s1] the icon lookup leaves. *)
Lemma apply_notify_icon_resources t s :
  let file := default EmptyString (notification_icon t) in
  let loaded := loads_balloon_icon t && icon_decodes env file NOTIFICATION in
  let s1 := (_fetch_icon env (icon t) REGULAR s).2 in
  let s' := apply_notify_icon env t s in
  icon_infos s' = icon_infos s1 ∧
  os_windows s' = os_windows s1 ∧ os_queue s' = os_queue s1 ∧
  g_tray_log_cb s' = g_tray_log_cb s1 ∧
  os_next_handle s' = (if loaded then os_next_handle s1 + 1 else os_next_handle s1) ∧
  (∀ h, h ∈ os_icons s' ↔ (loaded = true ∧ h = os_next_handle s1) ∨ h ∈ os_icons s1) ∧
  (loaded = true → defined_NIIF_LARGE_ICON env = true → 0 < os_next_handle s1 →
     hBalloonIcon (nid s') = os_next_handle s1) ∧
  ∃ s6,
    trace s' = trace s1 ++
      (if loads_balloon_icon t then [EvDecodeIcon file NOTIFICATION] else []) ++
      [EvShell_NotifyIconA NIM_MODIFY (nid s')] ++
      (if Shell_NotifyIconA_ok env NIM_MODIFY s6 then []
       else match g_tray_log_cb s1 with
            | Some _ => [EvLog TRAY_LOG_WARNING "Shell_NotifyIconA(NIM_MODIFY)"]
            | None => []
            end).
Proof.
  unfold apply_notify_icon.
  destruct (_fetch_icon env (icon t) REGULAR s) as [h s1]. cbn [fst snd].
  set (flags1 := if truthy h then Z.lor (Z.lor NIF_MESSAGE NIF_GUID) NIF_ICON
                 else Z.lor NIF_MESSAGE NIF_GUID).
  set (s2 := if truthy h then upd_nid (set_hIcon h) s1 else s1).
  replace (if truthy h then (Z.lor (Z.lor NIF_MESSAGE NIF_GUID) NIF_ICON, upd_nid (set_hIcon h) s1)
           else (Z.lor NIF_MESSAGE NIF_GUID, s1)) with (flags1, s2)
    by (subst flags1 s2; by destruct (truthy h)).
  assert (H2 : s2 = upd_nid (λ _, nid s2) s1).
  { subst s2. by destruct (truthy h), s1. }
  pose proof (update_tip_resources env t flags1 s2) as Ht.
  destruct (update_tip env t flags1 s2) as [flags2 s3]. simpl in Ht.
  pose proof (update_info_resources env t flags2 s3) as Hi.
  destruct (update_info env t flags2 s3) as [flags3 s4]. simpl in Hi.
  destruct Hi as (T4 & C4 & W4 & Q4 & L4 & _ & N4 & I4 & B4).
  assert (E3 : icon_infos s3 = icon_infos s1 ∧ os_windows s3 = os_windows s1 ∧
               os_queue s3 = os_queue s1 ∧ g_tray_log_cb s3 = g_tray_log_cb s1 ∧
               os_next_handle s3 = os_next_handle s1 ∧ os_icons s3 = os_icons s1 ∧
               trace s3 = trace s1).
  { rewrite Ht, H2. done. }
  destruct E3 as (E31 & E32 & E33 & E34 & E35 & E36 & E37).
  set (s6 := upd_nid (set_uFlags flags3) (set_g_notification_cb (notification_cb t) s4)).
  unfold Shell_NotifyIconA. cbn [fst snd].
  assert (Hfin : ∀ s7 : state,
    s7 = (if Shell_NotifyIconA_ok env NIM_MODIFY s6
          then emit (EvShell_NotifyIconA NIM_MODIFY (nid s6)) s6
          else tray_log_last_error TRAY_LOG_WARNING "Shell_NotifyIconA(NIM_MODIFY)"
                 (emit (EvShell_NotifyIconA NIM_MODIFY (nid s6)) s6)) →
    icon_infos s7 = icon_infos s4 ∧ os_windows s7 = os_windows s4 ∧
    os_queue s7 = os_queue s4 ∧ g_tray_log_cb s7 = g_tray_log_cb s4 ∧
    os_next_handle s7 = os_next_handle s4 ∧ os_icons s7 = os_icons s4 ∧
    hBalloonIcon (nid s7) = hBalloonIcon (nid s4) ∧ nid s7 = nid s6 ∧
    trace s7 = trace s4 ++ [EvShell_NotifyIconA NIM_MODIFY (nid s6)] ++
      (if Shell_NotifyIconA_ok env NIM_MODIFY s6 then []
       else match g_tray_log_cb s4 with
            | Some _ => [EvLog TRAY_LOG_WARNING "Shell_NotifyIconA(NIM_MODIFY)"]
            | None => []
            end)).
  { intros s7 ->. unfold tray_log_last_error, tray_log.
    destruct (Shell_NotifyIconA_ok env NIM_MODIFY s6); simpl; [done|].
    destruct (g_tray_log_cb s4) eqn:E; simpl; rewrite ?E; [|done].
    by rewrite <- app_assoc. }
  destruct (Hfin _ eq_refl) as (F1 & F2 & F3 & F4 & F5 & F6 & F7 & F8 & F9).
  rewrite F1, F2, F3, F4, F5, F7.
  split; [congruence|]. split; [congruence|]. split; [congruence|]. split; [congruence|].
  split; [rewrite N4; by rewrite E35|].
  split; [intros h0; rewrite F6, I4, E35, E36; done|].
  split; [intros ? ? ?; rewrite B4; [congruence|done|done|lia]|].
  exists s6. rewrite F9, F8, T4, E37, L4, E34. by rewrite <- !app_assoc.
Qed.

(** The first three steps of an update: the description goes on record
    and a menu is created; nothing else moves. *)
Lemma before_notify_resources t s :
  let s3 := run_steps (take 3 (tray_update_steps env t (hmenu s))) s in
  icon_infos s3 = icon_infos s ∧ os_icons s3 = os_icons s ∧
  os_windows s3 = os_windows s ∧ os_queue s3 = os_queue s ∧
  g_tray_log_cb s3 = g_tray_log_cb s ∧
  os_next_handle s3 = os_next_handle s + 1 + Z.of_nat (submenus_created (menu t)).
Proof.
  cbn [tray_update_steps take run_steps foldl].
  destruct (install_menu_frame (menu t) (set_g_tray (Some t) s))
    as (N & C & I & W & Q & L & _).
  unfold send_initmenupopup, DefWindowProc, emit. simpl in *. done.
Qed.

Lemma destroy_prevmenu_resources prevmenu s :
  let s' := destroy_prevmenu prevmenu s in
  icon_infos s' = icon_infos s ∧ os_icons s' = os_icons s ∧
  os_windows s' = os_windows s ∧ os_queue s' = os_queue s ∧
  g_tray_log_cb s' = g_tray_log_cb s ∧ os_next_handle s' = os_next_handle s ∧
  g_notification_cb s' = g_notification_cb s.
Proof. unfold destroy_prevmenu. by destruct (prevmenu =? 0). Qed.
End update_resources2.

(** ** The calls of one update, in order *)

Section update_trace.
Variable env : Environment.

Lemma fetch_icon_trace path kind s :
  let s' := (_fetch_icon env path kind s).2 in
  trace s' = trace s ++ (if decide (path ∈ cached_paths s) then []
                         else [EvDecodeIcon path LARGE; EvDecodeIcon path REGULAR;
                               EvDecodeIcon path NOTIFICATION]) ∧
  g_tray_log_cb s' = g_tray_log_cb s ∧ os_windows s' = os_windows s ∧
  os_queue s' = os_queue s ∧
  cached_paths s' = cached_paths s ++ (if decide (path ∈ cached_paths s) then [] else [path]).
Proof.
  destruct (decide (path ∈ cached_paths s)) as [Hin|Hout].
  - destruct (fetch_icon_hit env path kind s Hin) as (e & _ & _ & ->). simpl.
    by rewrite !app_nil_r.
  - pose proof (fetch_icon_miss env path kind s Hout) as Hm.
    unfold _fetch_icon in *. destruct (find_cached path (icon_infos s)) as [e|] eqn:Hfind.
    { apply find_cached_Some in Hfind as [He <-]. destruct Hout.
      unfold cached_paths. by apply list_elem_of_fmap_2. }
    unfold _create_icon_info, decode_icon in *. simpl in *.
    destruct (icon_decodes env path LARGE), (icon_decodes env path REGULAR),
      (icon_decodes env path NOTIFICATION); simpl in *;
      by rewrite <- !app_assoc.
Qed.

Lemma tray_update_trace t s :
  let file := default EmptyString (notification_icon t) in
  let s' := tray_update env t s in
  ∃ s6,
    trace s' = trace s ++
      build_events (os_next_handle s) (menu t) ++
      [EvSendMessage WM_INITMENUPOPUP (os_next_handle s) 0;
       EvDefWindowProc WM_INITMENUPOPUP (os_next_handle s) 0] ++
      (if decide (icon t ∈ cached_paths s) then []
       else [EvDecodeIcon (icon t) LARGE; EvDecodeIcon (icon t) REGULAR;
             EvDecodeIcon (icon t) NOTIFICATION]) ++
      (if loads_balloon_icon t then [EvDecodeIcon file NOTIFICATION] else []) ++
      [EvShell_NotifyIconA NIM_MODIFY (nid s')] ++
      (if Shell_NotifyIconA_ok env NIM_MODIFY s6 then []
       else match g_tray_log_cb s with
            | Some _ => [EvLog TRAY_LOG_WARNING "Shell_NotifyIconA(NIM_MODIFY)"]
            | None => []
            end) ++
      (if hmenu s =? 0 then [] else [EvDestroyMenu (hmenu s)]).
Proof.
  intros file s'. subst s'. rewrite tray_update_eq.
  set (s3 := run_steps (take 3 (tray_update_steps env t (hmenu s))) s).
  destruct (before_notify_spec env t s) as (_ & _ & _ & _ & T3). fold s3 in T3.
  destruct (before_notify_resources env t s) as (C3 & _ & _ & _ & L3 & _). fold s3 in C3, L3.
  destruct (fetch_icon_trace (icon t) REGULAR s3) as (T1 & L1 & _ & _ & _).
  destruct (apply_notify_icon_resources env t s3) as (_ & _ & _ & _ & _ & _ & _ & s6 & T4).
  destruct (destroy_prevmenu_spec (hmenu s) (apply_notify_icon env t s3))
    as (_ & _ & D3 & _ & D5).
  exists s6. rewrite D5, D3, T4, T1, T3, L1, L3.
  unfold cached_paths. rewrite C3. by rewrite <- !app_assoc.
Qed.

Lemma tray_update_cached_paths t s :
  cached_paths (tray_update env t s) =
  cached_paths s ++ (if decide (icon t ∈ cached_paths s) then [] else [icon t]).
Proof.
  rewrite tray_update_eq.
  set (s3 := run_steps (take 3 (tray_update_steps env t (hmenu s))) s).
  destruct (destroy_prevmenu_resources (hmenu s) (apply_notify_icon env t s3)) as (D1 & _).
  destruct (apply_notify_icon_resources env t s3) as (C4 & _).
  destruct (fetch_icon_trace (icon t) REGULAR s3) as (_ & _ & _ & _ & P1).
  destruct (before_notify_resources env t s) as (C3 & _). fold s3 in C3.
  unfold cached_paths in *. by rewrite D1, C4, P1, C3.
Qed.

(** The handles and the cache after one update. *)
Lemma tray_update_resources t s :
  0 < os_next_handle s →
  let file := default EmptyString (notification_icon t) in
  let loaded := loads_balloon_icon t && icon_decodes env file NOTIFICATION in
  let s' := tray_update env t s in
  os_next_handle s < os_next_handle s' ∧
  os_windows s' = os_windows s ∧ os_queue s' = os_queue s ∧
  g_tray_log_cb s' = g_tray_log_cb s ∧
  g_notification_cb s' = notification_cb t ∧
  cached_paths s' = cached_paths s ++
    (if decide (icon t ∈ cached_paths s) then [] else [icon t]) ∧
  ∃ new balloon,
    cache_handles s' = cache_handles s ++ new ∧
    (∀ h, h ∈ new → os_next_handle s < h < os_next_handle s') ∧
    (∀ h, h ∈ os_icons s' ↔ (loaded = true ∧ h = balloon) ∨ h ∈ new ∨ h ∈ os_icons s) ∧
    (loaded = true → os_next_handle s < balloon < os_next_handle s' ∧ (balloon ∉ new) ∧
       (defined_NIIF_LARGE_ICON env = true → hBalloonIcon (nid s') = balloon)).
Proof.
  intros Hpos file loaded s'. subst s'. rewrite tray_update_eq.
  set (s3 := run_steps (take 3 (tray_update_steps env t (hmenu s))) s).
  destruct (before_notify_resources env t s) as (C3 & I3 & W3 & Q3 & L3 & N3).
  fold s3 in C3, I3, W3, Q3, L3, N3.
  assert (Hpos3 : 0 < os_next_handle s3) by lia.
  destruct (fetch_icon_resources env (icon t) REGULAR s3 Hpos3)
    as (N1 & W1 & Q1 & L1 & _ & _ & new & H1 & B1 & I1).
  destruct (fetch_icon_trace (icon t) REGULAR s3) as (_ & _ & _ & _ & P1).
  destruct (apply_notify_icon_resources env t s3)
    as (C4 & W4 & Q4 & L4 & N4 & I4 & B4 & _).
  destruct (apply_notify_icon_spec env t s3) as (_ & _ & _ & _ & G4 & _).
  destruct (destroy_prevmenu_spec (hmenu s) (apply_notify_icon env t s3))
    as (_ & _ & D3 & _ & _).
  destruct (destroy_prevmenu_resources (hmenu s) (apply_notify_icon env t s3))
    as (D1 & D2 & D4 & D5 & D6 & D7 & D8).
  set (s1 := (_fetch_icon env (icon t) REGULAR s3).2) in *.
  fold file in N4, I4, B4. fold loaded in N4, I4, B4.
  rewrite D7, D4, D5, D6, D8, D3, W4, Q4, L4, W1, Q1, L1, W3, Q3, L3, G4.
  split; [rewrite N4; destruct loaded; lia|]. do 4 (split; [done|]).
  split.
  { unfold cached_paths. rewrite D1, C4. fold (cached_paths s1). rewrite P1.
    unfold cached_paths. by rewrite C3. }
  exists new, (os_next_handle s1). split.
  { unfold cache_handles. rewrite D1, C4. fold (cache_handles s1). rewrite H1.
    unfold cache_handles. by rewrite C3. }
  split.
  { intros h Hh. specialize (B1 h Hh). rewrite N4. destruct loaded; lia. }
  split.
  { intros h. rewrite D2, I4, I1, I3. tauto. }
  intros Hl. rewrite N4, Hl. split; [lia|]. split.
  { intros Hn. specialize (B1 _ Hn). lia. }
  intros Hd. apply B4; [done|done|lia].
Qed.

(** An update takes at least the handles of its build. *)
Lemma tray_update_next_handle t s :
  0 < os_next_handle s →
  os_next_handle s + 1 + Z.of_nat (submenus_created (menu t)) ≤
  os_next_handle (tray_update env t s).
Proof.
  intros Hpos. rewrite tray_update_eq.
  set (s3 := run_steps (take 3 (tray_update_steps env t (hmenu s))) s).
  destruct (before_notify_resources env t s) as (_ & _ & _ & _ & _ & N3). fold s3 in N3.
  assert (Hpos3 : 0 < os_next_handle s3) by lia.
  destruct (fetch_icon_resources env (icon t) REGULAR s3 Hpos3) as (N1 & _).
  destruct (apply_notify_icon_resources env t s3) as (_ & _ & _ & _ & N4 & _).
  destruct (destroy_prevmenu_resources (hmenu s) (apply_notify_icon env t s3))
    as (_ & _ & _ & _ & _ & D7 & _).
  rewrite D7, N4.
  destruct (loads_balloon_icon t && _); lia.
Qed.
End update_trace.

(** ** One live menu *)

Lemma no_stray_menu_dom s :
  no_stray_menu s → ∀ k, k ≠ hmenu s → os_menus s !! k = None.
Proof.
  intros (_ & _ & H) k Hk. destruct (os_menus s !! k) eqn:E; [|done].
  destruct (H k) as [? _]; [by eexists|done].
Qed.

Lemma no_stray_menu_null s : no_stray_menu s → os_menus s !! 0 = None.
Proof.
  intros (_ & _ & H). destruct (os_menus s !! 0) eqn:E; [|done].
  destruct (H 0) as [_ ?]; [by eexists|done].
Qed.

Lemma no_stray_menu_singleton s items :
  0 < hmenu s < os_next_handle s → os_menus s = {[hmenu s := items]} → no_stray_menu s.
Proof.
  intros Hh Hm. split; [lia|]. split; [lia|]. intros h [x Hx]. rewrite Hm in Hx.
  apply lookup_singleton_Some in Hx as [<- _]. split; [done|lia].
Qed.

(** Replacing the only live menu: the new one is the only one left. *)
Lemma replace_menu_singleton s (items : list MENUITEM) :
  no_stray_menu s →
  (if hmenu s =? 0 then <[os_next_handle s := items]> (os_menus s)
   else delete (hmenu s) (<[os_next_handle s := items]> (os_menus s))) =
  {[os_next_handle s := items]}.
Proof.
  intros Hs. pose proof (no_stray_menu_dom s Hs) as Hdom.
  pose proof (no_stray_menu_null s Hs) as Hnull.
  destruct Hs as (Hpos & Hlt & _).
  apply map_eq. intros k.
  destruct (Z.eqb_spec (hmenu s) 0) as [Hz|Hz].
  - destruct (decide (k = os_next_handle s)) as [->|Hk].
    + by rewrite lookup_insert_eq, lookup_singleton_eq.
    + rewrite lookup_insert_ne, lookup_singleton_ne by done.
      destruct (decide (k = hmenu s)) as [->|Hk2]; [by rewrite Hz|by apply Hdom].
  - destruct (decide (k = hmenu s)) as [->|Hk2].
    + rewrite lookup_delete_eq, lookup_singleton_ne by lia. done.
    + rewrite lookup_delete_ne by done.
      destruct (decide (k = os_next_handle s)) as [->|Hk].
      * by rewrite lookup_insert_eq, lookup_singleton_eq.
      * rewrite lookup_insert_ne, lookup_singleton_ne by done. by apply Hdom.
Qed.

Lemma tray_update_singleton env t s :
  no_stray_menu s →
  let s' := tray_update env t s in
  no_stray_menu s' ∧ os_menus s' = {[hmenu s' := (_tray_menu (menu t) ID_TRAY_FIRST).1]}.
Proof.
  intros Hs s'. pose proof Hs as (Hpos & Hlt & _).
  destruct (tray_update_spec env t s) as (_ & _ & _ & _ & _ & H & M & _).
  destruct (tray_update_resources env t s Hpos) as (N & _).
  fold s' in H, M, N. rewrite replace_menu_singleton in M by done.
  assert (M' : os_menus s' = {[hmenu s' := (_tray_menu (menu t) ID_TRAY_FIRST).1]})
    by (by rewrite H).
  split; [|done]. eapply no_stray_menu_singleton; [|exact M']. lia.
Qed.

Lemma rebuild_menu_singleton t s :
  no_stray_menu s →
  let s' := rebuild_menu t s in
  no_stray_menu s' ∧ os_menus s' = {[hmenu s' := (_tray_menu (menu t) ID_TRAY_FIRST).1]} ∧
  g_tray s' = g_tray s.
Proof.
  intros Hs s'. pose proof Hs as (Hpos & Hlt & _).
  pose proof (replace_menu_singleton s (_tray_menu (menu t) ID_TRAY_FIRST).1 Hs) as R.
  assert (E : hmenu s' = os_next_handle s ∧
              os_next_handle s' = os_next_handle s + 1 + Z.of_nat (submenus_created (menu t)) ∧
              g_tray s' = g_tray s ∧
              os_menus s' =
                (if hmenu s =? 0
                 then <[os_next_handle s := (_tray_menu (menu t) ID_TRAY_FIRST).1]> (os_menus s)
                 else delete (hmenu s)
                        (<[os_next_handle s := (_tray_menu (menu t) ID_TRAY_FIRST).1]> (os_menus s)))).
  { subst s'. unfold rebuild_menu.
    destruct (install_menu_spec (menu t) s) as (H1 & H2 & H3 & _).
    destruct (install_menu_frame (menu t) s) as (N & _).
    cbn zeta in *. destruct (hmenu s =? 0); simpl; rewrite ?H1, ?H2, ?H3, ?N; done. }
  destruct E as (E1 & E2 & E3 & E4). rewrite R in E4.
  assert (M' : os_menus s' = {[hmenu s' := (_tray_menu (menu t) ID_TRAY_FIRST).1]})
    by (by rewrite E1).
  split; [|done]. eapply no_stray_menu_singleton; [|exact M']. lia.
Qed.

Lemma readd_icon_no_stray_menu env s :
  no_stray_menu s → no_stray_menu (readd_icon env s).
Proof.
  intros Hs. destruct (readd_icon_spec env s) as (_ & (_ & K2 & K3) & N).
  unfold no_stray_menu. by rewrite N, K2, K3.
Qed.

(** X3.  An update leaves exactly one menu live, the one it built and
    made the active one, when at most the active menu was live before:
    the menu it replaces is destroyed. *)
Theorem tray_update_one_live_menu env t s :
  no_stray_menu s →
  let s' := tray_update env t s in
  os_menus s' = {[hmenu s' := (_tray_menu (menu t) ID_TRAY_FIRST).1]} ∧
  hmenu s' = os_next_handle s ∧ hmenu s' ≠ 0 ∧
  os_menus s' !! hmenu s = None ∧
  no_stray_menu s'.
Proof.
  intros Hs s'. destruct (tray_update_singleton env t s Hs) as (Hs' & M). fold s' in Hs', M.
  destruct (tray_update_spec env t s) as (_ & _ & _ & _ & _ & H & _). fold s' in H.
  destruct Hs as (Hpos & Hlt & _).
  split; [done|]. split; [done|]. split; [rewrite H; lia|]. split; [|done].
  rewrite M. apply lookup_singleton_ne. rewrite H. lia.
Qed.

Lemma tray_update_one_live_menu_witness :
  no_stray_menu initial_state ∧
  os_menus (tray_update quiet_env scenario (tray_update quiet_env scenario initial_state)) !!
    hmenu (tray_update quiet_env scenario initial_state) = None.
Proof.
  assert (H0 : no_stray_menu initial_state).
  { split; [done|]. split; [done|]. intros h [x Hx].
    change (os_menus initial_state) with (∅ : gmap Z (list MENUITEM)) in Hx.
    by rewrite lookup_empty in Hx. }
  split; [exact H0|].
  pose proof (tray_update_one_live_menu quiet_env scenario initial_state H0) as (_ & _ & _ & _ & H1).
  exact (proj1 (proj2 (proj2 (proj2
    (tray_update_one_live_menu quiet_env scenario
       (tray_update quiet_env scenario initial_state) H1))))).
Defined.

(** X4.  The handler for the taskbar's restart builds a menu of its own
    and then runs an update, which builds another; each destroys the menu
    it replaces, so again at most the active menu is live afterwards.  Its
    handle is the one after the handles of the first build, which takes
    one for the top-level menu and one for every submenu. *)
Theorem taskbar_created_one_live_menu env s :
  no_stray_menu s →
  let s' := on_taskbar_created env s in
  no_stray_menu s' ∧
  (∀ t, g_tray s = Some t →
     os_menus s' = {[hmenu s' := (_tray_menu (menu t) ID_TRAY_FIRST).1]} ∧
     hmenu s' = os_next_handle s + 1 + Z.of_nat (submenus_created (menu t)) ∧
     os_next_handle s + 2 * (1 + Z.of_nat (submenus_created (menu t))) ≤ os_next_handle s') ∧
  (g_tray s = None → keeps_menus s s').
Proof.
  intros Hs s'. subst s'. unfold on_taskbar_created.
  pose proof (readd_icon_no_stray_menu env s Hs) as H1.
  destruct (readd_icon_spec env s) as (_ & (K1 & K2 & K3) & N).
  rewrite K1. destruct (g_tray s) as [t|] eqn:G.
  - destruct (rebuild_menu_singleton t (readd_icon env s) H1) as (H2 & M2 & G2).
    destruct (tray_update_singleton env t _ H2) as (H3 & M3).
    split; [done|]. split; [|done]. intros t' [= <-]. split; [done|].
    destruct (tray_update_spec env t (rebuild_menu t (readd_icon env s)))
      as (_ & _ & _ & _ & _ & H & _).
    assert (N2 : os_next_handle (rebuild_menu t (readd_icon env s)) =
                 os_next_handle s + 1 + Z.of_nat (submenus_created (menu t))).
    { unfold rebuild_menu.
      destruct (install_menu_frame (menu t) (readd_icon env s)) as (N0 & _).
      cbn zeta in *. rewrite N in N0.
      destruct (hmenu (readd_icon env s) =? 0); simpl; by rewrite ?N0. }
    split; [by rewrite H, N2|].
    assert (Hpos2 : 0 < os_next_handle (rebuild_menu t (readd_icon env s))).
    { destruct Hs as (Hpos & _). lia. }
    pose proof (tray_update_next_handle env t _ Hpos2) as N5.
    rewrite N2 in N5. lia.
  - split; [done|]. split; [done|]. intros _. by split.
Qed.

Lemma taskbar_created_one_live_menu_witness :
  let s := tray_update quiet_env nested initial_state in
  no_stray_menu s ∧ g_tray s = Some nested ∧
  no_stray_menu (on_taskbar_created quiet_env s) ∧
  hmenu (on_taskbar_created quiet_env s) =
    os_next_handle s + 1 + Z.of_nat (submenus_created (menu nested)).
Proof.
  intros s.
  assert (H0 : no_stray_menu initial_state).
  { split; [done|]. split; [done|]. intros h [x Hx].
    change (os_menus initial_state) with (∅ : gmap Z (list MENUITEM)) in Hx.
    by rewrite lookup_empty in Hx. }
  pose proof (tray_update_singleton quiet_env nested initial_state H0) as (H1 & _).
  assert (G : g_tray s = Some nested) by (vm_compute; reflexivity).
  split; [exact H1|]. split; [exact G|].
  exact (conj (proj1 (taskbar_created_one_live_menu quiet_env s H1))
           (proj1 (proj2 (proj1 (proj2 (taskbar_created_one_live_menu quiet_env s H1))
                            nested G)))).
Defined.

(** ** Decoding and logging during an update *)

Lemma filter_build_events (P : event → bool) h m :
  (∀ h', P (EvCreatePopupMenu h') = false) →
  filter (λ e, P e = true) (build_events h m) = [].
Proof.
  intros HP. pose proof (build_events_created h m) as H.
  induction H as [|e l [h' ->] _ IH]; [done|].
  rewrite filter_cons_False; [exact IH|]. by rewrite HP.
Qed.

Lemma omap_shell_build_events h m : omap shell_message (build_events h m) = [].
Proof.
  pose proof (build_events_created h m) as H.
  induction H as [|e l [h' ->] _ IH]; [done|]. simpl. exact IH.
Qed.

Lemma build_events_no_decode h m : Forall (λ e, is_decode e = false) (build_events h m).
Proof. eapply Forall_impl; [apply build_events_created|]. by intros e [h' ->]. Qed.

Lemma new_events_app s s' evs : trace s' = trace s ++ evs → new_events s s' = evs.
Proof. intros H. unfold new_events. rewrite H. by rewrite drop_app_length. Qed.

(** X5.  An update decodes the icon file only when its path is not in the
    cache, and puts it there: after an update has shown an icon, an update
    with the same icon path and no image for a balloon calls no decoder.
    The first of them decodes the file three times when the path is new. *)
Theorem tray_update_decodes_once env t t2 s :
  icon t2 = icon t → loads_balloon_icon t2 = false →
  let s1 := tray_update env t s in
  let s2 := tray_update env t2 s1 in
  icon t ∈ cached_paths s1 ∧
  cached_paths s2 = cached_paths s1 ∧
  Forall (λ e, is_decode e = false) (new_events s1 s2) ∧
  (icon t ∉ cached_paths s → loads_balloon_icon t = false →
     filter (λ e, is_decode e = true) (new_events s s1) =
       [EvDecodeIcon (icon t) LARGE; EvDecodeIcon (icon t) REGULAR;
        EvDecodeIcon (icon t) NOTIFICATION]).
Proof.
  intros Hicon Hload s1 s2.
  pose proof (tray_update_cached_paths env) as Hc.
  assert (H1 : icon t ∈ cached_paths s1).
  { subst s1. rewrite Hc. destruct (decide (icon t ∈ cached_paths s)) as [Hin|Hout].
    - by rewrite app_nil_r.
    - apply elem_of_app. right. by left. }
  split; [exact H1|]. split.
  { subst s2. rewrite Hc, Hicon. rewrite decide_True by done. by rewrite app_nil_r. }
  split.
  - destruct (tray_update_trace env t2 s1) as (s6 & T). fold s2 in T.
    rewrite (new_events_app _ _ _ T). rewrite Hicon, Hload.
    rewrite decide_True by done. apply Forall_app. split; [apply build_events_no_decode|].
    simpl.
    destruct (Shell_NotifyIconA_ok env NIM_MODIFY s6), (g_tray_log_cb s1), (hmenu s1 =? 0);
      simpl; by repeat constructor.
  - intros Hnew Hload1. destruct (tray_update_trace env t s) as (s6 & T). fold s1 in T.
    rewrite (new_events_app _ _ _ T). rewrite Hload1. rewrite decide_False by done.
    rewrite filter_app, (filter_build_events is_decode) by done.
    destruct (Shell_NotifyIconA_ok env NIM_MODIFY s6), (g_tray_log_cb s), (hmenu s =? 0);
      reflexivity.
Qed.

Lemma tray_update_decodes_once_witness :
  icon scenario_no_tip = icon scenario ∧ loads_balloon_icon scenario_no_tip = false ∧
  Forall (λ e, is_decode e = false)
    (new_events (tray_update quiet_env scenario initial_state)
       (tray_update quiet_env scenario_no_tip (tray_update quiet_env scenario initial_state))).
Proof.
  split; [reflexivity|]. split; [reflexivity|].
  exact (proj1 (proj2 (proj2
    (tray_update_decodes_once quiet_env scenario scenario_no_tip initial_state
       eq_refl eq_refl)))).
Defined.

(** X7.  An update reports nothing without a log callback, and nothing
    when the shell accepts the modification; when the shell refuses it and
    a callback is set, the one report is a warning, and the update goes
    through all the same: the description is on record and its menu is
    the active one. *)
Theorem tray_update_logs env t s :
  let s' := tray_update env t s in
  let logs := filter (λ e, is_log e = true) (new_events s s') in
  (g_tray_log_cb s = None → logs = []) ∧
  ((∀ s0, Shell_NotifyIconA_ok env NIM_MODIFY s0 = true) → logs = []) ∧
  ((∀ s0, Shell_NotifyIconA_ok env NIM_MODIFY s0 = false) → is_Some (g_tray_log_cb s) →
     logs = [EvLog TRAY_LOG_WARNING "Shell_NotifyIconA(NIM_MODIFY)"]) ∧
  g_tray s' = Some t ∧ hmenu s' = os_next_handle s.
Proof.
  intros s' logs. subst logs.
  destruct (tray_update_trace env t s) as (s6 & T). fold s' in T.
  rewrite (new_events_app _ _ _ T).
  rewrite filter_app, (filter_build_events is_log) by done.
  destruct (tray_update_spec env t s) as (_ & _ & _ & _ & G & H & _). fold s' in G, H.
  split; [|split; [|split; [|done]]].
  - intros ->. destruct (decide (icon t ∈ cached_paths s)), (loads_balloon_icon t),
      (Shell_NotifyIconA_ok env NIM_MODIFY s6), (hmenu s =? 0); reflexivity.
  - intros Hok. rewrite Hok.
    destruct (decide (icon t ∈ cached_paths s)), (loads_balloon_icon t), (hmenu s =? 0);
      reflexivity.
  - intros Hno [cb ->]. rewrite Hno.
    destruct (decide (icon t ∈ cached_paths s)), (loads_balloon_icon t), (hmenu s =? 0);
      reflexivity.
Qed.

Lemma tray_update_logs_witness :
  (∀ s0, Shell_NotifyIconA_ok no_shell_env NIM_MODIFY s0 = false) ∧
  is_Some (g_tray_log_cb (tray_set_log_callback (Some 0%nat) initial_state)) ∧
  filter (λ e, is_log e = true)
    (new_events (tray_set_log_callback (Some 0%nat) initial_state)
       (tray_update no_shell_env scenario (tray_set_log_callback (Some 0%nat) initial_state))) =
  [EvLog TRAY_LOG_WARNING "Shell_NotifyIconA(NIM_MODIFY)"].
Proof.
  assert (H1 : ∀ s0, Shell_NotifyIconA_ok no_shell_env NIM_MODIFY s0 = false) by done.
  assert (H2 : is_Some (g_tray_log_cb (tray_set_log_callback (Some 0%nat) initial_state)))
    by (by eexists).
  split; [exact H1|]. split; [exact H2|].
  exact (proj1 (proj2 (proj2
    (tray_update_logs no_shell_env scenario
       (tray_set_log_callback (Some 0%nat) initial_state))))
    H1 H2).
Defined.

(** ** [tray_exit] *)

Lemma tray_exit_spec env s :
  let s' := tray_exit env s in
  icon_infos s' = [] ∧
  (∀ h, h ∈ os_icons s' ↔ h ∈ os_icons s ∧ h ∉ cache_handles s) ∧
  os_menus s' = (if hmenu s =? 0 then os_menus s else delete (hmenu s) (os_menus s)) ∧
  os_queue s' = os_queue s ++ [Build_MSG WM_QUIT 0 0] ∧
  os_windows s' = os_windows s ∧ hwnd s' = hwnd s ∧ hmenu s' = hmenu s ∧
  g_tray s' = g_tray s ∧ nid s' = nid s ∧ os_class s' = false ∧
  trace s' = trace s ++ [EvShell_NotifyIconA NIM_DELETE (nid s)] ++
               (if hmenu s =? 0 then [] else [EvDestroyMenu (hmenu s)]) ++
               [EvPostQuitMessage].
Proof.
  unfold tray_exit, Shell_NotifyIconA.
  set (s1 := emit (EvShell_NotifyIconA NIM_DELETE (nid s)) s).
  pose proof (destroy_icon_cache_icons s1) as I.
  assert (F : ∃ icons, _destroy_icon_cache s1 = set_icon_infos [] (set_os_icons icons s1)).
  { unfold _destroy_icon_cache. generalize (icon_infos s1) at 1. intros l.
    assert (G : ∀ s0, ∃ icons, foldl (λ s e, destroy_entry e s) s0 l = set_os_icons icons s0).
    { induction l as [|e l IH]; intros s0; simpl.
      - exists (os_icons s0). by destruct s0.
      - assert (E : ∃ icons, destroy_entry e s0 = set_os_icons icons s0).
        { exists (os_icons (destroy_entry e s0)). unfold destroy_entry, DestroyIcon.
          by destruct (icon_info.icon e =? 0), (icon_info.large_icon e =? 0),
            (icon_info.notification_icon e =? 0), s0. }
        destruct E as (i1 & ->). destruct (IH (set_os_icons i1 s0)) as (i2 & ->).
        by exists i2. }
    destruct (G s1) as (icons & ->). by exists icons. }
  destruct F as (icons & F). rewrite F in I |- *. simpl in I |- *.
  change (cache_handles s1) with (cache_handles s) in I.
  split; [by destruct (hmenu s =? 0)|].
  split; [intros h; rewrite <- (I h); by destruct (hmenu s =? 0)|].
  destruct (hmenu s =? 0); simpl; rewrite <- ?app_assoc; done.
Qed.

(** X6.  The image an update loads for a balloon is in no cache entry and
    is never destroyed: it is still live after [tray_exit], which
    destroys what the cache holds. *)
Theorem balloon_icon_outlives_exit env t s :
  icons_below_next s →
  loads_balloon_icon t = true →
  icon_decodes env (default EmptyString (notification_icon t)) NOTIFICATION = true →
  let s1 := tray_update env t s in
  ∃ h, (h ∉ os_icons s) ∧ h ∈ os_icons s1 ∧ (h ∉ cache_handles s1) ∧
       h ∈ os_icons (_destroy_icon_cache s1) ∧ h ∈ os_icons (tray_exit env s1) ∧
       (defined_NIIF_LARGE_ICON env = true → hBalloonIcon (nid s1) = h).
Proof.
  intros (Hpos & Hlive & Hcache) Hload Hdec s1.
  destruct (tray_update_resources env t s Hpos)
    as (_ & _ & _ & _ & _ & _ & new & balloon & C & B & I & L).
  fold s1 in C, B, I, L. rewrite Hload, Hdec in I, L. simpl in I, L.
  destruct (L eq_refl) as (Hb & Hnew & Hnid).
  assert (H1 : balloon ∈ os_icons s1) by (apply I; by left).
  assert (H2 : balloon ∉ cache_handles s1).
  { rewrite C. intros [Hc|Hn]%elem_of_app; [|done]. specialize (Hcache _ Hc). lia. }
  exists balloon. split; [intros Hin; specialize (Hlive _ Hin); lia|].
  split; [done|]. split; [done|].
  split; [by apply destroy_icon_cache_icons|].
  split; [|done]. destruct (tray_exit_spec env s1) as (_ & E & _). by apply E.
Qed.

Lemma balloon_icon_outlives_exit_witness :
  let t := Build_tray "a.ico" None (Some "b.ico") (Some "text") None None None [] in
  icons_below_next initial_state ∧ loads_balloon_icon t = true ∧
  ∃ h, (h ∉ os_icons initial_state) ∧ h ∈ os_icons (tray_update quiet_env t initial_state) ∧
       (h ∉ cache_handles (tray_update quiet_env t initial_state)) ∧
       h ∈ os_icons (_destroy_icon_cache (tray_update quiet_env t initial_state)) ∧
       h ∈ os_icons (tray_exit quiet_env (tray_update quiet_env t initial_state)) ∧
       (defined_NIIF_LARGE_ICON quiet_env = true →
          hBalloonIcon (nid (tray_update quiet_env t initial_state)) = h).
Proof.
  intros t.
  assert (H0 : icons_below_next initial_state).
  { split; [done|]. split.
    - intros h Hh. change (os_icons initial_state) with (∅ : gset Z) in Hh. set_solver.
    - intros h Hh. change (cache_handles initial_state) with (@nil Z) in Hh.
      by apply elem_of_nil in Hh. }
  split; [exact H0|]. split; [reflexivity|].
  exact (balloon_icon_outlives_exit quiet_env t initial_state H0 eq_refl eq_refl).
Defined.

(** ** What an update and the cache never touch *)

Lemma keeps_window_refl s : keeps_window s s.
Proof. by repeat split. Qed.

Lemma keeps_window_trans s1 s2 s3 :
  keeps_window s1 s2 → keeps_window s2 s3 → keeps_window s1 s3.
Proof.
  intros (A1 & A2 & A3 & A4 & A5 & A6 & A7 & A8 & A9 & A10 & A11)
         (B1 & B2 & B3 & B4 & B5 & B6 & B7 & B8 & B9 & B10 & B11).
  unfold keeps_window, same_identity. repeat split; congruence.
Qed.

Section keeps_window.
Variable env : Environment.

Lemma decode_icon_keeps_window file kind s :
  keeps_window s (decode_icon env file kind s).2.
Proof. unfold decode_icon. by destruct (icon_decodes env file kind). Qed.

Lemma create_icon_info_keeps_window path s :
  keeps_window s (_create_icon_info env path s).2.
Proof.
  unfold _create_icon_info.
  pose proof (decode_icon_keeps_window path LARGE s) as H1.
  destruct (decode_icon env path LARGE s) as [large s1].
  pose proof (decode_icon_keeps_window path REGULAR s1) as H2.
  destruct (decode_icon env path REGULAR s1) as [small s2].
  pose proof (decode_icon_keeps_window path NOTIFICATION s2) as H3.
  destruct (decode_icon env path NOTIFICATION s2) as [notif s3].
  simpl in *. eauto using keeps_window_trans.
Qed.

Lemma init_icon_cache_for_keeps_window paths : ∀ s,
  keeps_window s (_init_icon_cache_for env paths s).
Proof.
  induction paths as [|p paths IH]; intros s; simpl; [apply keeps_window_refl|].
  pose proof (create_icon_info_keeps_window p s) as H1.
  destruct (_create_icon_info env p s) as [info s1]. simpl in H1.
  eapply keeps_window_trans; [exact H1|].
  eapply keeps_window_trans; [|apply IH]. done.
Qed.

Lemma fetch_icon_keeps_window path kind s :
  keeps_window s (_fetch_icon env path kind s).2.
Proof.
  unfold _fetch_icon. destruct (find_cached path (icon_infos s)); [apply keeps_window_refl|].
  pose proof (create_icon_info_keeps_window path s) as H1.
  destruct (_create_icon_info env path s) as [info s1]. simpl in *.
  eapply keeps_window_trans; [exact H1|]. done.
Qed.

Lemma update_tip_keeps_window t flags s :
  keeps_window s (update_tip env t flags s).2.
Proof. unfold update_tip. by destruct (has_chars (tooltip t)). Qed.

Lemma update_info_keeps_window t flags s :
  keeps_window s (update_info env t flags s).2.
Proof.
  unfold update_info.
  destruct (has_chars (notification_title t) || has_chars (notification_text t)); [|done].
  set (s2 := upd_nid (set_dwInfoFlags NIIF_NONE) _).
  assert (H2 : keeps_window s s2) by done.
  assert (H3 : keeps_window s2
    (if has_chars (notification_icon t)
     then decode_icon env (default EmptyString (notification_icon t)) NOTIFICATION s2
     else (0, s2)).2).
  { destruct (has_chars (notification_icon t));
      [apply decode_icon_keeps_window|apply keeps_window_refl]. }
  destruct (if has_chars (notification_icon t)
            then decode_icon env (default EmptyString (notification_icon t)) NOTIFICATION s2
            else (0, s2)) as [hLarge s3].
  simpl in *. eapply keeps_window_trans; [exact H2|]. eapply keeps_window_trans; [exact H3|].
  by destruct (defined_NIIF_LARGE_ICON env && truthy _).
Qed.

Lemma apply_notify_icon_keeps_window t s :
  keeps_window s (apply_notify_icon env t s).
Proof.
  unfold apply_notify_icon.
  pose proof (fetch_icon_keeps_window (icon t) REGULAR s) as H1.
  destruct (_fetch_icon env (icon t) REGULAR s) as [h s1]. simpl in H1.
  set (flags1 := if truthy h then Z.lor (Z.lor NIF_MESSAGE NIF_GUID) NIF_ICON
                 else Z.lor NIF_MESSAGE NIF_GUID).
  set (s2 := if truthy h then upd_nid (set_hIcon h) s1 else s1).
  replace (if truthy h then (Z.lor (Z.lor NIF_MESSAGE NIF_GUID) NIF_ICON, upd_nid (set_hIcon h) s1)
           else (Z.lor NIF_MESSAGE NIF_GUID, s1)) with (flags1, s2)
    by (subst flags1 s2; by destruct (truthy h)).
  assert (H2 : keeps_window s1 s2) by (subst s2; by destruct (truthy h)).
  pose proof (update_tip_keeps_window t flags1 s2) as H3.
  destruct (update_tip env t flags1 s2) as [flags2 s3]. simpl in H3.
  pose proof (update_info_keeps_window t flags2 s3) as H4.
  destruct (update_info env t flags2 s3) as [flags3 s4]. simpl in H4.
  eapply keeps_window_trans; [exact H1|]. eapply keeps_window_trans; [exact H2|].
  eapply keeps_window_trans; [exact H3|]. eapply keeps_window_trans; [exact H4|].
  unfold Shell_NotifyIconA, tray_log_last_error, tray_log. simpl.
  by destruct (Shell_NotifyIconA_ok env NIM_MODIFY _), (g_tray_log_cb s4).
Qed.

Lemma tray_update_keeps_window t s : keeps_window s (tray_update env t s).
Proof.
  rewrite tray_update_eq.
  set (s3 := run_steps (take 3 (tray_update_steps env t (hmenu s))) s).
  assert (H3 : keeps_window s s3).
  { subst s3. cbn [tray_update_steps take run_steps foldl].
    destruct (install_menu_spec (menu t) (set_g_tray (Some t) s)) as (_ & _ & _ & N & _).
    destruct (install_menu_frame (menu t) (set_g_tray (Some t) s))
      as (_ & _ & _ & W & Q & L & _ & H & R & C).
    unfold send_initmenupopup, DefWindowProc, emit, keeps_window, same_identity.
    simpl in *. rewrite N, W, Q, L, H, R, C. done. }
  eapply keeps_window_trans; [exact H3|].
  eapply keeps_window_trans; [apply apply_notify_icon_keeps_window|].
  unfold destroy_prevmenu. by destruct (hmenu s =? 0).
Qed.
End keeps_window.

(** ** [tray_init] *)


Lemma omap_shell_decode_events paths : omap shell_message (decode_events paths) = [].
Proof. induction paths as [|p paths IH]; [done|]. unfold decode_events in *. simpl. exact IH. Qed.

Section init.
Variable env : Environment.

Lemma init_icon_cache_for_plain paths : ∀ s,
  let s' := _init_icon_cache_for env paths s in
  nid s' = nid s ∧ keeps_menus s s' ∧ g_notification_cb s' = g_notification_cb s ∧
  trace s' = trace s ++ decode_events paths.
Proof.
  induction paths as [|p paths IH]; intros s; simpl.
  - unfold decode_events. simpl. by rewrite app_nil_r.
  - unfold _create_icon_info, decode_icon.
    destruct (icon_decodes env p LARGE), (icon_decodes env p REGULAR),
      (icon_decodes env p NOTIFICATION); simpl;
      match goal with |- context [_init_icon_cache_for env paths ?s0] =>
        destruct (IH s0) as (I1 & (I2 & I3 & I4) & I5 & I6) end;
      simpl in *; unfold decode_events, keeps_menus in *; simpl;
      rewrite I1, I2, I3, I4, I5, I6, <- !app_assoc; done.
Qed.

Lemma init_icon_cache_plain paths s :
  let s' := _init_icon_cache env paths s in
  nid s' = nid s ∧ keeps_menus s s' ∧ g_notification_cb s' = g_notification_cb s ∧
  trace s' = trace s ++ decode_events paths ∧ keeps_window s s' ∧
  cached_paths s' = paths ∧ (0 < os_next_handle s → os_next_handle s ≤ os_next_handle s').
Proof.
  unfold _init_icon_cache.
  destruct (init_icon_cache_for_plain paths (set_icon_infos [] s)) as (H1 & H2 & H3 & H4).
  pose proof (init_icon_cache_for_keeps_window env paths (set_icon_infos [] s)) as H5.
  pose proof (init_icon_cache_paths env paths s) as H6. unfold _init_icon_cache in H6.
  do 4 (split; [done|]). split; [done|]. split; [done|].
  intros Hpos.
  by destruct (init_icon_cache_for_resources env paths (set_icon_infos [] s) Hpos) as (? & _).
Qed.

(** The state in which a successful [tray_init] calls [tray_update]. *)
Lemma tray_init_success_eq t s :
  0 < os_next_handle s →
  (∀ s0, RegisterClassExA_ok env s0 = true) →
  (∀ s0, CreateWindowExA_ok env s0 = true) →
  (∀ s0, Shell_NotifyIconA_ok env NIM_ADD s0 = true) →
  let s1 := _init_icon_cache env (allIconPaths t)
              (set_wm_taskbarcreated (RegisterWindowMessageA env "TaskbarCreated") s) in
  let s2 := set_hwnd (os_next_handle s1)
              (set_os_windows ({[os_next_handle s1]} ∪ os_windows s1)
                 (set_os_next_handle (os_next_handle s1 + 1) (set_os_class true s1))) in
  let s3 := upd_nid (set_uVersion NOTIFYICON_VERSION_4)
              (emit (EvShell_NotifyIconA NIM_ADD (nid (init_nid s2))) (init_nid s2)) in
  let s4 := emit (EvShell_NotifyIconA NIM_SETVERSION (nid s3)) s3 in
  let s5 := if Shell_NotifyIconA_ok env NIM_SETVERSION s3 then s4
            else tray_log_last_error TRAY_LOG_WARNING "Shell_NotifyIconA(NIM_SETVERSION)" s4 in
  tray_init env t s = (0, tray_update env t s5).
Proof.
  intros Hpos Hreg Hwin Hadd s1 s2 s3 s4 s5.
  destruct (init_icon_cache_plain (allIconPaths t)
              (set_wm_taskbarcreated (RegisterWindowMessageA env "TaskbarCreated") s))
    as (_ & _ & _ & _ & _ & _ & N). fold s1 in N. specialize (N Hpos). simpl in N.
  unfold tray_init. fold s1. unfold RegisterClassExA. rewrite Hreg. cbn [negb].
  unfold CreateWindowExA. rewrite Hwin. cbn zeta.
  destruct (Z.eqb_spec (os_next_handle (set_os_class true s1)) 0) as [E|_];
    [simpl in E; lia|].
  unfold Shell_NotifyIconA at 1. rewrite Hadd. cbn [negb].
  unfold Shell_NotifyIconA. cbn zeta. reflexivity.
Qed.
End init.

(** X8.  With a window class, a window and an icon the shell accepts,
    [tray_init] returns 0 whatever the shell answers to the version and to
    the modification: the window is live and in [hwnd], the notify-icon
    record names it, the icon cache holds the listed paths and the icon's
    path after them when it is not listed, the description is on record
    with its menu the active one, and the shell was called to add, to set
    the version and to modify, in this order. *)
Theorem tray_init_succeeds env t s :
  0 < os_next_handle s → hmenu s < os_next_handle s →
  (∀ s0, RegisterClassExA_ok env s0 = true) →
  (∀ s0, CreateWindowExA_ok env s0 = true) →
  (∀ s0, Shell_NotifyIconA_ok env NIM_ADD s0 = true) →
  let r := tray_init env t s in
  r.1 = 0 ∧ g_tray r.2 = Some t ∧
  hwnd r.2 ≠ 0 ∧ hwnd r.2 ∈ os_windows r.2 ∧ os_class r.2 = true ∧
  os_queue r.2 = os_queue s ∧
  wm_taskbarcreated r.2 = RegisterWindowMessageA env "TaskbarCreated" ∧
  hWnd (nid r.2) = hwnd r.2 ∧ uID (nid r.2) = 1 ∧ guidItem (nid r.2) = kTrayGuid ∧
  uCallbackMessage (nid r.2) = WM_TRAY_CALLBACK_MESSAGE ∧
  uVersion (nid r.2) = NOTIFYICON_VERSION_4 ∧
  cached_paths r.2 =
    allIconPaths t ++ (if decide (icon t ∈ allIconPaths t) then [] else [icon t]) ∧
  active_menu r.2 = Some (_tray_menu (menu t) ID_TRAY_FIRST).1 ∧
  omap shell_message (new_events s r.2) = [NIM_ADD; NIM_SETVERSION; NIM_MODIFY].
Proof.
  intros Hpos Hfresh Hreg Hwin Hadd r. subst r.
  rewrite (tray_init_success_eq env t s Hpos Hreg Hwin Hadd). cbn [fst snd].
  set (s1 := _init_icon_cache env (allIconPaths t)
               (set_wm_taskbarcreated (RegisterWindowMessageA env "TaskbarCreated") s)).
  destruct (init_icon_cache_plain env (allIconPaths t)
              (set_wm_taskbarcreated (RegisterWindowMessageA env "TaskbarCreated") s))
    as (_ & (_ & K2 & _) & _ & T1 & (_ & W2 & _ & W4 & W5 & W6 & _) & P1 & N1).
  fold s1 in K2, T1, W2, W4, W5, W6, P1, N1. specialize (N1 Hpos). simpl in K2, T1, W2, W5, W6, N1.
  set (s2 := set_hwnd (os_next_handle s1)
               (set_os_windows ({[os_next_handle s1]} ∪ os_windows s1)
                  (set_os_next_handle (os_next_handle s1 + 1) (set_os_class true s1)))).
  set (s3 := upd_nid (set_uVersion NOTIFYICON_VERSION_4)
               (emit (EvShell_NotifyIconA NIM_ADD (nid (init_nid s2))) (init_nid s2))).
  set (s4 := emit (EvShell_NotifyIconA NIM_SETVERSION (nid s3)) s3).
  set (s5 := if Shell_NotifyIconA_ok env NIM_SETVERSION s3 then s4
             else tray_log_last_error TRAY_LOG_WARNING "Shell_NotifyIconA(NIM_SETVERSION)" s4).
  assert (F5 : hwnd s5 = os_next_handle s1 ∧
               os_windows s5 = {[os_next_handle s1]} ∪ os_windows s1 ∧
               os_class s5 = true ∧ os_queue s5 = os_queue s1 ∧
               wm_taskbarcreated s5 = wm_taskbarcreated s1 ∧
               hWnd (nid s5) = os_next_handle s1 ∧ uID (nid s5) = 1 ∧
               guidItem (nid s5) = kTrayGuid ∧
               uCallbackMessage (nid s5) = WM_TRAY_CALLBACK_MESSAGE ∧
               uVersion (nid s5) = NOTIFYICON_VERSION_4 ∧
               hmenu s5 = hmenu s1 ∧ os_next_handle s5 = os_next_handle s1 + 1 ∧
               icon_infos s5 = icon_infos s1 ∧
               ∃ n n' logs, trace s5 = trace s1 ++ [EvShell_NotifyIconA NIM_ADD n;
                                                    EvShell_NotifyIconA NIM_SETVERSION n'] ++ logs ∧
                            omap shell_message logs = []).
  { subst s5. unfold tray_log_last_error, tray_log.
    destruct (Shell_NotifyIconA_ok env NIM_SETVERSION s3); simpl.
    - do 13 (split; [done|]). eexists _, _, []. split; [|done]. by rewrite <- app_assoc.
    - destruct (g_tray_log_cb s1) eqn:E; simpl; rewrite ?E; simpl.
      + do 13 (split; [done|]). eexists _, _, [_]. split; [by rewrite <- !app_assoc|done].
      + do 13 (split; [done|]). eexists _, _, []. split; [|done]. by rewrite <- app_assoc. }
  destruct F5 as (A1 & A2 & A3 & A4 & A5 & A6 & A7 & A8 & A9 & A10 & A11 & A12 & A13 &
                  n & n' & logs & T5 & L5).
  destruct (tray_update_keeps_window env t s5)
    as (B1 & B2 & B3 & B4 & B5 & _ & B7 & B8 & B9 & B10 & B11).
  destruct (tray_update_spec env t s5) as (_ & _ & _ & _ & G & _).
  pose proof (tray_update_cached_paths env t s5) as P5.
  assert (Hfresh5 : handles_fresh s5) by (unfold handles_fresh; lia).
  pose proof (tray_update_active_menu env t s5 Hfresh5) as M5.
  destruct (tray_update_trace env t s5) as (s6 & T6).
  split; [done|]. split; [done|].
  split; [rewrite B1, A1; lia|].
  split; [rewrite B1, B4, A1, A2; apply elem_of_union; left; by apply elem_of_singleton|].
  split; [congruence|]. split; [congruence|]. split; [rewrite B2, A5, W2; done|].
  split; [congruence|]. split; [congruence|]. split; [congruence|].
  split; [congruence|]. split; [congruence|].
  split.
  { rewrite P5. unfold cached_paths. rewrite A13. fold (cached_paths s1). by rewrite P1. }
  split; [done|].
  erewrite new_events_app; [|rewrite T6, T5, T1, <- !app_assoc; reflexivity].
  rewrite !omap_app, omap_shell_decode_events, omap_shell_build_events, L5. simpl.
  destruct (decide (icon t ∈ cached_paths s5)), (loads_balloon_icon t),
    (Shell_NotifyIconA_ok env NIM_MODIFY s6), (g_tray_log_cb s5), (hmenu s5 =? 0);
    reflexivity.
Qed.

Lemma tray_init_succeeds_witness :
  0 < os_next_handle initial_state ∧ hmenu initial_state < os_next_handle initial_state ∧
  (tray_init add_only_env scenario initial_state).1 = 0 ∧
  omap shell_message (new_events initial_state
                        (tray_init add_only_env scenario initial_state).2) =
    [NIM_ADD; NIM_SETVERSION; NIM_MODIFY].
Proof.
  assert (H1 : 0 < os_next_handle initial_state) by (vm_compute; reflexivity).
  assert (H2 : hmenu initial_state < os_next_handle initial_state) by (vm_compute; reflexivity).
  split; [exact H1|]. split; [exact H2|].
  pose proof (tray_init_succeeds add_only_env scenario initial_state H1 H2
                (λ _, eq_refl) (λ _, eq_refl) (λ _, eq_refl)) as H.
  split; [exact (proj1 H)|]. apply H.
Defined.



(** ** Quitting *)

Lemma tray_loop_quit_first env fuel blocking s w l rest :
  os_queue s = Build_MSG WM_QUIT w l :: rest → (0 < fuel)%nat →
  ∃ s', tray_loop env fuel blocking s = Returned (-1) s' ∧ quiet s s' ∧
        hwnd s' = hwnd s ∧ os_windows s' = os_windows s.
Proof.
  intros Hq Hfuel. unfold tray_loop. destruct (truthy blocking).
  - unfold GetMessageA. destruct (GetMessageA_fails env s).
    + eexists. split; [reflexivity|]. simpl.
      destruct (tray_log_last_error_frame TRAY_LOG_ERROR "GetMessageA" s) as (_ & _ & _ & Q).
      split; [exact Q|]. unfold tray_log_last_error, tray_log. by destruct (g_tray_log_cb s).
    + rewrite Hq. simpl. eexists. split; [reflexivity|]. split; [|done].
      by apply quiet_same_trace.
  - destruct fuel as [|fuel]; [lia|]. simpl. unfold PeekMessageA. rewrite Hq. simpl.
    eexists. split; [reflexivity|]. split; [|done]. by apply quiet_same_trace.
Qed.

(** X10.  When the shell refuses to add the icon, [tray_init] destroys
    the window it created, and the window procedure answers that with a
    quit message: [tray_init] returns -1 with [hwnd] 0, no window more
    than before, and a quit message at the end of the queue, so that with
    nothing else in the queue the next [tray_loop] returns -1 in either
    mode. *)
Theorem tray_init_refused_posts_quit env t s :
  0 < os_next_handle s → (∀ h, h ∈ os_windows s → h < os_next_handle s) →
  (∀ s0, RegisterClassExA_ok env s0 = true) →
  (∀ s0, CreateWindowExA_ok env s0 = true) →
  (∀ s0, Shell_NotifyIconA_ok env NIM_ADD s0 = false) →
  let r := tray_init env t s in
  r.1 = -1 ∧ hwnd r.2 = 0 ∧ os_class r.2 = false ∧
  (∀ h, h ∈ os_windows r.2 ↔ h ∈ os_windows s) ∧
  os_queue r.2 = os_queue s ++ [Build_MSG WM_QUIT 0 0] ∧
  (os_queue s = [] → ∀ fuel blocking, (0 < fuel)%nat →
     ∃ s', tray_loop env fuel blocking r.2 = Returned (-1) s').
Proof.
  intros Hpos Hwins Hreg Hwin Hadd r.
  assert (E : ∃ s', tray_init env t s = (-1, s') ∧ hwnd s' = 0 ∧ os_class s' = false ∧
              (∀ h, h ∈ os_windows s' ↔ h ∈ os_windows s) ∧
              os_queue s' = os_queue s ++ [Build_MSG WM_QUIT 0 0]).
  { unfold tray_init.
    set (s1 := _init_icon_cache env (allIconPaths t)
                 (set_wm_taskbarcreated (RegisterWindowMessageA env "TaskbarCreated") s)).
    destruct (init_icon_cache_plain env (allIconPaths t)
                (set_wm_taskbarcreated (RegisterWindowMessageA env "TaskbarCreated") s))
      as (_ & _ & _ & _ & (_ & _ & _ & W4 & W5 & _) & _ & N1).
    fold s1 in W4, W5, N1. specialize (N1 Hpos). simpl in W4, W5, N1.
    unfold RegisterClassExA. rewrite Hreg. cbn [negb].
    unfold CreateWindowExA. rewrite Hwin. cbn zeta.
    destruct (Z.eqb_spec (os_next_handle (set_os_class true s1)) 0) as [E|_];
      [simpl in E; lia|].
    unfold Shell_NotifyIconA at 1. rewrite Hadd. cbn [negb fst snd].
    eexists. split; [reflexivity|].
    unfold tray_log_last_error, tray_log, UnregisterClassA, DestroyWindow, PostQuitMessage.
    assert (Hin : ∀ h (W : gset Z), bool_decide (h ∈ {[h]} ∪ W) = true).
    { intros h W. apply bool_decide_eq_true. apply elem_of_union. left.
      by apply elem_of_singleton. }
    simpl. destruct (g_tray_log_cb s1); simpl; rewrite Hin; simpl; rewrite W4, W5;
      (do 2 (split; [done|])); (split; [|done]); intros h;
      rewrite elem_of_difference, elem_of_union, !elem_of_singleton;
      (split; [intros [[->|?] ?]; done|]); intros Hh; (split; [by right|]);
      specialize (Hwins h Hh); lia. }
  destruct E as (s' & E0 & E2 & E3 & E4 & E5). subst r. rewrite E0. cbn [fst snd].
  do 5 (split; [done|]).
  intros Hq fuel blocking Hfuel. rewrite Hq in E5. simpl in E5.
  destruct (tray_loop_quit_first env fuel blocking s' 0 0 [] E5 Hfuel) as (s'' & H & _).
  by exists s''.
Qed.

Lemma tray_init_refused_posts_quit_witness :
  0 < os_next_handle initial_state ∧
  (∀ h, h ∈ os_windows initial_state → h < os_next_handle initial_state) ∧
  (tray_init no_shell_env scenario initial_state).1 = -1 ∧
  os_queue (tray_init no_shell_env scenario initial_state).2 =
    os_queue initial_state ++ [Build_MSG WM_QUIT 0 0].
Proof.
  assert (H1 : 0 < os_next_handle initial_state) by (vm_compute; reflexivity).
  assert (H2 : ∀ h, h ∈ os_windows initial_state → h < os_next_handle initial_state).
  { intros h Hh. change (os_windows initial_state) with (∅ : gset Z) in Hh.
    by apply not_elem_of_empty in Hh. }
  split; [exact H1|]. split; [exact H2|].
  pose proof (tray_init_refused_posts_quit no_shell_env scenario initial_state H1 H2
                (λ _, eq_refl) (λ _, eq_refl) (λ _, eq_refl)) as (A & _ & _ & _ & B & _).
  split; [exact A|exact B].
Defined.

(** X11.  [tray_exit] destroys the active menu and every icon in the
    cache, empties the cache and posts a quit message, at the end of the
    queue; it does not destroy the window: the window stays live, and
    [hwnd] and [hmenu] keep their values, [hmenu] now naming no menu.
    With nothing else in the queue the next [tray_loop] returns -1 in
    either mode. *)
Theorem tray_exit_releases env s :
  no_stray_menu s →
  let s' := tray_exit env s in
  os_menus s' = ∅ ∧ icon_infos s' = [] ∧
  (∀ h, h ∈ cache_handles s → h ∉ os_icons s') ∧
  os_windows s' = os_windows s ∧ hwnd s' = hwnd s ∧ hmenu s' = hmenu s ∧
  os_queue s' = os_queue s ++ [Build_MSG WM_QUIT 0 0] ∧
  (os_queue s = [] → ∀ fuel blocking, (0 < fuel)%nat →
     ∃ s'', tray_loop env fuel blocking s' = Returned (-1) s'' ∧
            hwnd s'' = hwnd s ∧ os_windows s'' = os_windows s).
Proof.
  intros Hs s'.
  destruct (tray_exit_spec env s) as (E1 & E2 & E3 & E4 & E5 & E6 & E7 & _).
  fold s' in E1, E2, E3, E4, E5, E6, E7.
  split.
  { rewrite E3. apply map_eq. intros k. rewrite lookup_empty.
    pose proof (no_stray_menu_dom s Hs) as Hdom.
    pose proof (no_stray_menu_null s Hs) as Hnull.
    destruct (Z.eqb_spec (hmenu s) 0) as [Hz|Hz].
    - destruct (decide (k = hmenu s)) as [->|Hk]; [by rewrite Hz|by apply Hdom].
    - destruct (decide (k = hmenu s)) as [->|Hk]; [by rewrite lookup_delete_eq|].
      rewrite lookup_delete_ne by done. by apply Hdom. }
  split; [done|]. split; [intros h Hh [_ Hn]%E2; done|]. do 4 (split; [done|]).
  intros Hq fuel blocking Hfuel. rewrite Hq in E4. simpl in E4.
  destruct (tray_loop_quit_first env fuel blocking s' 0 0 [] E4 Hfuel) as (s'' & H & _ & H1 & H2).
  exists s''. split; [done|]. split; congruence.
Qed.

Lemma tray_exit_releases_witness :
  no_stray_menu (tray_update quiet_env scenario initial_state) ∧
  os_menus (tray_exit quiet_env (tray_update quiet_env scenario initial_state)) = ∅.
Proof.
  assert (H0 : no_stray_menu initial_state).
  { split; [done|]. split; [done|]. intros h [x Hx].
    change (os_menus initial_state) with (∅ : gmap Z (list MENUITEM)) in Hx.
    by rewrite lookup_empty in Hx. }
  pose proof (tray_update_singleton quiet_env scenario initial_state H0) as (H1 & _).
  split; [exact H1|].
  exact (proj1 (tray_exit_releases quiet_env _ H1)).
Defined.

(** ** Commands after an update *)

Lemma LOWORD_small w : 0 ≤ w < 2 ^ 16 → LOWORD w = w ∧ HIWORD w = 0.
Proof.
  intros Hw. unfold LOWORD, HIWORD.
  change 0xFFFF with (Z.ones 16). rewrite !Z.land_ones by lia.
  rewrite Z.shiftr_div_pow2 by lia.
  rewrite (Z.div_small w) by lia. rewrite Z.mod_small by lia. done.
Qed.

(** X12.  From an item of the description to its command and back: after
    an update, the k-th item visited in post-order, when it is not a
    separator, is the one the command [ID_TRAY_FIRST + k] resolves to, and
    a [WM_COMMAND] with that identifier toggles it when it is a checkbox
    and calls its callback, once, with the item; the identifiers have to
    fit the low word the command travels in. *)
Theorem menu_command_round_trip env t m s k p n lparam :
  menu t = Some m → handles_fresh s →
  ID_TRAY_FIRST + Z.of_nat (length (postorder m)) ≤ 2 ^ 16 →
  postorder m !! k = Some (p, n) → text n ≠ "-" →
  let s' := tray_update env t s in
  let id := ID_TRAY_FIRST + Z.of_nat k in
  let s1 := toggle_checkbox p id s' in
  let n1 := if truthy (checkbox n) then set_checked (lnot (checked n)) n else n in
  resolve_command id s' = Some p ∧ deref p s' = Some n ∧ deref p s1 = Some n1 ∧
  _tray_wnd_proc env WM_COMMAND id lparam s' =
    match cb n with
    | Some f => call_menu_cb env f p (emit (EvMenuCallback f p n1) s1)
    | None => s1
    end.
Proof.
  intros Hm Hfresh Hfit Hk Htext s' id s1 n1.
  assert (Hfit' : ID_TRAY_FIRST + Z.of_nat (length (postorder m)) < 2 ^ 32) by lia.
  destruct (tray_menu_identifiers_support m Hfit') as (Hb & _).
  pose proof (number_from_lookup (postorder m) ID_TRAY_FIRST k p n Hk Htext) as Hin.
  rewrite <- Hb in Hin.
  destruct (tray_update_resolves env t m s p id Hm Hfresh Hfit' Hin) as (Hres & Hderef).
  fold s' in Hres, Hderef.
  assert (Hat : node_at m p = Some n).
  { apply postorder_node_at. by eapply list_elem_of_lookup_2. }
  rewrite Hat in Hderef.
  assert (Hk' : (k < length (postorder m))%nat) by (by eapply lookup_lt_Some).
  assert (Hid : 0 ≤ id < 2 ^ 16) by (subst id; unfold ID_TRAY_FIRST in *; lia).
  destruct (LOWORD_small id Hid) as (Hlo & Hhi).
  split; [done|]. split; [done|].
  change (_tray_wnd_proc env WM_COMMAND id lparam s') with (on_WM_COMMAND env id s').
  rewrite <- Hlo in Hres.
  destruct (on_WM_COMMAND_once env s' id p n Hhi Hres Hderef) as (H1 & H2).
  rewrite Hlo in H1, H2. done.
Qed.

Lemma menu_command_round_trip_witness :
  menu scenario = Some scenario_menu ∧ handles_fresh initial_state ∧
  postorder scenario_menu !! 2%nat =
    Some ([2%nat], Build_tray_menu "Toggle" 0 0 1 (Some 2%nat) 0 None) ∧
  resolve_command (ID_TRAY_FIRST + 2) (tray_update quiet_env scenario initial_state) =
    Some [2%nat].
Proof.
  assert (H1 : handles_fresh initial_state) by (vm_compute; reflexivity).
  assert (H2 : ID_TRAY_FIRST + Z.of_nat (length (postorder scenario_menu)) ≤ 2 ^ 16)
    by (vm_compute; discriminate).
  assert (H3 : postorder scenario_menu !! 2%nat =
               Some ([2%nat], Build_tray_menu "Toggle" 0 0 1 (Some 2%nat) 0 None))
    by (vm_compute; reflexivity).
  split; [reflexivity|]. split; [exact H1|]. split; [exact H3|].
  exact (proj1 (menu_command_round_trip quiet_env scenario scenario_menu initial_state
                  2 [2%nat] _ 0 eq_refl H1 H2 H3 ltac:(discriminate))).
Defined.

(** X13.  A command that is no identifier of the active menu's bound
    items is ignored: after an update, a [WM_COMMAND] whose high word is
    not 0, or whose low word is not among the identifiers handed out,
    leaves the state as it is and calls nothing.  While nothing wraps in
    the build, the identifiers handed out lie from [ID_TRAY_FIRST] up to
    the number of visited items. *)
Theorem unbound_command_ignored env t s wparam lparam :
  handles_fresh s →
  let s' := tray_update env t s in
  let built := (_tray_menu (menu t) ID_TRAY_FIRST).1 in
  HIWORD wparam ≠ 0 ∨ LOWORD wparam ∉ (bindings built).*2 →
  _tray_wnd_proc env WM_COMMAND wparam lparam s' = s' ∧
  (∀ m id, menu t = Some m →
     ID_TRAY_FIRST + Z.of_nat (length (postorder m)) < 2 ^ 32 →
     id < ID_TRAY_FIRST ∨ ID_TRAY_FIRST + Z.of_nat (length (postorder m)) ≤ id →
     id ∉ (bindings built).*2).
Proof.
  intros Hfresh s' built Hout. split.
  - change (_tray_wnd_proc env WM_COMMAND wparam lparam s') with (on_WM_COMMAND env wparam s').
    unfold on_WM_COMMAND. destruct (Z.eqb_spec (HIWORD wparam) 0) as [Hhi|Hhi]; [|done].
    destruct Hout as [Hout|Hout]; [done|].
    assert (Hres : resolve_command (LOWORD wparam) s' = None).
    { unfold resolve_command. subst s'. rewrite (tray_update_active_menu env t s Hfresh).
      fold built. destruct (GetMenuItemInfoA built (LOWORD wparam)) as [it|] eqn:Hget; [|done].
      destruct (dwItemData it) as [p|] eqn:Hp; [|done].
      destruct Hout. apply (GetMenuItemInfoA_elem built) in Hget as [Hin Hid].
      apply list_elem_of_fmap. exists (p, LOWORD wparam). split; [done|].
      apply elem_of_bindings. by exists it. }
    by rewrite Hres.
  - intros m id Hm Hfit Hrange Hin. subst built. rewrite Hm in Hin.
    destruct (tray_menu_identifiers_support m Hfit) as (Hb & _). rewrite Hb in Hin.
    apply list_elem_of_fmap in Hin as ([p id'] & -> & Hin).
    apply number_from_bounds in Hin. simpl in *. lia.
Qed.

Lemma unbound_command_ignored_witness :
  handles_fresh initial_state ∧
  (HIWORD 999 ≠ 0 ∨
   LOWORD 999 ∉ (bindings (_tray_menu (menu scenario) ID_TRAY_FIRST).1).*2) ∧
  _tray_wnd_proc quiet_env WM_COMMAND 999 0 (tray_update quiet_env scenario initial_state) =
    tray_update quiet_env scenario initial_state.
Proof.
  assert (H1 : handles_fresh initial_state) by (vm_compute; reflexivity).
  assert (H2 : HIWORD 999 ≠ 0 ∨
               LOWORD 999 ∉ (bindings (_tray_menu (menu scenario) ID_TRAY_FIRST).1).*2).
  { right. vm_compute. intros H. repeat (apply elem_of_cons in H as [H|H]; [discriminate|]).
    by apply elem_of_nil in H. }
  split; [exact H1|]. split; [exact H2|].
  exact (proj1 (unbound_command_ignored quiet_env scenario initial_state 999 0 H1 H2)).
Defined.

(** ** The native state of a toggled item *)

Lemma item_at_alter_eq f : ∀ np h it,
  item_at h np = Some it → item_at (item_alter f np h) np = Some (f it).
Proof.
  induction np as [|i np IH]; intros h it; [done|].
  destruct np as [|j np].
  - simpl. intros Hi. by rewrite list_lookup_alter_eq, Hi.
  - cbn [item_at item_alter].
    destruct (h !! i) as [x|] eqn:Hi; [|done].
    destruct (hSubMenu x) as [sub|] eqn:Hsub; [|done].
    intros Hat. rewrite list_lookup_alter_eq, Hi. simpl. rewrite Hsub. simpl.
    by apply IH.
Qed.

Lemma GetMenuItemInfoA_set_state h cmd v it :
  GetMenuItemInfoA h cmd = Some it →
  GetMenuItemInfoA (SetMenuItemInfoA_state h cmd v) cmd = Some (set_fState v it).
Proof.
  unfold GetMenuItemInfoA, SetMenuItemInfoA_state.
  destruct (MNLookUpItem cmd h) as [np|] eqn:Hnp; [|done].
  intros Hat. rewrite MNLookUpItem_item_alter_state, Hnp.
  by apply item_at_alter_eq.
Qed.

(** X14.  Toggling a checkbox writes the whole state of the native item:
    it becomes [MFS_CHECKED] when the item is now checked and 0 when it is
    not, so that the disabled state the builder gave the item is gone
    after the first toggle; identifier, text, item data and submenu stay.
    The description's item is toggled with it. *)
Theorem toggle_checkbox_native_state s h cmd it p n :
  active_menu s = Some h → GetMenuItemInfoA h cmd = Some it →
  dwItemData it = Some p → deref p s = Some n → truthy (checkbox n) = true →
  let s1 := toggle_checkbox p cmd s in
  let state := if truthy (checked n) then 0 else MFS_CHECKED in
  ∃ h1, active_menu s1 = Some h1 ∧
        GetMenuItemInfoA h1 cmd = Some (set_fState state it) ∧
        deref p s1 = Some (set_checked (lnot (checked n)) n) ∧
        Z.land state MFS_DISABLED = 0 ∧
        (truthy (checked (set_checked (lnot (checked n)) n)) = true ↔ state = MFS_CHECKED).
Proof.
  intros Hact Hget Hp Hn Hbox s1 state.
  assert (Hs1 : s1 = let s0 := store p (set_checked (lnot (checked n))) s in
                     set_os_menus (<[hmenu s0 :=
                       SetMenuItemInfoA_state h cmd
                         (if truthy (lnot (checked n)) then MFS_CHECKED else 0)]> (os_menus s0)) s0).
  { subst s1. unfold toggle_checkbox. rewrite Hn, Hbox.
    destruct (store_menus p (set_checked (lnot (checked n))) s) as (Hh & Hm & _).
    unfold active_menu in *. by rewrite Hh, Hm, Hact. }
  assert (Hstate : (if truthy (lnot (checked n)) then MFS_CHECKED else 0) = state).
  { subst state. unfold truthy, lnot. by destruct (checked n =? 0). }
  rewrite Hstate in Hs1.
  exists (SetMenuItemInfoA_state h cmd state). split.
  { rewrite Hs1. unfold active_menu. simpl. by rewrite lookup_insert_eq. }
  split; [by apply GetMenuItemInfoA_set_state|].
  split; [by apply toggle_checkbox_deref|].
  subst state. simpl. unfold truthy, lnot. destruct (checked n =? 0); simpl; by split.
Qed.

Lemma toggle_checkbox_native_state_witness :
  let t := Build_tray "a.ico" None None None None None
             (Some [Build_tray_menu "Toggle" 1 1 1 None 0 None]) [] in
  let s := tray_update quiet_env t initial_state in
  let it := Build_MENUITEM 0 (Z.lor MFS_DISABLED MFS_CHECKED) ID_TRAY_FIRST None "Toggle"
              (Some [0%nat]) in
  GetMenuItemInfoA (default [] (active_menu s)) ID_TRAY_FIRST = Some it ∧
  ∃ h1, active_menu (toggle_checkbox [0%nat] ID_TRAY_FIRST s) = Some h1 ∧
        GetMenuItemInfoA h1 ID_TRAY_FIRST = Some (set_fState 0 it).
Proof.
  intros t s it.
  assert (H1 : active_menu s = Some [it]) by (vm_compute; reflexivity).
  assert (H2 : GetMenuItemInfoA [it] ID_TRAY_FIRST = Some it) by (vm_compute; reflexivity).
  split; [by rewrite H1|].
  destruct (toggle_checkbox_native_state s [it] ID_TRAY_FIRST it [0%nat]
              (Build_tray_menu "Toggle" 1 1 1 None 0 None) H1 H2 eq_refl
              ltac:(vm_compute; reflexivity) eq_refl) as (h1 & A & B & _).
  exists h1. split; [exact A|exact B].
Defined.

(** ** The balloon's callback *)

(** X15.  A click on the balloon calls the callback of the latest update,
    whether or not that update showed a balloon, and nothing when that
    description has none: the message then leaves the state as it is. *)
Theorem balloon_click_calls_latest env t s wparam lparam :
  LOWORD lparam = NIN_BALLOONUSERCLICK →
  let s' := tray_update env t s in
  g_notification_cb s' = notification_cb t ∧
  _tray_wnd_proc env WM_TRAY_CALLBACK_MESSAGE wparam lparam s' =
    match notification_cb t with
    | Some f => call_notification_cb env f (emit (EvNotificationCallback f) s')
    | None => s'
    end.
Proof.
  intros Hl s'.
  assert (G : g_notification_cb s' = notification_cb t).
  { subst s'. rewrite tray_update_eq.
    destruct (destroy_prevmenu_resources (hmenu s)
      (apply_notify_icon env t (run_steps (take 3 (tray_update_steps env t (hmenu s))) s)))
      as (_ & _ & _ & _ & _ & _ & ->).
    by destruct (apply_notify_icon_spec env t
      (run_steps (take 3 (tray_update_steps env t (hmenu s))) s)) as (_ & _ & _ & _ & -> & _). }
  split; [exact G|].
  unfold _tray_wnd_proc. rewrite Hl.
  change (WM_TRAY_CALLBACK_MESSAGE =? WM_CLOSE) with false.
  change (WM_TRAY_CALLBACK_MESSAGE =? WM_DESTROY) with false.
  change (WM_TRAY_CALLBACK_MESSAGE =? WM_COMMAND) with false.
  change (WM_TRAY_CALLBACK_MESSAGE =? WM_TRAY_CALLBACK_MESSAGE) with true.
  change (is_tray_click NIN_BALLOONUSERCLICK) with false.
  change (NIN_BALLOONUSERCLICK =? NIN_BALLOONUSERCLICK) with true.
  cbn [andb]. unfold on_balloon_click. by rewrite G.
Qed.

Lemma balloon_click_calls_latest_witness :
  LOWORD NIN_BALLOONUSERCLICK = NIN_BALLOONUSERCLICK ∧
  g_notification_cb (tray_update quiet_env scenario initial_state) = notification_cb scenario.
Proof.
  assert (H : LOWORD NIN_BALLOONUSERCLICK = NIN_BALLOONUSERCLICK) by (vm_compute; reflexivity).
  split; [exact H|].
  exact (proj1 (balloon_click_calls_latest quiet_env scenario initial_state 0
                  NIN_BALLOONUSERCLICK H)).
Defined.

(** ** Closing the window *)



(** ** What the items of a built menu carry *)

Lemma mirrors_set_hSubMenu l s it : mirrors l it → mirrors l (set_hSubMenu s it).
Proof. done. Qed.

Lemma mirrors_separator l : mirrors l separator_item.
Proof. done. Qed.

Lemma tray_menu_for_mirrors m :
  Forall body_mirrors m →
  ∀ l addr i acc id,
    walk_for postorder_node addr i m ⊆ l → Forall (mirrors l) (all_items acc) →
    Forall (mirrors l) (all_items (_tray_menu_for _tray_menu_body addr i m acc id).1).
Proof.
  induction 1 as [|n rest Hn _ IH]; intros l addr i acc id Hsub Hacc; simpl in *; [done|].
  specialize (Hn l (addr ++ [i]) acc id).
  destruct (_tray_menu_body (addr ++ [i]) n acc id) as [hmenu' id'].
  apply IH.
  - intros x Hx. apply Hsub. apply elem_of_app. by right.
  - apply Hn; [|done]. intros x Hx. apply Hsub. apply elem_of_app. by left.
Qed.

Lemma tray_menu_body_mirrors n : body_mirrors n.
Proof.
  induction n as [n IH] using tray_menu_nested_ind.
  intros l p acc id Hsub Hacc. rewrite tray_menu_body_eq.
  rewrite postorder_node_eq in Hsub.
  destruct (decide (text n = "-")) as [Hsep|Hsep]; simpl.
  - apply Forall_InsertMenuA_separator; [apply mirrors_set_hSubMenu|done|done].
  - assert (Hself : (p, n) ∈ l).
    { apply Hsub. apply elem_of_app. right. by left. }
    destruct (submenu n) as [s|] eqn:Hs.
    + pose proof (tray_menu_for_mirrors s (IH _ eq_refl) l p 0%nat [] id) as Hs'.
      destruct (_tray_menu_for _tray_menu_body p 0 s [] id) as [h id1]. simpl in *.
      apply Forall_InsertMenuItemA; [done|].
      rewrite all_items_singleton, all_items_below_eq. simpl.
      apply Forall_app. split.
      * apply Hs'; [|constructor]. intros x Hx. apply Hsub. apply elem_of_app. by left.
      * repeat constructor. by exists n.
    + simpl. apply Forall_InsertMenuItemA; [done|].
      repeat constructor. by exists n.
Qed.

(** X17.  Every item of a built menu, at any depth, is a separator
    without identifier and item data, or an item of type 0 whose text is
    the text of the description's item its item data leads to, not a
    separator, and whose state is [MFS_DISABLED] when that item is
    disabled, with [MFS_CHECKED] when it is checked.  This holds whether
    or not the identifiers wrap. *)
Theorem tray_menu_items_mirror m id it :
  it ∈ all_items (_tray_menu (Some m) id).1 →
  match dwItemData it with
  | Some p => ∃ n, node_at m p = Some n ∧ text n ≠ "-" ∧ fType it = 0 ∧
                   dwTypeData it = text n ∧
                   fState it = Z.lor (if truthy (disabled n) then MFS_DISABLED else 0)
                                     (if truthy (checked n) then MFS_CHECKED else 0)
  | None => fType it = MF_SEPARATOR ∧ fState it = 0 ∧ wID it = 0
  end.
Proof.
  intros Hin.
  pose proof (tray_menu_for_mirrors m) as H.
  specialize (H ltac:(apply Forall_forall; intros; apply tray_menu_body_mirrors)).
  specialize (H (postorder m) [] 0%nat [] id ltac:(done) ltac:(constructor)).
  rewrite Forall_forall in H. specialize (H _ Hin). unfold mirrors in H.
  destruct (dwItemData it) as [p|]; [|done].
  destruct H as (n & Hn & Htext & Hty & Hst & Htx).
  exists n. split; [by apply postorder_node_at|]. do 3 (split; [done|]).
  rewrite Hst. unfold state_bits. by destruct (truthy (disabled n)), (truthy (checked n)).
Qed.

Lemma tray_menu_items_mirror_witness :
  let it := Build_MENUITEM 0 0 ID_TRAY_FIRST None "Open" (Some [0%nat; 0%nat]) in
  it ∈ all_items (_tray_menu (Some nested_menu) ID_TRAY_FIRST).1 ∧
  ∃ n, node_at nested_menu [0%nat; 0%nat] = Some n ∧ dwTypeData it = text n.
Proof.
  intros it.
  assert (H : it ∈ all_items (_tray_menu (Some nested_menu) ID_TRAY_FIRST).1).
  { vm_compute. left. }
  split; [exact H|].
  destruct (tray_menu_items_mirror nested_menu ID_TRAY_FIRST it H) as (n & A & _ & _ & B & _).
  exists n. split; [exact A|exact B].
Defined.

(** ** [safe_copy_sz] *)

(** X18.  [safe_copy_sz] stays within the [dstcch] characters it is given:
    the array keeps its length and the characters from [dstcch] on are
    untouched.  With [dstcch] 0 nothing is written.  With a count from 1
    to [STRSAFE_MAX_CCH], or with a NULL source, there is a NUL among the
    first [dstcch] characters afterwards and the string held is the source
    cut to [dstcch - 1] characters, empty for a NULL source.  A count above
    [STRSAFE_MAX_CCH] with a source is refused by [StringCchCopyA], and
    the array is left as it was. *)
Theorem safe_copy_sz_bounds dst dstcch src :
  (dstcch ≤ length dst)%nat →
  let r := safe_copy_sz dst dstcch src in
  length r = length dst ∧ drop dstcch r = drop dstcch dst ∧
  (dstcch = 0%nat → r = dst) ∧
  ((0 < dstcch)%nat → Z.of_nat dstcch ≤ STRSAFE_MAX_CCH ∨ src = None →
     NUL ∈ take dstcch r ∧
     c_str r = take (dstcch - 1)
                 (c_str (match src with
                         | Some s => String.list_ascii_of_string s
                         | None => []
                         end))) ∧
  (STRSAFE_MAX_CCH < Z.of_nat dstcch → is_Some src → r = dst).
Proof.
  intros Hlen r. subst r. unfold safe_copy_sz.
  destruct (decide (dstcch = 0%nat)) as [->|Hnz].
  { split; [done|]. split; [done|]. split; [done|]. split; [lia|done]. }
  destruct src as [s|].
  - destruct (Z.le_gt_cases (Z.of_nat dstcch) STRSAFE_MAX_CCH) as [Hmax|Hmax].
    + rewrite StringCchCopyA_accepted by (done || lia).
      set (copied := take (dstcch - 1) (String.list_ascii_of_string s)).
      assert (Hc : (length copied ≤ dstcch - 1)%nat).
      { subst copied. rewrite length_take. lia. }
      split.
      { rewrite length_app. simpl. rewrite length_drop. lia. }
      split.
      { rewrite drop_app_ge by lia.
        destruct (dstcch - length copied)%nat as [|k] eqn:Hk; [lia|]. simpl.
        rewrite drop_drop. f_equal. lia. }
      split; [done|]. split; [|lia]. intros _ _. split.
      * rewrite take_app_ge by lia.
        destruct (dstcch - length copied)%nat as [|k] eqn:Hk; [lia|]. simpl.
        apply elem_of_app. right. by left.
      * subst copied. by rewrite c_str_app_NUL, c_str_take.
    + rewrite StringCchCopyA_refused by (right; lia).
      split; [done|]. split; [done|]. split; [done|]. split; [|done].
      intros _ [?|[=]]. lia.
  - destruct dst as [|c dst]; [simpl in Hlen; lia|]. simpl.
    split; [done|]. split.
    { destruct dstcch as [|k]; [done|]. done. }
    split; [done|]. split; [|by intros _ [? [=]]]. intros _ _. split.
    + destruct dstcch as [|k]; [done|]. simpl. by left.
    + by rewrite take_nil.
Qed.

Lemma safe_copy_sz_bounds_witness :
  (4 ≤ length (replicate 6 "x"%char))%nat ∧
  safe_copy_sz (replicate 6 "x"%char) 4 (Some "abcdefgh") =
    ["a"; "b"; "c"; NUL; "x"; "x"]%char ∧
  drop 4 (safe_copy_sz (replicate 6 "x"%char) 4 (Some "abcdefgh")) =
    drop 4 (replicate 6 "x"%char).
Proof.
  assert (H : (4 ≤ length (replicate 6 "x"%char))%nat) by (vm_compute; lia).
  split; [exact H|]. split; [reflexivity|].
  exact (proj1 (proj2 (safe_copy_sz_bounds (replicate 6 "x"%char) 4 (Some "abcdefgh") H))).
Defined.

(** ** The text of [tray_log_last_error] *)

Lemma trim_line_ends_spec chars : ∀ pad,
  ∃ kept cut,
    chars = kept ++ cut ∧ Forall (λ c, is_line_end c = true) cut ∧
    (∀ c, last kept = Some c → is_line_end c = false) ∧
    trim_line_ends (chars ++ replicate pad NUL) (length chars) =
      (kept ++ replicate (length cut + pad) NUL, length kept).
Proof.
  induction chars as [|c chars IH] using rev_ind; intros pad.
  - exists [], []. simpl. split; [done|]. split; [done|]. split; [done|]. done.
  - rewrite length_app. simpl. rewrite Nat.add_1_r. cbn [trim_line_ends].
    rewrite <- app_assoc. simpl.
    rewrite (list_lookup_middle chars (replicate pad NUL) c (length chars) eq_refl). simpl.
    destruct (is_line_end c) eqn:Hc.
    + destruct (IH (S pad)) as (kept & cut & Hsplit & Hcut & Hlast & Htrim).
      exists kept, (cut ++ [c]). split; [by rewrite Hsplit, app_assoc|].
      split; [apply Forall_app; split; [done|by repeat constructor]|].
      split; [done|].
      replace (<[length chars := NUL]> (chars ++ c :: replicate pad NUL))
        with (chars ++ replicate (S pad) NUL).
      2:{ rewrite insert_app_r_alt by lia. by rewrite Nat.sub_diag. }
      rewrite Htrim. rewrite length_app. simpl. do 3 f_equal. lia.
    + exists (chars ++ [c]), []. rewrite app_nil_r. split; [done|]. split; [done|].
      split.
      { intros c'. rewrite last_snoc. by intros [= <-]. }
      rewrite length_app. simpl. rewrite Nat.add_1_r, <- app_assoc. done.
Qed.

Lemma c_str_no_NUL chars rest :
  Forall (λ c, c ≠ NUL) chars → c_str (chars ++ rest) = chars ++ c_str rest.
Proof.
  induction 1 as [|c chars Hc _ IH]; [done|]. simpl.
  destruct (Ascii.eqb_spec c NUL) as [->|_]; [done|]. by rewrite IH.
Qed.

(** X19.  The message [tray_log_last_error] passes on is the system's
    message without the line ends at its end: the loop cuts exactly the
    longest run of line feeds and carriage returns the message ends in
    and shortens [len] by as much.  There is a message text whenever the
    system gave one character, so a message of line ends alone is passed
    on as the empty text. *)
Theorem tray_log_last_error_trims chars pad :
  Forall (λ c, c ≠ NUL) chars → (0 < pad)%nat →
  let message := chars ++ replicate pad NUL in
  ∃ kept cut,
    chars = kept ++ cut ∧ Forall (λ c, is_line_end c = true) cut ∧
    (∀ c, last kept = Some c → is_line_end c = false) ∧
    (trim_line_ends message (length chars)).2 = length kept ∧
    c_str (trim_line_ends message (length chars)).1 = kept ∧
    last_error_message message (length chars) =
      (if decide (chars = []) then None else Some kept).
Proof.
  intros Hchars Hpad message.
  destruct (trim_line_ends_spec chars pad) as (kept & cut & Hsplit & Hcut & Hlast & Htrim).
  fold message in Htrim.
  assert (Hkept : c_str (kept ++ replicate (length cut + pad) NUL) = kept).
  { rewrite c_str_no_NUL.
    - destruct (length cut + pad)%nat as [|k] eqn:Hk; [lia|]. simpl. by rewrite app_nil_r.
    - rewrite Hsplit in Hchars. by apply Forall_app in Hchars as [? _]. }
  exists kept, cut. do 3 (split; [done|]). rewrite Htrim. simpl.
  split; [done|]. split; [done|].
  unfold last_error_message. rewrite Htrim. simpl. rewrite Hkept.
  destruct chars as [|c chars].
  - by destruct (decide (@nil ascii = [])).
  - destruct (decide (c :: chars = [])) as [|_]; [done|].
    apply Forall_cons in Hchars as [Hc _]. simpl.
    destruct (Ascii.eqb_spec c NUL) as [->|_]; done.
Qed.

Lemma tray_log_last_error_trims_witness :
  let chars := ["O"; "K"; "."; "013"; "010"]%char in
  Forall (λ c, c ≠ NUL) chars ∧ (0 < 3)%nat ∧
  ∃ kept cut,
    chars = kept ++ cut ∧
    last_error_message (chars ++ replicate 3 NUL) (length chars) =
      (if decide (chars = []) then None else Some kept).
Proof.
  intros chars.
  assert (H1 : Forall (λ c, c ≠ NUL) chars) by (repeat constructor; discriminate).
  assert (H2 : (0 < 3)%nat) by lia.
  split; [exact H1|]. split; [exact H2|].
  destruct (tray_log_last_error_trims chars 3 H1 H2) as (kept & cut & A & _ & _ & _ & _ & B).
  exists kept, cut. split; [exact A|exact B].
Defined.

(** ** Clicks on the icon *)

(** X20.  A click on the icon tracks the popup menu and always posts
    [WM_NULL] afterwards.  When the user picks nothing, nothing else
    happens; when the user picks the k-th visited item of the latest
    update, the command is handled before the message is posted: the
    item is toggled when it is a checkbox and its callback runs once. *)
Theorem tray_click_dispatches env t m s k p n wparam lparam :
  menu t = Some m → handles_fresh s →
  ID_TRAY_FIRST + Z.of_nat (length (postorder m)) ≤ 2 ^ 16 →
  postorder m !! k = Some (p, n) → text n ≠ "-" →
  is_tray_click (LOWORD lparam) = true →
  let s' := tray_update env t s in
  let id := ID_TRAY_FIRST + Z.of_nat k in
  let tracked := emit (EvTrackPopupMenu (hmenu s')) s' in
  let s1 := toggle_checkbox p id (emit (EvSendMessage WM_COMMAND id 0) tracked) in
  let n1 := if truthy (checkbox n) then set_checked (lnot (checked n)) n else n in
  (TrackPopupMenu env tracked = 0 →
     _tray_wnd_proc env WM_TRAY_CALLBACK_MESSAGE wparam lparam s' =
       PostMessage WM_NULL 0 0 tracked) ∧
  (TrackPopupMenu env tracked = id →
     _tray_wnd_proc env WM_TRAY_CALLBACK_MESSAGE wparam lparam s' =
       PostMessage WM_NULL 0 0
         match cb n with
         | Some f => call_menu_cb env f p (emit (EvMenuCallback f p n1) s1)
         | None => s1
         end).
Proof.
  intros Hm Hfresh Hfit Hk Htext Hclick s' id tracked s1 n1.
  assert (E : _tray_wnd_proc env WM_TRAY_CALLBACK_MESSAGE wparam lparam s' =
              on_tray_click env s').
  { unfold _tray_wnd_proc. rewrite Hclick. reflexivity. }
  rewrite E. unfold on_tray_click. fold tracked. split.
  - intros ->. reflexivity.
  - intros ->.
    assert (Hfit' : ID_TRAY_FIRST + Z.of_nat (length (postorder m)) < 2 ^ 32) by lia.
    destruct (tray_menu_identifiers_support m Hfit') as (Hb & _).
    pose proof (number_from_lookup (postorder m) ID_TRAY_FIRST k p n Hk Htext) as Hin.
    rewrite <- Hb in Hin.
    destruct (tray_update_resolves env t m s p id Hm Hfresh Hfit' Hin) as (Hres & Hderef).
    fold s' in Hres, Hderef.
    assert (Hat : node_at m p = Some n).
    { apply postorder_node_at. by eapply list_elem_of_lookup_2. }
    rewrite Hat in Hderef.
    assert (Hk' : (k < length (postorder m))%nat) by (by eapply lookup_lt_Some).
    assert (Hid : 0 ≤ id < 2 ^ 16) by (subst id; unfold ID_TRAY_FIRST in *; lia).
    destruct (LOWORD_small id Hid) as (Hlo & Hhi).
    rewrite Hlo.
    assert (Hnz : truthy id = true).
    { unfold truthy. destruct (Z.eqb_spec id 0); [|done]. subst id.
      unfold ID_TRAY_FIRST in *. lia. }
    rewrite Hnz.
    set (sent := emit (EvSendMessage WM_COMMAND id 0) tracked).
    assert (K : keeps_menus s' sent) by done.
    assert (Hres' : resolve_command (LOWORD id) sent = Some p).
    { rewrite Hlo. by rewrite (keeps_menus_resolve id s' sent K). }
    assert (Hderef' : deref p sent = Some n).
    { by rewrite (keeps_menus_deref p s' sent K). }
    destruct (on_WM_COMMAND_once env sent id p n Hhi Hres' Hderef') as (_ & H2).
    rewrite Hlo in H2. by rewrite H2.
Qed.

Lemma tray_click_dispatches_witness :
  menu scenario = Some scenario_menu ∧ handles_fresh initial_state ∧
  is_tray_click (LOWORD WM_RBUTTONUP) = true ∧
  (TrackPopupMenu quiet_env
     (emit (EvTrackPopupMenu (hmenu (tray_update quiet_env scenario initial_state)))
        (tray_update quiet_env scenario initial_state)) = 0 →
   _tray_wnd_proc quiet_env WM_TRAY_CALLBACK_MESSAGE 0 WM_RBUTTONUP
     (tray_update quiet_env scenario initial_state) =
   PostMessage WM_NULL 0 0
     (emit (EvTrackPopupMenu (hmenu (tray_update quiet_env scenario initial_state)))
        (tray_update quiet_env scenario initial_state))).
Proof.
  assert (H1 : handles_fresh initial_state) by (vm_compute; reflexivity).
  assert (H2 : ID_TRAY_FIRST + Z.of_nat (length (postorder scenario_menu)) ≤ 2 ^ 16)
    by (vm_compute; discriminate).
  assert (H3 : postorder scenario_menu !! 2%nat =
               Some ([2%nat], Build_tray_menu "Toggle" 0 0 1 (Some 2%nat) 0 None))
    by (vm_compute; reflexivity).
  assert (H4 : is_tray_click (LOWORD WM_RBUTTONUP) = true) by (vm_compute; reflexivity).
  split; [reflexivity|]. split; [exact H1|]. split; [exact H4|].
  exact (proj1 (tray_click_dispatches quiet_env scenario scenario_menu initial_state
                  2 [2%nat] _ 0 WM_RBUTTONUP eq_refl H1 H2 H3 ltac:(discriminate) H4)).
Defined.

(** X21.  The restart of the taskbar is recognised by comparing the
    message with [wm_taskbarcreated] and nothing else: while that is 0,
    as it is when the registration of the message failed, [WM_NULL] is
    taken for the restart, and the icon is added again.  [WM_NULL] is
    what every click on the icon posts.  [tray_init] stores the result of
    the registration without looking at it.  With a registered message
    [WM_NULL] goes to [DefWindowProc]. *)
Theorem null_message_taken_for_restart env s wparam lparam :
  wm_taskbarcreated s = 0 →
  let s' := _tray_wnd_proc env WM_NULL wparam lparam s in
  s' = on_taskbar_created env s ∧
  (∃ n1 n2 rest, new_events s s' = EvShell_NotifyIconA NIM_ADD n1 ::
                                   EvShell_NotifyIconA NIM_SETVERSION n2 :: rest) ∧
  (∀ click, last (os_queue (on_tray_click env click)) = Some (Build_MSG WM_NULL 0 0)) ∧
  (∀ t s0, wm_taskbarcreated (tray_init env t s0).2 =
           RegisterWindowMessageA env "TaskbarCreated") ∧
  (∀ s0, wm_taskbarcreated s0 ≠ 0 →
     _tray_wnd_proc env WM_NULL wparam lparam s0 = DefWindowProc WM_NULL wparam lparam s0).
Proof.
  intros Hz s'.
  assert (E : s' = on_taskbar_created env s).
  { subst s'. unfold _tray_wnd_proc. rewrite Hz. reflexivity. }
  split; [exact E|]. split.
  { rewrite E. unfold on_taskbar_created.
    destruct (readd_icon_spec env s) as (T & (G & _) & _).
    destruct (g_tray (readd_icon env s)) as [t|] eqn:Ht.
    - pose proof (tray_update_spec env t (rebuild_menu t (readd_icon env s)))
        as (_ & _ & _ & _ & _ & _ & _ & (evs & Hevs & _) & _).
      destruct (rebuild_menu_spec t (readd_icon env s)) as (T2 & _).
      eexists _, _, _. apply new_events_app. rewrite Hevs, T2, T.
      rewrite <- !app_assoc. simpl. reflexivity.
    - eexists _, _, []. apply new_events_app. exact T. }
  split.
  { intros click. unfold on_tray_click, PostMessage. simpl. by rewrite last_snoc. }
  split.
  2:{ intros s0 Hs0. unfold _tray_wnd_proc.
      change (WM_NULL =? WM_CLOSE) with false. change (WM_NULL =? WM_DESTROY) with false.
      change (WM_NULL =? WM_COMMAND) with false.
      change (WM_NULL =? WM_TRAY_CALLBACK_MESSAGE) with false. cbn [andb].
      destruct (Z.eqb_spec WM_NULL (wm_taskbarcreated s0)) as [E0|_]; [|done].
      by destruct Hs0. }
  intros t s0. unfold tray_init.
  set (s1 := _init_icon_cache env (allIconPaths t)
               (set_wm_taskbarcreated (RegisterWindowMessageA env "TaskbarCreated") s0)).
  assert (W1 : wm_taskbarcreated s1 = RegisterWindowMessageA env "TaskbarCreated").
  { destruct (init_icon_cache_plain env (allIconPaths t)
        (set_wm_taskbarcreated (RegisterWindowMessageA env "TaskbarCreated") s0))
      as (_ & _ & _ & _ & (_ & W & _) & _). exact W. }
  unfold RegisterClassExA, CreateWindowExA, Shell_NotifyIconA, tray_log_last_error, tray_log,
    UnregisterClassA, DestroyWindow, PostQuitMessage.
  destruct (RegisterClassExA_ok env s1); cbn [negb];
    [|simpl; by destruct (g_tray_log_cb s1)].
  destruct (CreateWindowExA_ok env (set_os_class true s1)); cbn zeta;
    [|simpl; by destruct (g_tray_log_cb s1)].
  destruct (os_next_handle (set_os_class true s1) =? 0);
    [simpl; by destruct (g_tray_log_cb s1)|].
  match goal with |- context [Shell_NotifyIconA_ok env NIM_ADD ?s0] =>
    destruct (Shell_NotifyIconA_ok env NIM_ADD s0) end; cbn [negb fst snd].
  - match goal with |- wm_taskbarcreated (tray_update env t ?s5) = _ =>
      destruct (tray_update_keeps_window env t s5) as (_ & -> & _) end.
    match goal with |- context [Shell_NotifyIconA_ok env NIM_SETVERSION ?s0] =>
      destruct (Shell_NotifyIconA_ok env NIM_SETVERSION s0) end; simpl;
      [done|by destruct (g_tray_log_cb s1)].
  - simpl. destruct (g_tray_log_cb s1); simpl;
      by destruct (bool_decide _).
Qed.

Lemma null_message_taken_for_restart_witness :
  wm_taskbarcreated (tray_update quiet_env scenario initial_state) = 0 ∧
  _tray_wnd_proc quiet_env WM_NULL 0 0 (tray_update quiet_env scenario initial_state) =
    on_taskbar_created quiet_env (tray_update quiet_env scenario initial_state).
Proof.
  assert (H : wm_taskbarcreated (tray_update quiet_env scenario initial_state) = 0)
    by (vm_compute; reflexivity).
  split; [exact H|].
  exact (proj1 (null_message_taken_for_restart quiet_env
                  (tray_update quiet_env scenario initial_state) 0 0 H)).
Defined.

(** ** The icon handed to the shell *)

Section shown_icon.
Variable env : Environment.

Lemma update_tip_hIcon t flags s :
  hIcon (nid (update_tip env t flags s).2) = hIcon (nid s).
Proof. unfold update_tip. by destruct (has_chars (tooltip t)). Qed.

Lemma update_info_hIcon t flags s :
  hIcon (nid (update_info env t flags s).2) = hIcon (nid s).
Proof.
  unfold update_info.
  destruct (has_chars (notification_title t) || has_chars (notification_text t)); [|done].
  destruct (has_chars (notification_icon t)); simpl.
  - unfold decode_icon.
    destruct (icon_decodes env (default EmptyString (notification_icon t)) NOTIFICATION);
      simpl; by destruct (defined_NIIF_LARGE_ICON env && truthy _).
  - by destruct (defined_NIIF_LARGE_ICON env && truthy _).
Qed.

Lemma apply_notify_icon_hIcon t s :
  hIcon (nid (apply_notify_icon env t s)) =
  (if truthy (_fetch_icon env (icon t) REGULAR s).1
   then (_fetch_icon env (icon t) REGULAR s).1 else hIcon (nid s)).
Proof.
  unfold apply_notify_icon.
  destruct (fetch_icon_frame env (icon t) REGULAR s) as (N1 & _).
  destruct (_fetch_icon env (icon t) REGULAR s) as [h s1]. simpl in N1. cbn [fst].
  set (flags1 := if truthy h then Z.lor (Z.lor NIF_MESSAGE NIF_GUID) NIF_ICON
                 else Z.lor NIF_MESSAGE NIF_GUID).
  set (s2 := if truthy h then upd_nid (set_hIcon h) s1 else s1).
  replace (if truthy h then (Z.lor (Z.lor NIF_MESSAGE NIF_GUID) NIF_ICON, upd_nid (set_hIcon h) s1)
           else (Z.lor NIF_MESSAGE NIF_GUID, s1)) with (flags1, s2)
    by (subst flags1 s2; by destruct (truthy h)).
  assert (H2 : hIcon (nid s2) = if truthy h then h else hIcon (nid s)).
  { subst s2. destruct (truthy h); simpl; [done|by rewrite N1]. }
  pose proof (update_tip_hIcon t flags1 s2) as H3.
  destruct (update_tip env t flags1 s2) as [flags2 s3]. simpl in H3.
  pose proof (update_info_hIcon t flags2 s3) as H4.
  destruct (update_info env t flags2 s3) as [flags3 s4]. simpl in H4.
  unfold Shell_NotifyIconA, tray_log_last_error, tray_log. simpl.
  destruct (Shell_NotifyIconA_ok env NIM_MODIFY _); simpl; [congruence|].
  destruct (g_tray_log_cb s4); simpl; congruence.
Qed.

Lemma fetch_icon_entry path kind s :
  let r := _fetch_icon env path kind s in
  ∃ e, e ∈ icon_infos r.2 ∧ icon_info.path e = path ∧ r.1 = _fetch_cached_icon e kind.
Proof.
  unfold _fetch_icon. destruct (find_cached path (icon_infos s)) as [e|] eqn:Hfind; simpl.
  - apply find_cached_Some in Hfind as [He Hp]. by exists e.
  - pose proof (create_icon_info_path env path s) as Hp.
    destruct (_create_icon_info env path s) as [info s1]. simpl in *.
    exists info. split; [|done]. apply elem_of_app. right. by left.
Qed.
End shown_icon.

(** X22.  The icon an update hands to the shell is the regular-size
    handle of a cache entry for the description's icon path, and it is a
    live icon as long as the handles in the cache were live before; when
    the file gave no such image the record keeps the icon it had.  The
    handles in the cache are live after the update as well. *)
Theorem tray_update_shows_cached_icon env t s :
  0 < os_next_handle s → (∀ h, h ∈ cache_handles s → h ∈ os_icons s) →
  let s' := tray_update env t s in
  (∃ e, e ∈ icon_infos s' ∧ icon_info.path e = icon t ∧
        (icon_info.icon e ≠ 0 →
           hIcon (nid s') = icon_info.icon e ∧ hIcon (nid s') ∈ os_icons s') ∧
        (icon_info.icon e = 0 → hIcon (nid s') = hIcon (nid s))) ∧
  (∀ h, h ∈ cache_handles s' → h ∈ os_icons s').
Proof.
  intros Hpos Hlive s'.
  assert (Hlive' : ∀ h, h ∈ cache_handles s' → h ∈ os_icons s').
  { destruct (tray_update_resources env t s Hpos)
      as (_ & _ & _ & _ & _ & _ & new & balloon & C & _ & I & _).
    fold s' in C, I. intros h. rewrite C, I, elem_of_app. intros [Hh|Hh]; [|tauto].
    right. right. by apply Hlive. }
  split; [|exact Hlive'].
  subst s'. rewrite tray_update_eq in *.
  set (s3 := run_steps (take 3 (tray_update_steps env t (hmenu s))) s) in *.
  destruct (before_notify_spec env t s) as (_ & _ & _ & N3 & _). fold s3 in N3.
  destruct (destroy_prevmenu_spec (hmenu s) (apply_notify_icon env t s3)) as (_ & _ & D3 & _).
  destruct (destroy_prevmenu_resources (hmenu s) (apply_notify_icon env t s3)) as (D1 & _).
  destruct (apply_notify_icon_resources env t s3) as (C4 & _).
  pose proof (apply_notify_icon_hIcon env t s3) as H4.
  destruct (fetch_icon_entry env (icon t) REGULAR s3) as (e & He & Hp & Hv).
  simpl in Hv. rewrite Hv in H4.
  exists e. split; [by rewrite D1, C4|]. split; [done|].
  rewrite D3, H4, N3. unfold truthy.
  destruct (Z.eqb_spec (icon_info.icon e) 0) as [Hz|Hnz]; simpl.
  - split; [done|]. done.
  - split; [|done]. intros _. split; [done|]. apply Hlive'.
    apply elem_of_cache_handles. exists e. split; [by rewrite D1, C4|].
    apply elem_of_entry_handles. split; [done|]. by left.
Qed.

Lemma tray_update_shows_cached_icon_witness :
  0 < os_next_handle initial_state ∧
  (∀ h, h ∈ cache_handles initial_state → h ∈ os_icons initial_state) ∧
  (∀ h, h ∈ cache_handles (tray_update quiet_env scenario initial_state) →
        h ∈ os_icons (tray_update quiet_env scenario initial_state)).
Proof.
  assert (H1 : 0 < os_next_handle initial_state) by (vm_compute; reflexivity).
  assert (H2 : ∀ h, h ∈ cache_handles initial_state → h ∈ os_icons initial_state).
  { intros h Hh. change (cache_handles initial_state) with (@nil Z) in Hh.
    by apply elem_of_nil in Hh. }
  split; [exact H1|]. split; [exact H2|].
  exact (proj2 (tray_update_shows_cached_icon quiet_env scenario initial_state H1 H2)).
Defined.

(** ** The shape of a built menu *)

Lemma shaped_node_eq p n id it :
  shaped_node p n id it =
  if decide (text n = "-") then it = separator_item
  else
    match submenu n with
    | Some s =>
        ∃ h, shaped_for shaped_node p 0 s id h ∧
             it = Build_MENUITEM 0 (state_bits n)
                    (id + Z.of_nat (length (walk_for postorder_node p 0 s)))
                    (Some h) (text n) (Some p)
    | None => it = Build_MENUITEM 0 (state_bits n) id None (text n) (Some p)
    end.
Proof. by destruct n. Qed.

Lemma tray_menu_for_shaped m :
  Forall body_shaped m →
  ∀ addr i acc id,
    0 < id → Z.of_nat (length acc) ≤ id →
    Forall (λ it, wID it < id) (all_items acc) →
    id + Z.of_nat (length (walk_for postorder_node addr i m)) < 2 ^ 32 →
    ∃ its,
      _tray_menu_for _tray_menu_body addr i m acc id =
        (acc ++ its, id + Z.of_nat (length (walk_for postorder_node addr i m))) ∧
      shaped_for shaped_node addr i m id its.
Proof.
  induction 1 as [|n rest Hn _ IH]; intros addr i acc id Hid Hlen Hbelow Hfit; simpl in *.
  - exists []. rewrite app_nil_r, Z.add_0_r. by split.
  - rewrite length_app in Hfit |- *. rewrite Nat2Z.inj_add in Hfit |- *.
    set (ln := Z.of_nat (length (postorder_node (addr ++ [i]) n))) in *.
    set (lr := Z.of_nat (length (walk_for postorder_node addr (S i) rest))) in *.
    assert (1 ≤ ln).
    { subst ln. rewrite postorder_node_eq, length_app. simpl. lia. }
    destruct (Hn (addr ++ [i]) acc id) as (it & Heq & Hshape); [done|done|done|lia|].
    destruct (tray_menu_body_appends n (addr ++ [i]) acc id) as (it0 & Heq0 & _ & Hw);
      [done|done|done|lia|].
    rewrite Heq in Heq0. injection Heq0 as Hit%app_inv_head. injection Hit as <-.
    rewrite Heq. cbv beta iota. fold ln in Hw |- *.
    replace (to_UINT (id + ln - 1 + 1)) with (id + ln).
    2:{ unfold to_UINT. rewrite Z.mod_small; lia. }
    destruct (IH addr (S i) (acc ++ [it]) (id + ln)) as (its & -> & Hshapes).
    + lia.
    + rewrite length_app. simpl. lia.
    + rewrite all_items_app. apply Forall_app. split; [|done].
      eapply Forall_impl; [exact Hbelow|]. simpl. lia.
    + fold lr. lia.
    + exists (it :: its). fold lr. split; [|by split].
      f_equal; [by rewrite <- app_assoc | lia].
Qed.

Lemma tray_menu_body_shaped n : body_shaped n.
Proof.
  induction n as [n IH] using tray_menu_nested_ind.
  intros p acc id Hid Hlen Hbelow Hfit.
  rewrite tray_menu_body_eq. rewrite postorder_node_eq in Hfit |- *.
  setoid_rewrite shaped_node_eq.
  destruct (decide (text n = "-")) as [Hsep|Hsep].
  - assert (Hone : match submenu n with Some _ => [] | None => [] end ++ [(p, n)]
                   = [(p, n)]) by (by destruct (submenu n)).
    rewrite Hone. simpl.
    exists separator_item. rewrite InsertMenuA_separator_append by done.
    split; [f_equal; lia|done].
  - destruct (submenu n) as [s|] eqn:Hs.
    + rewrite length_app in Hfit |- *. simpl in Hfit |- *.
      rewrite Nat2Z.inj_add in Hfit |- *. simpl in Hfit |- *.
      set (ls := Z.of_nat (length (walk_for postorder_node p 0 s))) in *.
      destruct (tray_menu_for_shaped s (IH _ eq_refl) p 0%nat [] id)
        as (its & -> & Hshape); [done|simpl; lia|constructor|fold ls; lia|].
      fold ls. cbv beta iota zeta.
      eexists. rewrite InsertMenuItemA_append by lia.
      split; [f_equal; lia|]. exists its. split; [exact Hshape|]. simpl. reflexivity.
    + cbv beta iota zeta. cbn [app length] in Hfit |- *.
      eexists. rewrite InsertMenuItemA_append by lia.
      split; [f_equal; lia|]. reflexivity.
Qed.

Lemma shaped_for_lookup (node : list nat → tray_menu → Z → MENUITEM → Prop) m :
  ∀ addr i id h,
    shaped_for node addr i m id h →
    length h = length m ∧
    ∀ j n, m !! j = Some n →
      ∃ it id', h !! j = Some it ∧ node (addr ++ [(i + j)%nat]) n id' it.
Proof.
  induction m as [|n m IH]; intros addr i id [|it h]; simpl; try done.
  intros [Hn Hrest]. destruct (IH _ _ _ _ Hrest) as (Hlen & Hall).
  split; [by rewrite Hlen|]. intros [|j] n'; simpl.
  - intros [= <-]. exists it, id. split; [done|]. by rewrite Nat.add_0_r.
  - intros Hj. destruct (Hall j n' Hj) as (it' & id' & H1 & H2).
    exists it', id'. split; [done|]. by replace (i + S j)%nat with (S i + j)%nat by lia.
Qed.

(** X23.  While the identifiers do not wrap, the menu built from a
    description has its shape: as many items as the array has entries, in
    the same order; a separator where the text is "-"; elsewhere an item
    with the entry's text, state bits and address, whose submenu is the
    menu built in the same way from the entry's submenu, and whose
    identifier is the slot after the slots of that submenu. *)
Theorem tray_menu_shape m :
  ID_TRAY_FIRST + Z.of_nat (length (postorder m)) < 2 ^ 32 →
  let built := (_tray_menu (Some m) ID_TRAY_FIRST).1 in
  shaped_for shaped_node [] 0 m ID_TRAY_FIRST built ∧
  length built = length m ∧
  (∀ i n, m !! i = Some n →
     ∃ it, built !! i = Some it ∧
           (text n = "-" → it = separator_item) ∧
           (text n ≠ "-" →
              dwItemData it = Some [i] ∧ dwTypeData it = text n ∧ fState it = state_bits n ∧
              (is_Some (hSubMenu it) ↔ is_Some (submenu n)))).
Proof.
  intros Hfit built.
  destruct (tray_menu_for_shaped m) with (addr := @nil nat) (i := 0%nat)
      (acc := @nil MENUITEM) (id := ID_TRAY_FIRST) as (its & Heq & Hshape).
  - apply Forall_forall. intros; apply tray_menu_body_shaped.
  - done.
  - done.
  - constructor.
  - exact Hfit.
  - assert (Hb : built = its) by (subst built; simpl; by rewrite Heq).
    rewrite Hb. split; [exact Hshape|].
    destruct (shaped_for_lookup shaped_node m [] 0%nat ID_TRAY_FIRST its Hshape) as (Hlen & Hall).
    split; [exact Hlen|]. intros i n Hi.
    destruct (Hall i n Hi) as (it & id' & Hit & Hnode). simpl in Hnode.
    exists it. split; [exact Hit|]. rewrite shaped_node_eq in Hnode.
    destruct (decide (text n = "-")) as [Hsep|Hsep]; [by split|].
    split; [done|]. intros _.
    destruct (submenu n) as [s|].
    + destruct Hnode as (h & _ & ->). simpl. split; [done|]. split; [done|]. split; [done|].
      split; intros _; by eexists.
    + rewrite Hnode. simpl. split; [done|]. split; [done|]. split; [done|].
      split; intros [? [=]].
Qed.

Lemma tray_menu_shape_witness :
  ID_TRAY_FIRST + Z.of_nat (length (postorder nested_menu)) < 2 ^ 32 ∧
  shaped_for shaped_node [] 0 nested_menu ID_TRAY_FIRST
    (_tray_menu (Some nested_menu) ID_TRAY_FIRST).1 ∧
  (_tray_menu (Some nested_menu) ID_TRAY_FIRST).1 =
    [Build_MENUITEM 0 0 (ID_TRAY_FIRST + 1)
       (Some [Build_MENUITEM 0 0 ID_TRAY_FIRST None "Open" (Some [0%nat; 0%nat])])
       "File" (Some [0%nat])].
Proof.
  assert (H : ID_TRAY_FIRST + Z.of_nat (length (postorder nested_menu)) < 2 ^ 32)
    by (vm_compute; reflexivity).
  split; [exact H|]. split; [exact (proj1 (tray_menu_shape nested_menu H))|].
  vm_compute. reflexivity.
Defined.

(** ** Handles that outlive their owner *)

(** X24.  [tray_exit] destroys the active menu and leaves its handle in
    [hmenu]; the next [tray_update] takes that handle for the previous
    menu and destroys it a second time, when it names no menu any more. *)
Theorem stale_menu_destroyed_twice env t s :
  hmenu s ≠ 0 →
  let s1 := tray_exit env s in
  let s2 := tray_update env t s1 in
  hmenu s1 = hmenu s ∧ os_menus s1 !! hmenu s = None ∧
  EvDestroyMenu (hmenu s) ∈ new_events s s1 ∧
  EvDestroyMenu (hmenu s) ∈ new_events s1 s2 ∧
  last (new_events s1 s2) = Some (EvDestroyMenu (hmenu s)).
Proof.
  intros Hnz s1 s2.
  destruct (tray_exit_spec env s) as (_ & _ & M & _ & _ & _ & H & _ & _ & _ & T).
  fold s1 in M, H, T.
  destruct (tray_update_trace env t s1) as (s6 & T2). fold s2 in T2.
  apply Z.eqb_neq in Hnz. rewrite Hnz in M, T. rewrite H, Hnz in T2.
  split; [done|]. split; [by rewrite M, lookup_delete_eq|].
  rewrite (new_events_app _ _ _ T), (new_events_app _ _ _ T2).
  split; [right; by left|].
  assert (Hl : ∀ l : list event, last (l ++ [EvDestroyMenu (hmenu s)]) =
                                 Some (EvDestroyMenu (hmenu s))) by (intros; apply last_snoc).
  split.
  - rewrite !app_assoc. apply elem_of_app. right. by left.
  - rewrite !app_assoc. apply Hl.
Qed.

Lemma stale_menu_destroyed_twice_witness :
  hmenu (tray_update quiet_env scenario initial_state) ≠ 0 ∧
  EvDestroyMenu (hmenu (tray_update quiet_env scenario initial_state)) ∈
    new_events (tray_exit quiet_env (tray_update quiet_env scenario initial_state))
      (tray_update quiet_env scenario
         (tray_exit quiet_env (tray_update quiet_env scenario initial_state))).
Proof.
  assert (H : hmenu (tray_update quiet_env scenario initial_state) ≠ 0)
    by (vm_compute; discriminate).
  split; [exact H|].
  exact (proj1 (proj2 (proj2 (proj2
    (stale_menu_destroyed_twice quiet_env scenario
       (tray_update quiet_env scenario initial_state) H))))).
Defined.

(** X25.  [_init_icon_cache] starts a new array without destroying what
    the cache held: the icons of the entries it replaces stay live, are in
    no entry of the new cache, and are still live after
    [_destroy_icon_cache]. *)
Theorem init_icon_cache_drops_old env paths s :
  icons_below_next s → (∀ h, h ∈ cache_handles s → h ∈ os_icons s) →
  let s1 := _init_icon_cache env paths s in
  ∀ h, h ∈ cache_handles s →
    h ∈ os_icons s1 ∧ (h ∉ cache_handles s1) ∧ h ∈ os_icons (_destroy_icon_cache s1).
Proof.
  intros (Hpos & _ & Hcache) Hlive s1 h Hh.
  destruct (init_icon_cache_for_resources env paths (set_icon_infos [] s) Hpos)
    as (_ & _ & _ & _ & new & C1 & B1 & I1).
  fold (_init_icon_cache env paths s) in C1, B1, I1. fold s1 in C1, B1, I1.
  simpl in C1, B1, I1.
  assert (C1' : cache_handles s1 = new) by (rewrite C1; done).
  assert (H1 : h ∈ os_icons s1) by (apply I1; right; by apply Hlive).
  assert (H2 : h ∉ cache_handles s1).
  { rewrite C1'. intros Hn. specialize (B1 h Hn). specialize (Hcache h Hh). lia. }
  split; [done|]. split; [done|]. by apply destroy_icon_cache_icons.
Qed.

Lemma init_icon_cache_drops_old_witness :
  let s := _init_icon_cache quiet_env ["a.ico"] initial_state in
  icons_below_next s ∧ (∀ h, h ∈ cache_handles s → h ∈ os_icons s) ∧
  1 ∈ cache_handles s ∧
  1 ∈ os_icons (_destroy_icon_cache (_init_icon_cache quiet_env ["a.ico"] s)).
Proof.
  intros s.
  assert (Hc : cache_handles s = [2; 1; 3]) by (vm_compute; reflexivity).
  assert (Hi : ∀ h, h ∈ os_icons s ↔ h = 1 ∨ h = 2 ∨ h = 3).
  { intros h.
    assert (E : os_icons s = {[3]} ∪ ({[2]} ∪ ({[1]} ∪ ∅))) by reflexivity.
    rewrite E, !elem_of_union, !elem_of_singleton, elem_of_empty. tauto. }
  assert (Hn : os_next_handle s = 4) by (vm_compute; reflexivity).
  assert (H1 : icons_below_next s).
  { split; [by rewrite Hn|]. split.
    - intros h Hh%Hi. rewrite Hn. lia.
    - intros h. rewrite Hc, Hn, !elem_of_cons, elem_of_nil. lia. }
  assert (H2 : ∀ h, h ∈ cache_handles s → h ∈ os_icons s).
  { intros h. rewrite Hc, Hi, !elem_of_cons, elem_of_nil. tauto. }
  assert (H3 : 1 ∈ cache_handles s) by (rewrite Hc; right; by left).
  split; [exact H1|]. split; [exact H2|]. split; [exact H3|].
  exact (proj2 (proj2 (init_icon_cache_drops_old quiet_env ["a.ico"] s H1 H2 1 H3))).
Defined.

(** ** The whole notify-icon record across an update *)

Section record_fields.
Variable env : Environment.

Lemma update_tip_balloon t flags s :
  let r := update_tip env t flags s in
  hBalloonIcon (nid r.2) = hBalloonIcon (nid s) ∧
  dwInfoFlags (nid r.2) = dwInfoFlags (nid s) ∧
  os_next_handle r.2 = os_next_handle s.
Proof. unfold update_tip. by destruct (has_chars (tooltip t)). Qed.

(** The balloon icon and the balloon flags after the balloon part of an
    update. *)
Lemma update_info_balloon t flags s :
  let r := update_info env t flags s in
  let loaded := if balloon_image_loads env t then os_next_handle s else 0 in
  let shown := if loaded =? 0 then hIcon (nid s) else loaded in
  if has_info t && defined_NIIF_LARGE_ICON env && truthy shown
  then hBalloonIcon (nid r.2) = shown ∧
       dwInfoFlags (nid r.2) = Z.lor NIIF_USER NIIF_LARGE_ICON
  else hBalloonIcon (nid r.2) = hBalloonIcon (nid s) ∧ dwInfoFlags (nid r.2) = NIIF_NONE.
Proof.
  unfold update_info, balloon_image_loads, has_info, decode_icon, truthy.
  destruct (has_chars (notification_title t) || has_chars (notification_text t));
    [|done].
  destruct (has_chars (notification_icon t)); simpl.
  - destruct (icon_decodes env (default EmptyString (notification_icon t)) NOTIFICATION);
      simpl.
    + destruct (os_next_handle s =? 0) eqn:En; simpl;
        destruct (hIcon (nid s) =? 0) eqn:Ei; simpl; rewrite ?En, ?Ei; simpl;
        destruct (defined_NIIF_LARGE_ICON env); simpl; rewrite ?En, ?Ei; done.
    + destruct (hIcon (nid s) =? 0) eqn:Ei; simpl; rewrite ?Ei; simpl;
        destruct (defined_NIIF_LARGE_ICON env); simpl; rewrite ?Ei; done.
  - destruct (hIcon (nid s) =? 0) eqn:Ei; simpl; rewrite ?Ei; simpl;
      destruct (defined_NIIF_LARGE_ICON env); simpl; rewrite ?Ei; done.
Qed.

Lemma apply_notify_icon_balloon t s :
  let s' := apply_notify_icon env t s in
  let fetched := _fetch_icon env (icon t) REGULAR s in
  let loaded := if balloon_image_loads env t then os_next_handle fetched.2 else 0 in
  let shown := if loaded =? 0 then hIcon (nid s') else loaded in
  if has_info t && defined_NIIF_LARGE_ICON env && truthy shown
  then hBalloonIcon (nid s') = shown ∧
       dwInfoFlags (nid s') = Z.lor NIIF_USER NIIF_LARGE_ICON
  else hBalloonIcon (nid s') = hBalloonIcon (nid s) ∧ dwInfoFlags (nid s') = NIIF_NONE.
Proof.
  intros s' fetched loaded shown.
  pose proof (apply_notify_icon_hIcon env t s) as HI. fold s' in HI.
  subst shown loaded fetched. rewrite HI. clear HI. subst s'.
  unfold apply_notify_icon.
  destruct (fetch_icon_frame env (icon t) REGULAR s) as (N1 & _).
  destruct (_fetch_icon env (icon t) REGULAR s) as [h s1]. simpl in N1. cbn [fst snd].
  set (flags1 := if truthy h then Z.lor (Z.lor NIF_MESSAGE NIF_GUID) NIF_ICON
                 else Z.lor NIF_MESSAGE NIF_GUID).
  set (s2 := if truthy h then upd_nid (set_hIcon h) s1 else s1).
  replace (if truthy h then (Z.lor (Z.lor NIF_MESSAGE NIF_GUID) NIF_ICON, upd_nid (set_hIcon h) s1)
           else (Z.lor NIF_MESSAGE NIF_GUID, s1)) with (flags1, s2)
    by (subst flags1 s2; by destruct (truthy h)).
  assert (H2 : hIcon (nid s2) = (if truthy h then h else hIcon (nid s)) ∧
               hBalloonIcon (nid s2) = hBalloonIcon (nid s) ∧
               os_next_handle s2 = os_next_handle s1).
  { subst s2. destruct (truthy h); simpl; by rewrite ?N1. }
  destruct H2 as (A1 & A2 & A3).
  pose proof (update_tip_hIcon env t flags1 s2) as B1.
  pose proof (update_tip_balloon t flags1 s2) as (B2 & _ & B3).
  destruct (update_tip env t flags1 s2) as [flags2 s3]. simpl in B1, B2, B3.
  pose proof (update_info_balloon t flags2 s3) as C.
  destruct (update_info env t flags2 s3) as [flags3 s4]. cbn [fst snd] in C.
  cbv zeta in C. rewrite B1, B2, B3, A1, A2, A3 in C.
  assert (N : nid (let '(ok, s0) :=
                     Shell_NotifyIconA env NIM_MODIFY
                       (upd_nid (set_uFlags flags3)
                          (set_g_notification_cb (notification_cb t) s4)) in
                   if ok then s0
                   else tray_log_last_error TRAY_LOG_WARNING "Shell_NotifyIconA(NIM_MODIFY)" s0)
              = set_uFlags flags3 (nid s4)).
  { unfold Shell_NotifyIconA, tray_log_last_error, tray_log. simpl.
    destruct (Shell_NotifyIconA_ok env NIM_MODIFY _); simpl; [done|].
    by destruct (g_tray_log_cb s4). }
  rewrite N. exact C.
Qed.
End record_fields.

(** C5, amended.  Whatever the notify-icon record held before, an update
    leaves in [uFlags] exactly the flags of the fields its own description
    provides: the message and identity flags always, the icon flag when the
    icon resolved, the tooltip flag when there is a tooltip, the balloon
    flag when there is a title or a text; this is the record handed to the
    shell.  An update whose description has no tooltip, after any earlier
    update, leaves the tooltip flag clear and the tooltip array holding the
    empty string.  The icon handle is the one the description's icon
    resolved to, and the one the record held before when it did not
    resolve.  With a balloon, and where the SDK has [NIIF_LARGE_ICON], the
    balloon icon is the image loaded for the balloon, or else the icon
    handle of the record when that is not NULL, and the balloon flags say
    so; in every other case the balloon flags are [NIIF_NONE] and the
    balloon icon is the one the record held before.  The fields that name
    the icon are left as they were.  In a record with arrays of the
    declared sizes the three arrays hold the strings of the description,
    cut to size. *)
Theorem tray_update_recomputes_flags env t s :
  let s' := tray_update env t s in
  let fetched :=
    _fetch_icon env (icon t) REGULAR
      (run_steps (take 3 (tray_update_steps env t (hmenu s))) s) in
  let icon_ok := truthy fetched.1 in
  let loaded := if balloon_image_loads env t then os_next_handle fetched.2 else 0 in
  let shown := if loaded =? 0 then hIcon (nid s') else loaded in
  uFlags (nid s') = expected_uFlags env t icon_ok ∧
  (Z.land (uFlags (nid s')) NIF_ICON ≠ 0 ↔ icon_ok = true) ∧
  (Z.land (uFlags (nid s')) NIF_TIP ≠ 0 ↔ has_chars (tooltip t) = true) ∧
  (Z.land (uFlags (nid s')) NIF_INFO ≠ 0 ↔ has_info t = true) ∧
  EvShell_NotifyIconA NIM_MODIFY (nid s') ∈ trace s' ∧
  (∀ t2, has_chars (tooltip t2) = false →
     let s2 := tray_update env t2 s' in
     Z.land (uFlags (nid s2)) NIF_TIP = 0 ∧ c_str (szTip (nid s2)) = [] ∧
     EvShell_NotifyIconA NIM_MODIFY (nid s2) ∈ trace s2) ∧
  hIcon (nid s') = (if icon_ok then fetched.1 else hIcon (nid s)) ∧
  (if has_info t && defined_NIIF_LARGE_ICON env && truthy shown
   then hBalloonIcon (nid s') = shown ∧
        dwInfoFlags (nid s') = Z.lor NIIF_USER NIIF_LARGE_ICON
   else hBalloonIcon (nid s') = hBalloonIcon (nid s) ∧ dwInfoFlags (nid s') = NIIF_NONE) ∧
  same_identity (nid s) (nid s') ∧
  (nid_sized (nid s) →
     nid_sized (nid s') ∧
     c_str (szTip (nid s')) =
       take (SZTIP_SIZE - 1)
         (c_str (String.list_ascii_of_string (chars_or_empty (tooltip t)))) ∧
     c_str (szInfoTitle (nid s')) =
       take (SZINFOTITLE_SIZE - 1)
         (c_str (String.list_ascii_of_string (chars_or_empty (notification_title t)))) ∧
     c_str (szInfo (nid s')) =
       take (SZINFO_SIZE - 1)
         (c_str (String.list_ascii_of_string (chars_or_empty (notification_text t))))).
Proof.
  intros s' fetched icon_ok loaded shown.
  destruct (tray_update_spec env t s) as (F & T & TI & I & _ & _ & _ & _ & E).
  fold s' fetched icon_ok in F. fold s' in T, TI, I, E. rewrite F.
  destruct (expected_uFlags_bits env t icon_ok) as (B1 & B2 & B3 & _).
  do 5 (split; [done|]).
  split.
  { intros t2 Htip s2.
    destruct (tray_update_spec env t2 s') as (F2 & T2 & _ & _ & _ & _ & _ & _ & E2).
    fold s2 in F2, T2, E2. split; [|split; [|done]].
    - rewrite F2.
      match goal with |- Z.land (expected_uFlags env t2 ?b) _ = 0 =>
        destruct (expected_uFlags_bits env t2 b) as (_ & B & _);
        destruct (decide (Z.land (expected_uFlags env t2 b) NIF_TIP = 0)) as [|Hne]; [done|];
        apply B in Hne; congruence
      end.
    - rewrite T2. unfold szTip_after. rewrite Htip. apply c_str_insert_0. }
  assert (Hn : nid s' =
               nid (apply_notify_icon env t
                      (run_steps (take 3 (tray_update_steps env t (hmenu s))) s))).
  { subst s'. rewrite tray_update_eq.
    by destruct (destroy_prevmenu_spec (hmenu s)
                   (apply_notify_icon env t
                      (run_steps (take 3 (tray_update_steps env t (hmenu s))) s)))
      as (_ & _ & -> & _). }
  destruct (before_notify_spec env t s) as (_ & _ & _ & N3 & _).
  split.
  { rewrite Hn, apply_notify_icon_hIcon, N3. done. }
  split.
  { pose proof (apply_notify_icon_balloon env t
                  (run_steps (take 3 (tray_update_steps env t (hmenu s))) s)) as HB.
    cbv zeta in HB. rewrite N3, <- Hn in HB. exact HB. }
  split.
  { destruct (tray_update_keeps_window env t s) as (_ & _ & _ & _ & _ & _ & HS). exact HS. }
  intros (H1 & H2 & H3).
  destruct (szTip_after_spec t _ H1) as (A1 & A2 & A3).
  destruct (szInfoTitle_after_spec t _ H3) as (C1 & C2 & C3).
  destruct (szInfo_after_spec t _ H2) as (D1 & D2 & D3).
  unfold nid_sized. rewrite T, TI, I. done.
Qed.

Lemma tray_update_recomputes_flags_witness :
  let s := (tray_init one_icon_env scenario initial_state).2 in
  let s' := tray_update one_icon_env balloon_other_icon s in
  nid_sized (nid s) ∧
  nid_sized (nid s') ∧
  c_str (szTip (nid s')) =
    take (SZTIP_SIZE - 1)
      (c_str (String.list_ascii_of_string (chars_or_empty (tooltip balloon_other_icon)))) ∧
  c_str (szInfoTitle (nid s')) =
    take (SZINFOTITLE_SIZE - 1)
      (c_str (String.list_ascii_of_string
                (chars_or_empty (notification_title balloon_other_icon)))) ∧
  c_str (szInfo (nid s')) =
    take (SZINFO_SIZE - 1)
      (c_str (String.list_ascii_of_string
                (chars_or_empty (notification_text balloon_other_icon)))).
Proof.
  intros s s'.
  assert (H : nid_sized (nid s)) by (vm_compute; done).
  split; [exact H|].
  exact (proj2 (proj2 (proj2 (proj2 (proj2 (proj2 (proj2 (proj2 (proj2
           (tray_update_recomputes_flags one_icon_env balloon_other_icon s))))))))) H).
Defined.

(** C5 as stated fails.  After [tray_init] with an icon that resolves, an
    update whose icon does not resolve and whose balloon names no image
    hands the shell a record that still has the icon handle of
    [tray_init], and has it as the balloon icon as well, with the flags of
    a balloon icon set.  The same description given to [tray_init] itself
    leaves both handles NULL and the balloon flags [NIIF_NONE]. *)
Lemma tray_update_keeps_unresolved_icon :
  let s := (tray_init one_icon_env scenario initial_state).2 in
  let after := tray_update one_icon_env balloon_other_icon s in
  let fresh := (tray_init one_icon_env balloon_other_icon initial_state).2 in
  notification_icon balloon_other_icon = None ∧
  icon_decodes one_icon_env (icon balloon_other_icon) REGULAR = false ∧
  g_tray after = Some balloon_other_icon ∧ g_tray fresh = Some balloon_other_icon ∧
  hIcon (nid s) = 2 ∧
  (uFlags (nid after), hIcon (nid after), hBalloonIcon (nid after), dwInfoFlags (nid after)) =
    (49, 2, 2, Z.lor NIIF_USER NIIF_LARGE_ICON) ∧
  (uFlags (nid fresh), hIcon (nid fresh), hBalloonIcon (nid fresh), dwInfoFlags (nid fresh)) =
    (49, 0, 0, NIIF_NONE) ∧
  Z.land 49 NIF_ICON = 0 ∧ Z.land 49 NIF_INFO ≠ 0 ∧
  EvShell_NotifyIconA NIM_MODIFY (nid after) ∈ trace after ∧
  EvShell_NotifyIconA NIM_MODIFY (nid fresh) ∈ trace fresh.
Proof.
  intros s after fresh.
  do 9 (split; [by vm_compute|]).
  split.
  - by destruct (tray_update_spec one_icon_env balloon_other_icon s)
      as (_ & _ & _ & _ & _ & _ & _ & _ & E).
  - apply (list_elem_of_lookup_2 _ (length (trace fresh) - 1)).
    vm_compute. reflexivity.
Qed.
